(** * The asynchronous training-job lifecycle

    A shallow embedding of the job core of the ML platform backend:
    - [backend/tasks.py]: the Job Runner ([train_model_task]) with its helpers
      [get_redis_client], [update_job_status], [publish_update],
      [check_cancellation], [handle_pause] and [calculate_epochs];
    - [backend/routes/dependencies.py] and [backend/routes/training.py]: the
      Job Control API ([train_model], [job_status], [pause_job], [resume_job],
      [stop_job]).

    Redis, Celery, the file system, pandas and scikit-learn are the program's
    environment.  Redis is modelled as a key space with expiry times, a log of
    the commands the server executed, and a script that says, command by
    command, whether the connection fails and what other clients wrote in the
    meantime.  The numerical collaborators are oracles. *)

From Stdlib Require Import ZArith Ascii String.
From stdpp Require Import gmap strings list pretty.

Open Scope string_scope.

(** ** Python values that travel through [json] *)

(** A Python [float]: a finite one is [m * 10^e] (every binary double is such a
    decimal), the others are the three special values. *)
Inductive pyfloat : Type :=
| Finite (m e : Z)
| NaN
| Infinity (negative : bool).

(** A status record or an event is a Python [dict] with string keys.  Python
    dictionaries keep insertion order, and [json.dumps] prints in that order,
    so a dictionary is an association list.  [JOpaque] stands for any object
    the [json] module cannot serialise (a numpy scalar, an estimator, ...). *)
#[warnings="-register-all"]
Inductive json : Type :=
| JNull
| JBool (b : bool)
| JInt (z : Z)
| JFloat (x : pyfloat)
| JStr (s : string)
| JList (l : list json)
| JObj (kvs : list (string * json))
| JOpaque (type_name : string).

Abbreviation dict := (list (string * json)).

(** [d.get(k)] *)
Fixpoint dict_get (k : string) (d : dict) : option json :=
  match d with
  | [] => None
  | (k', v) :: rest => if String.eqb k k' then Some v else dict_get k rest
  end.

(** [d[k] = v]: an existing key keeps its position, a new key goes last. *)
Fixpoint dict_set (k : string) (v : json) (d : dict) : dict :=
  match d with
  | [] => [(k, v)]
  | (k', v') :: rest =>
      if String.eqb k k' then (k', v) :: rest else (k', v') :: dict_set k v rest
  end.

(** [d.update(e)] *)
Definition dict_update (d e : dict) : dict :=
  fold_left (fun acc kv => dict_set (fst kv) (snd kv) acc) e d.

(** [d.get(k)] where a missing key reads as [None], as in the history entry. *)
Definition dict_get_or_null (k : string) (d : dict) : json :=
  match dict_get k d with Some v => v | None => JNull end.

(** [d.get(k, default)] *)
Definition dict_get_default (k : string) (default : json) (d : dict) : json :=
  match dict_get k d with Some v => v | None => default end.

(** ** Exceptions *)

(** All of these derive from Python's [Exception].  The three Redis classes are
    [redis.exceptions.ConnectionError], [redis.exceptions.TimeoutError] and any
    other [redis.RedisError].  [OSError] stands for the operating-system
    errors other than [FileNotFoundError] (name too long, permission denied,
    is a directory). *)
Inductive Exn : Type :=
| RedisConnectionError (msg : string)
| RedisTimeoutError (msg : string)
| RedisError (msg : string)
| FileNotFoundError (msg : string)
| ValueError (msg : string)
| TypeError (msg : string)
| OSError (msg : string)
| PyException (msg : string)
| HTTPException (status_code : Z) (detail : string).

(** [str(e)] *)
Definition exn_str (e : Exn) : string :=
  match e with
  | RedisConnectionError m | RedisTimeoutError m | RedisError m
  | FileNotFoundError m | ValueError m | TypeError m | OSError m | PyException m => m
  | HTTPException c d => pretty c +:+ ": " +:+ d
  end.

(** [except (RedisConnectionError, RedisTimeoutError)] *)
Definition is_conn_or_timeout (e : Exn) : bool :=
  match e with
  | RedisConnectionError _ | RedisTimeoutError _ => true
  | _ => false
  end.

(** [except redis.RedisError] *)
Definition is_redis_error (e : Exn) : bool :=
  match e with
  | RedisConnectionError _ | RedisTimeoutError _ | RedisError _ => true
  | _ => false
  end.

Definition is_http_exception (e : Exn) : bool :=
  match e with HTTPException _ _ => true | _ => false end.

(** ** [json.dumps] *)

Definition dquote : ascii := ascii_of_nat 34.
Definition backslash : ascii := ascii_of_nat 92.

Definition hex_digit (n : N) : ascii :=
  match n with
  | 0 => "0" | 1 => "1" | 2 => "2" | 3 => "3" | 4 => "4" | 5 => "5"
  | 6 => "6" | 7 => "7" | 8 => "8" | 9 => "9" | 10 => "a" | 11 => "b"
  | 12 => "c" | 13 => "d" | 14 => "e" | _ => "f"
  end%char%N.

(** The escape of one character under [ensure_ascii=True]: the short escapes,
    then [\u00XX] for everything outside the printable ASCII range. *)
Definition escape_char (c : ascii) : string :=
  let n := N_of_ascii c in
  if (n =? 34)%N then String backslash (String dquote "")
  else if (n =? 92)%N then String backslash (String backslash "")
  else if (n =? 10)%N then String backslash "n"
  else if (n =? 13)%N then String backslash "r"
  else if (n =? 9)%N then String backslash "t"
  else if (n =? 8)%N then String backslash "b"
  else if (n =? 12)%N then String backslash "f"
  else if ((32 <=? n) && (n <=? 126))%N then String c ""
  else String backslash
         (String "u" (String "0" (String "0"
           (String (hex_digit (n / 16)) (String (hex_digit (n mod 16)) ""))))).

Fixpoint escape (s : string) : string :=
  match s with
  | EmptyString => EmptyString
  | String c rest => escape_char c +:+ escape rest
  end.

Definition quote (s : string) : string :=
  String dquote (escape s +:+ String dquote "").

(** The text of a float.  A finite float is written in exponent form, one of
    the spellings [json.loads] reads back as the same float (Python itself
    prints the shortest such spelling). *)
Definition dump_float (x : pyfloat) : string :=
  match x with
  | Finite m e => pretty m +:+ "e" +:+ pretty e
  | NaN => "NaN"
  | Infinity false => "Infinity"
  | Infinity true => "-Infinity"
  end.

(** The items of a list, joined by [", "]. *)
Definition dump_items (dump : json -> Exn + string) : list json -> Exn + string :=
  fix items (l : list json) : Exn + string :=
    match l with
    | [] => inr ""
    | x :: rest =>
        match dump x with
        | inl e => inl e
        | inr sx =>
            match rest with
            | [] => inr sx
            | _ => match items rest with
                   | inl e => inl e
                   | inr sr => inr (sx +:+ ", " +:+ sr)
                   end
            end
        end
    end.

(** The members of a dictionary, each [key: value], joined by [", "]. *)
Definition dump_members (dump : json -> Exn + string)
  : list (string * json) -> Exn + string :=
  fix members (kvs : list (string * json)) : Exn + string :=
    match kvs with
    | [] => inr ""
    | (k, x) :: rest =>
        match dump x with
        | inl e => inl e
        | inr sx =>
            match rest with
            | [] => inr (quote k +:+ ": " +:+ sx)
            | _ => match members rest with
                   | inl e => inl e
                   | inr sr => inr (quote k +:+ ": " +:+ sx +:+ ", " +:+ sr)
                   end
            end
        end
    end.

(** [json.dumps(v)] with the default separators [", "] and [": "].  An object
    that is not serialisable raises [TypeError]. *)
Fixpoint json_dumps (v : json) : Exn + string :=
  match v with
  | JNull => inr "null"
  | JBool true => inr "true"
  | JBool false => inr "false"
  | JInt z => inr (pretty z)
  | JFloat x => inr (dump_float x)
  | JStr s => inr (quote s)
  | JList l =>
      match dump_items json_dumps l with
      | inl e => inl e
      | inr s => inr ("[" +:+ s +:+ "]")
      end
  | JObj kvs =>
      match dump_members json_dumps kvs with
      | inl e => inl e
      | inr s => inr ("{" +:+ s +:+ "}")
      end
  | JOpaque t =>
      inl (TypeError ("Object of type " +:+ t +:+ " is not JSON serializable"))
  end.

(** ** [json.loads] *)

Definition is_ws (c : ascii) : bool :=
  let n := N_of_ascii c in
  ((n =? 32) || (n =? 9) || (n =? 10) || (n =? 13))%N.

Fixpoint skip_ws (s : string) : string :=
  match s with
  | String c rest => if is_ws c then skip_ws rest else s
  | EmptyString => s
  end.

Definition is_digit (c : ascii) : bool :=
  let n := N_of_ascii c in ((48 <=? n) && (n <=? 57))%N.

Definition digit_value (c : ascii) : Z := Z.of_N (N_of_ascii c) - 48.

Definition hex_value (c : ascii) : option N :=
  let n := N_of_ascii c in
  if ((48 <=? n) && (n <=? 57))%N then Some (n - 48)%N
  else if ((97 <=? n) && (n <=? 102))%N then Some (n - 87)%N
  else if ((65 <=? n) && (n <=? 70))%N then Some (n - 55)%N
  else None.

(** What a backslash followed by [e] stands for, [\u] apart. *)
Definition short_escape (e : ascii) : option ascii :=
  let m := N_of_ascii e in
  if (m =? 34)%N then Some dquote
  else if (m =? 92)%N then Some backslash
  else if (m =? 47)%N then Some "/"%char
  else if (m =? 110)%N then Some (ascii_of_nat 10)
  else if (m =? 114)%N then Some (ascii_of_nat 13)
  else if (m =? 116)%N then Some (ascii_of_nat 9)
  else if (m =? 98)%N then Some (ascii_of_nat 8)
  else if (m =? 102)%N then Some (ascii_of_nat 12)
  else None.

(** The characters of a string literal after its opening quote, up to and
    including the closing quote.  Code points above 255 do not fit the byte
    strings of this model and are refused. *)
Fixpoint parse_chars (s : string) : option (string * string) :=
  match s with
  | EmptyString => None
  | String c rest =>
      let n := N_of_ascii c in
      if (n =? 34)%N then Some (EmptyString, rest)
      else if (n =? 92)%N then
        match rest with
        | String e rest' =>
            if (N_of_ascii e =? 117)%N then
              match rest' with
              | String h1 (String h2 (String h3 (String h4 rest''))) =>
                  match hex_value h1, hex_value h2, hex_value h3, hex_value h4 with
                  | Some 0%N, Some 0%N, Some a, Some b =>
                      match parse_chars rest'' with
                      | Some (t, r) => Some (String (ascii_of_N (16 * a + b)) t, r)
                      | None => None
                      end
                  | _, _, _, _ => None
                  end
              | _ => None
              end
            else
              match short_escape e with
              | Some d =>
                  match parse_chars rest' with
                  | Some (t, r) => Some (String d t, r)
                  | None => None
                  end
              | None => None
              end
        | EmptyString => None
        end
      else if (n <? 32)%N then None
      else
        match parse_chars rest with
        | Some (t, r) => Some (String c t, r)
        | None => None
        end
  end.

(** The longest run of digits at the head of [s]. *)
Fixpoint take_digits (s : string) : string * string :=
  match s with
  | String c rest =>
      if is_digit c then let (d, r) := take_digits rest in (String c d, r)
      else (EmptyString, s)
  | EmptyString => (EmptyString, s)
  end.

Fixpoint digits_value_from (acc : Z) (s : string) : Z :=
  match s with
  | String c rest => digits_value_from (10 * acc + digit_value c)%Z rest
  | EmptyString => acc
  end.

Definition digits_value (s : string) : Z := digits_value_from 0 s.

Definition signed (negative : bool) (z : Z) : Z := if negative then (- z)%Z else z.

Definition parse_sign (s : string) : bool * string :=
  match s with
  | String "-" r => (true, r)
  | _ => (false, s)
  end.

(** An optional fraction: a point and at least one digit. *)
Definition parse_frac (s : string) : string * string :=
  match s with
  | String "." r =>
      let (fd, r') := take_digits r in
      match fd with
      | EmptyString => (EmptyString, s)
      | _ => (fd, r')
      end
  | _ => (EmptyString, s)
  end.

(** The optional sign of an exponent. *)
Definition parse_exp_sign (s : string) : bool * string :=
  match s with
  | String "+" r => (false, r)
  | String "-" r => (true, r)
  | _ => (false, s)
  end.

(** An optional exponent: [e] or [E], an optional sign, at least one digit. *)
Definition parse_exp (s : string) : option Z * string :=
  match s with
  | String c r =>
      if (Ascii.eqb c "e" || Ascii.eqb c "E")%bool then
        let (neg, r1) := parse_exp_sign r in
        let (ed, r2) := take_digits r1 in
        match ed with
        | EmptyString => (None, s)
        | _ => (Some (signed neg (digits_value ed)), r2)
        end
      else (None, s)
  | EmptyString => (None, s)
  end.

(** A number token: an optional minus sign, an integer part without leading
    zero, an optional fraction and an optional exponent.  Without fraction and
    exponent it is an [int], otherwise a [float]. *)
Definition parse_number (s : string) : option (json * string) :=
  let (neg, s1) := parse_sign s in
  let (ip, s2) := take_digits s1 in
  match ip with
  | EmptyString => None
  | String d ds =>
      if (Ascii.eqb d "0" && negb (String.eqb ds EmptyString))%bool then None
      else
        let (fd, s3) := parse_frac s2 in
        let (ex, s4) := parse_exp s3 in
        match fd, ex with
        | EmptyString, None => Some (JInt (signed neg (digits_value ip)), s4)
        | _, _ =>
            Some (JFloat (Finite (signed neg (digits_value (ip +:+ fd)))
                                 (match ex with Some x => x | None => 0 end
                                  - Z.of_nat (String.length fd))%Z), s4)
        end
  end.

(** [prefix_rest p s] is [Some r] when [s] is [p] followed by [r]. *)
Fixpoint prefix_rest (p s : string) : option string :=
  match p, s with
  | EmptyString, _ => Some s
  | String a p', String b s' => if Ascii.eqb a b then prefix_rest p' s' else None
  | String _ _, EmptyString => None
  end.

Definition parse_literal (s : string) : option (json * string) :=
  match prefix_rest "null" s with
  | Some r => Some (JNull, r)
  | None =>
  match prefix_rest "true" s with
  | Some r => Some (JBool true, r)
  | None =>
  match prefix_rest "false" s with
  | Some r => Some (JBool false, r)
  | None =>
  match prefix_rest "NaN" s with
  | Some r => Some (JFloat NaN, r)
  | None =>
  match prefix_rest "Infinity" s with
  | Some r => Some (JFloat (Infinity false), r)
  | None =>
  match prefix_rest "-Infinity" s with
  | Some r => Some (JFloat (Infinity true), r)
  | None => parse_number s
  end end end end end end.

(** The items of a non-empty list after its opening bracket, at most [k]. *)
Definition parse_items (parse : string -> option (json * string))
  : nat -> string -> option (list json * string) :=
  fix items (k : nat) (s : string) : option (list json * string) :=
    match k with
    | O => None
    | S k' =>
        match parse s with
        | Some (v, r) =>
            match skip_ws r with
            | String "," r' =>
                match items k' r' with
                | Some (vs, r'') => Some (v :: vs, r'')
                | None => None
                end
            | String "]" r' => Some ([v], r')
            | _ => None
            end
        | None => None
        end
    end.

(** The members of a non-empty dictionary after its opening brace. *)
Definition parse_members (parse : string -> option (json * string))
  : nat -> string -> option (list (string * json) * string) :=
  fix members (k : nat) (s : string) : option (list (string * json) * string) :=
    match k with
    | O => None
    | S k' =>
        match skip_ws s with
        | String q s1 =>
            if (N_of_ascii q =? 34)%N then
              match parse_chars s1 with
              | Some (key, s2) =>
                  match skip_ws s2 with
                  | String ":" s3 =>
                      match parse s3 with
                      | Some (v, r) =>
                          match skip_ws r with
                          | String "," r' =>
                              match members k' r' with
                              | Some (kvs, r'') => Some ((key, v) :: kvs, r'')
                              | None => None
                              end
                          | String "}" r' => Some ([(key, v)], r')
                          | _ => None
                          end
                      | None => None
                      end
                  | _ => None
                  end
              | None => None
              end
            else None
        | EmptyString => None
        end
    end.

(** A value at the head of [s] (after white space), and what follows it.  The
    fuel bounds the nesting depth and the number of members of a container;
    the length of the text is enough for both. *)
Fixpoint parse_value (fuel : nat) (s : string) : option (json * string) :=
  match fuel with
  | O => None
  | S f =>
      match skip_ws s with
      | EmptyString => None
      | String c rest =>
          let n := N_of_ascii c in
          if (n =? 34)%N then
            match parse_chars rest with
            | Some (t, r) => Some (JStr t, r)
            | None => None
            end
          else if (n =? 91)%N then
            match skip_ws rest with
            | String "]" r => Some (JList [], r)
            | _ =>
                match parse_items (parse_value f) fuel rest with
                | Some (vs, r) => Some (JList vs, r)
                | None => None
                end
            end
          else if (n =? 123)%N then
            match skip_ws rest with
            | String "}" r => Some (JObj [], r)
            | _ =>
                match parse_members (parse_value f) fuel rest with
                | Some (kvs, r) => Some (JObj kvs, r)
                | None => None
                end
            end
          else parse_literal (String c rest)
      end
  end.

(** The number of nodes of a value. *)
Fixpoint json_size (v : json) : nat :=
  match v with
  | JList l => S (sum_list (map json_size l))
  | JObj kvs => S (sum_list (map (fun kv => json_size (snd kv)) kvs))
  | _ => 1
  end.

(** A Python dictionary has no key twice; this holds of every dictionary
    inside [v]. *)
Fixpoint unique_keys (v : json) : bool :=
  match v with
  | JList l => forallb unique_keys l
  | JObj kvs =>
      bool_decide (NoDup (map fst kvs))
      && forallb (fun kv => unique_keys (snd kv)) kvs
  | _ => true
  end.

(** Python keeps the last of several members with one key. *)
Fixpoint dedup_keys (v : json) : json :=
  match v with
  | JList l => JList (map dedup_keys l)
  | JObj kvs =>
      JObj (fold_left (fun acc kv => dict_set (fst kv) (dedup_keys (snd kv)) acc)
                      kvs [])
  | _ => v
  end.

(** [json.loads(s)]; a text that is not one JSON value raises
    [json.JSONDecodeError], a [ValueError]. *)
Definition json_loads (s : string) : Exn + json :=
  match parse_value (S (String.length s)) s with
  | Some (v, rest) =>
      match skip_ws rest with
      | EmptyString => inr (dedup_keys v)
      | _ => inl (ValueError "Extra data")
      end
  | None => inl (ValueError "Expecting value")
  end.

(** ** The environment *)

(** A command the Redis server executed for the process under study. *)
Inductive Command : Type :=
| PING
| GET (key : string)
| SET (key value : string)
| SETEX (key : string) (seconds : Z) (value : string)
| DEL (key : string)
| PUBLISH (channel message : string).

Inductive Level : Type := WARNING | ERROR | STDOUT.

(** What an observer sees, oldest first: the commands that reached the server
    and the records written by [logger.warning], [logger.error] and [print]
    (records at level INFO and below are left out). *)
Inductive Event : Type :=
| Cmd (c : Command)
| Log (lvl : Level) (msg : string).

(** A stored value with its absolute expiry time, if it has one. *)
Abbreviation entry := (string * option Z)%type.

(** One turn of the connection script, consumed by one command: what other
    clients did to the key space since the previous command ([Some] entry for
    a write, [None] for a delete), and whether this command fails. *)
Record Turn : Type := {
  ext : list (string * option entry);
  fault : option Exn
}.

(** The table pandas reads from a CSV file, as far as the runner looks at it. *)
Record DataFrame : Type := {
  columns : list string;
  n_rows : nat;              (* len(df) *)
  n_complete : nat;          (* len(df.dropna()) *)
  non_numeric : list string  (* columns whose dtype is not a number *)
}.

(** A path of the file system that is not a regular file. *)
Inductive Special : Type :=
| Directory
| StatFails (msg : string).  (* os.stat raises OSError(msg): the name is too
                                long, a parent directory cannot be searched *)

(** A unit of work handed to Celery by [train_model_task.delay]. *)
Record TaskCall : Type := {
  call_dataset_path : string;
  call_model_config : dict;
  call_target_column : string;
  call_job_id : string;
  call_task_type : string
}.

Record World : Type := {
  now : Z;                               (* wall clock, in milliseconds *)
  kv : gmap string entry;                (* the Redis key space *)
  script : list Turn;                    (* empty: a quiet, reliable store *)
  trace : list Event;
  worker_client : bool;                  (* tasks.redis_client is not None *)
  api_client : bool;                     (* dependencies.redis_client is not None *)
  files : gmap string (option DataFrame);(* regular files: path -> what
                                            read_csv makes of it *)
  special : gmap string Special;         (* the other paths the system knows *)
  artifacts : list string;               (* files written by joblib.dump *)
  queue : list TaskCall;                 (* tasks accepted by the broker *)
  revoked_tasks : list json;             (* task ids revoked with terminate *)
  broker : list (option Exn)             (* one entry per call to the broker *)
}.

Definition with_now (t : Z) (w : World) : World :=
  {| now := t; kv := kv w; script := script w; trace := trace w;
     worker_client := worker_client w; api_client := api_client w;
     files := files w; special := special w;
     artifacts := artifacts w; queue := queue w;
     revoked_tasks := revoked_tasks w; broker := broker w |}.

Definition with_kv (m : gmap string entry) (w : World) : World :=
  {| now := now w; kv := m; script := script w; trace := trace w;
     worker_client := worker_client w; api_client := api_client w;
     files := files w; special := special w;
     artifacts := artifacts w; queue := queue w;
     revoked_tasks := revoked_tasks w; broker := broker w |}.

Definition with_script (s : list Turn) (w : World) : World :=
  {| now := now w; kv := kv w; script := s; trace := trace w;
     worker_client := worker_client w; api_client := api_client w;
     files := files w; special := special w;
     artifacts := artifacts w; queue := queue w;
     revoked_tasks := revoked_tasks w; broker := broker w |}.

Definition with_trace (t : list Event) (w : World) : World :=
  {| now := now w; kv := kv w; script := script w; trace := t;
     worker_client := worker_client w; api_client := api_client w;
     files := files w; special := special w;
     artifacts := artifacts w; queue := queue w;
     revoked_tasks := revoked_tasks w; broker := broker w |}.

Definition with_worker_client (b : bool) (w : World) : World :=
  {| now := now w; kv := kv w; script := script w; trace := trace w;
     worker_client := b; api_client := api_client w;
     files := files w; special := special w;
     artifacts := artifacts w; queue := queue w;
     revoked_tasks := revoked_tasks w; broker := broker w |}.

Definition with_api_client (b : bool) (w : World) : World :=
  {| now := now w; kv := kv w; script := script w; trace := trace w;
     worker_client := worker_client w; api_client := b;
     files := files w; special := special w;
     artifacts := artifacts w; queue := queue w;
     revoked_tasks := revoked_tasks w; broker := broker w |}.

Definition with_artifacts (a : list string) (w : World) : World :=
  {| now := now w; kv := kv w; script := script w; trace := trace w;
     worker_client := worker_client w; api_client := api_client w;
     files := files w; special := special w;
     artifacts := a; queue := queue w;
     revoked_tasks := revoked_tasks w; broker := broker w |}.

Definition with_queue (q : list TaskCall) (w : World) : World :=
  {| now := now w; kv := kv w; script := script w; trace := trace w;
     worker_client := worker_client w; api_client := api_client w;
     files := files w; special := special w;
     artifacts := artifacts w; queue := q;
     revoked_tasks := revoked_tasks w; broker := broker w |}.

Definition with_revoked (r : list json) (w : World) : World :=
  {| now := now w; kv := kv w; script := script w; trace := trace w;
     worker_client := worker_client w; api_client := api_client w;
     files := files w; special := special w;
     artifacts := artifacts w; queue := queue w;
     revoked_tasks := r; broker := broker w |}.

Definition with_broker (b : list (option Exn)) (w : World) : World :=
  {| now := now w; kv := kv w; script := script w; trace := trace w;
     worker_client := worker_client w; api_client := api_client w;
     files := files w; special := special w;
     artifacts := artifacts w; queue := queue w;
     revoked_tasks := revoked_tasks w; broker := b |}.

(** ** Computations that may raise *)

(** The outcome of running Python code from a world: it returns, it raises, or
    it is still waiting when the fuel of a polling loop is used up. *)
Inductive Res (A : Type) : Type :=
| Ret (a : A) (w : World)
| Raise (e : Exn) (w : World)
| Hang (w : World).
Arguments Ret {A} a w.
Arguments Raise {A} e w.
Arguments Hang {A} w.

Definition M (A : Type) : Type := World -> Res A.

Definition ret {A} (a : A) : M A := fun w => Ret a w.

Definition bind {A B} (m : M A) (k : A -> M B) : M B :=
  fun w => match m w with
           | Ret a w' => k a w'
           | Raise e w' => Raise e w'
           | Hang w' => Hang w'
           end.

Definition raise {A} (e : Exn) : M A := fun w => Raise e w.

(** [try: m  except Exception as e: h e] *)
Definition try_except {A} (m : M A) (h : Exn -> M A) : M A :=
  fun w => match m w with
           | Raise e w' => h e w'
           | r => r
           end.

(** [try: m  except <classes accepted by p> as e: h e] *)
Definition try_except_if {A} (p : Exn -> bool) (m : M A) (h : Exn -> M A) : M A :=
  try_except m (fun e => if p e then h e else raise e).

(** What a call to a library function that may fail amounts to. *)
Definition lift {A} (r : Exn + A) : M A :=
  match r with inl e => raise e | inr a => ret a end.

Declare Scope py_scope.
Delimit Scope py_scope with py.
Notation "x <- m ;; k" := (bind m (fun x => k))
  (at level 100, m at next level, right associativity) : py_scope.
Notation "m ;; k" := (bind m (fun _ => k))
  (at level 100, right associativity) : py_scope.
Open Scope py_scope.

Definition world_of {A} (r : Res A) : World :=
  match r with Ret _ w | Raise _ w | Hang w => w end.

Definition emit (e : Event) : M unit :=
  fun w => Ret tt (with_trace (trace w ++ [e])%list w).

Definition log (lvl : Level) (msg : string) : M unit := emit (Log lvl msg).

(** [time.sleep(ms / 1000)] *)
Definition sleep (ms : Z) : M unit :=
  fun w => Ret tt (with_now (now w + ms)%Z w).

(** ** Redis *)

Definition apply_ext (upd : list (string * option entry)) (m : gmap string entry)
  : gmap string entry :=
  fold_left (fun m u => match snd u with
                        | Some e => <[fst u := e]> m
                        | None => delete (fst u) m
                        end) upd m.

(** The value under [key] at time [t]; an expired entry reads as absent. *)
Definition live_value (t : Z) (m : gmap string entry) (key : string) : option string :=
  match m !! key with
  | Some (v, Some deadline) => if (t <? deadline)%Z then Some v else None
  | Some (v, None) => Some v
  | None => None
  end.

(** One command on the connection: the other clients' writes land first, then
    the command fails as scripted or takes effect and enters the trace. *)
Definition command {A} (c : Command) (exec : World -> A * World) : M A :=
  fun w =>
    let w1 := match script w with
              | [] => w
              | t :: rest => with_script rest (with_kv (apply_ext (ext t) (kv w)) w)
              end in
    match script w with
    | {| fault := Some e |} :: _ => Raise e w1
    | _ => let (a, w2) := exec w1 in Ret a (with_trace (trace w2 ++ [Cmd c])%list w2)
    end.

Definition redis_ping : M unit := command PING (fun w => (tt, w)).

Definition redis_get (key : string) : M (option string) :=
  command (GET key) (fun w => (live_value (now w) (kv w) key, w)).

Definition redis_set (key value : string) : M unit :=
  command (SET key value) (fun w => (tt, with_kv (<[key := (value, None)]> (kv w)) w)).

Definition redis_setex (key : string) (seconds : Z) (value : string) : M unit :=
  command (SETEX key seconds value)
    (fun w => (tt, with_kv (<[key := (value, Some (now w + seconds * 1000)%Z)]> (kv w)) w)).

Definition redis_delete (key : string) : M unit :=
  command (DEL key) (fun w => (tt, with_kv (delete key (kv w)) w)).

Definition redis_publish (channel message : string) : M unit :=
  command (PUBLISH channel message) (fun w => (tt, w)).

Definition status_key (job_id : string) : string := "job_status:" +:+ job_id.
Definition pause_key (job_id : string) : string := "job_pause:" +:+ job_id.
Definition cancel_key (job_id : string) : string := "job_cancel:" +:+ job_id.
Definition channel (job_id : string) : string := "job_" +:+ job_id.

(** ** Small pieces of Python *)

(** Truth value of an object in a condition. *)
Definition float_is_zero (x : pyfloat) : bool :=
  match x with
  | Finite m _ => (m =? 0)%Z
  | _ => false
  end.

(** [x > 0] for a float; NaN compares false. *)
Definition float_is_positive (x : pyfloat) : bool :=
  match x with
  | Finite m _ => (0 <? m)%Z
  | NaN => false
  | Infinity negative => negb negative
  end.

Definition truthy (v : json) : bool :=
  match v with
  | JNull => false
  | JBool b => b
  | JInt z => negb (z =? 0)%Z
  | JFloat x => negb (float_is_zero x)
  | JStr s => negb (String.eqb s EmptyString)
  | JList l => match l with [] => false | _ => true end
  | JObj kvs => match kvs with [] => false | _ => true end
  | JOpaque _ => true
  end.

(** [v > 0]; only numbers compare with an [int]. *)
Definition greater_than_zero (v : json) : Exn + bool :=
  match v with
  | JInt z => inr (0 <? z)%Z
  | JBool b => inr b
  | JFloat x => inr (float_is_positive x)
  | _ => inl (TypeError "'>' not supported between these instances and 'int'")
  end.

(** [range(v)]: the number of iterations, for an [int] (or [bool]). *)
Definition range_len (v : json) : Exn + nat :=
  match v with
  | JInt z => inr (Z.to_nat z)
  | JBool b => inr (if b then 1 else 0)
  | _ => inl (TypeError "object cannot be interpreted as an integer")
  end.

(** The integer an [int] (or [bool]) stands for in arithmetic. *)
Definition int_value (v : json) : Z :=
  match v with
  | JInt z => z
  | JBool true => 1
  | _ => 0
  end.

(** [v in [s1, s2, ...]] for a list of strings *)
Definition is_one_of (v : json) (l : list string) : bool :=
  match v with
  | JStr s => bool_decide (s ∈ l)
  | _ => false
  end.

(** [str(v)], as an f-string prints a value; a container is shown by its JSON
    text. *)
Definition py_str (v : json) : string :=
  match v with
  | JNull => "None"
  | JBool true => "True"
  | JBool false => "False"
  | JInt z => pretty z
  | JFloat x => dump_float x
  | JStr s => s
  | JOpaque t => "<" +:+ t +:+ ">"
  | _ => match json_dumps v with inr s => s | inl _ => "<object>" end
  end.

(** [str(list_of_strings)] *)
Definition py_list_repr (l : list string) : string :=
  "[" +:+ String.concat ", " (map (fun s => "'" +:+ s +:+ "'") l) +:+ "]".

(** [s.lower()] *)
Definition lower_char (c : ascii) : ascii :=
  let n := N_of_ascii c in
  if ((65 <=? n) && (n <=? 90))%N then ascii_of_N (n + 32) else c.

Fixpoint lower (s : string) : string :=
  match s with
  | String c rest => String (lower_char c) (lower rest)
  | EmptyString => EmptyString
  end.

(** A duration in milliseconds as the [float] of its seconds. *)
Definition seconds_float (ms : Z) : pyfloat := Finite ms (-3).

(** [round(seconds, 2)] of a duration in milliseconds, again as a float. *)
Definition round2 (ms : Z) : Z := ((ms + 5) / 10 * 10)%Z.

(** The duration formatted by [:.2f]. *)
Definition fixed2 (ms : Z) : string :=
  let r := (round2 ms / 10)%Z in
  pretty (r / 100)%Z +:+ "." +:+
  (if (r mod 100 <? 10)%Z then "0" else EmptyString) +:+ pretty (r mod 100)%Z.

(** Time stamps are printed as the clock reading. *)
Definition isoformat (t : Z) : string := pretty t.

(** ** The file system *)

(** What [os.stat(path)] finds. *)
Inductive Stat : Type :=
| IsFile
| IsDir
| NotFound
| StatError (msg : string).

Fixpoint has_nul (s : string) : bool :=
  match s with
  | String c rest => (N_of_ascii c =? 0)%N || has_nul rest
  | EmptyString => false
  end.

(** [os.stat(path)].  The empty path names nothing, and a path with a NUL
    character is refused before the system sees it (a [ValueError], which
    both existence tests below read as "not there"). *)
Definition os_stat (w : World) (path : string) : Stat :=
  if String.eqb path EmptyString || has_nul path then NotFound
  else match special w !! path with
       | Some Directory => IsDir
       | Some (StatFails msg) => StatError msg
       | None => if bool_decide (is_Some (files w !! path)) then IsFile else NotFound
       end.

(** [os.path.exists(path)]: every error of [os.stat] reads as [False]. *)
Definition os_path_exists (w : World) (path : string) : bool :=
  match os_stat w path with
  | IsFile | IsDir => true
  | NotFound | StatError _ => false
  end.

(** [s.lstrip(c)] *)
Fixpoint lstrip (c : ascii) (s : string) : string :=
  match s with
  | String a rest => if Ascii.eqb a c then lstrip c rest else s
  | EmptyString => s
  end.

(** [s.split(sep)] for a one-character separator. *)
Fixpoint split_on (sep : ascii) (s : string) : list string :=
  match s with
  | EmptyString => [EmptyString]
  | String c rest =>
      if Ascii.eqb c sep then EmptyString :: split_on sep rest
      else match split_on sep rest with
           | x :: xs => String c x :: xs
           | [] => [String c EmptyString]
           end
  end.

(** [pathlib]'s [splitroot] on POSIX: the root is ["/"], or ["//"] for
    exactly two leading slashes. *)
Definition splitroot (part : string) : string * string :=
  match part with
  | String "/" _ =>
      let stripped := lstrip "/" part in
      if (String.length part - String.length stripped =? 2)%nat
      then ("//", stripped) else ("/", stripped)
  | _ => (EmptyString, part)
  end.

(** [str(Path(path))] on POSIX: repeated slashes, [.] components and a
    trailing slash go; the empty path is the current directory. *)
Definition pathlib_str (path : string) : string :=
  let (root, rel) := splitroot path in
  let parts :=
    List.filter (fun x => negb (String.eqb x EmptyString) && negb (String.eqb x "."))
                (split_on "/" rel) in
  let s := root +:+ String.concat "/" parts in
  if String.eqb s EmptyString then "." else s.

(** [Path(path).exists()] (Python 3.11): "no such file" reads as [False],
    any other [OSError] of [stat] is raised. *)
Definition path_exists (path : string) : M bool :=
  fun w => match os_stat w (pathlib_str path) with
           | IsFile | IsDir => Ret true w
           | NotFound => Ret false w
           | StatError msg => Raise (OSError msg) w
           end.

(** * [backend/tasks.py] *)

Module Tasks.

(** The "create new connection" half of [get_redis_client]: the module-level
    client is assigned before it is pinged, and a failed ping is re-raised. *)
Definition connect : M unit :=
  try_except
    ((fun w => Ret tt (with_worker_client true w)) ;;
     redis_ping)
    (fun e =>
       (if is_conn_or_timeout e
        then log ERROR ("Redis connection failed: " +:+ exn_str e) ;;
             log ERROR "   Make sure Redis is running on localhost:6379"
        else log ERROR ("Redis initialization error: " +:+ exn_str e)) ;;
       raise e).

(** [get_redis_client()]: the cached client is pinged; when the ping fails the
    cache is dropped and a new connection is made. *)
Definition get_redis_client : M unit :=
  fun w =>
    if worker_client w then
      try_except redis_ping
        (fun e =>
           log WARNING ("Redis connection lost, reconnecting: " +:+ exn_str e) ;;
           (fun w => Ret tt (with_worker_client false w)) ;;
           connect) w
    else connect w.

(** [update_job_status(job_id, data)] *)
Definition update_job_status (job_id : string) (data : dict) : M unit :=
  try_except
    (get_redis_client ;;
     s <- lift (json_dumps (JObj data)) ;;
     redis_setex (status_key job_id) 3600 s)
    (fun e =>
       if is_conn_or_timeout e then
         log ERROR ("Redis connection error updating job " +:+ job_id +:+ ": " +:+ exn_str e)
       else if is_redis_error e then
         log ERROR ("Redis error updating job " +:+ job_id +:+ ": " +:+ exn_str e)
       else
         log ERROR ("Error updating job status " +:+ job_id +:+ ": " +:+ exn_str e)).

(** [publish_update(job_id, data)] *)
Definition publish_update (job_id : string) (data : dict) : M unit :=
  try_except
    (get_redis_client ;;
     s <- lift (json_dumps (JObj data)) ;;
     redis_publish (channel job_id) s)
    (fun e =>
       if is_conn_or_timeout e then
         log ERROR ("Redis connection error publishing for " +:+ job_id +:+ ": " +:+ exn_str e)
       else if is_redis_error e then
         log ERROR ("Redis error publishing for " +:+ job_id +:+ ": " +:+ exn_str e)
       else
         log ERROR ("Error publishing update for " +:+ job_id +:+ ": " +:+ exn_str e)).

(** The host figures [get_resource_usage] samples; [None] when [psutil]
    raises.  The figures are floats. *)
Record Probe : Type := {
  cpu : pyfloat;
  ram : pyfloat;
  gpu : pyfloat
}.

(** [get_resource_usage()] *)
Definition get_resource_usage (probe : option Probe) : M dict :=
  fun w =>
    match probe with
    | Some p =>
        (sleep 100 ;;   (* psutil.cpu_percent(interval=0.1) *)
         fun w => Ret [("timestamp", JInt (now w)); ("cpu", JFloat (cpu p));
                       ("ram", JFloat (ram p)); ("gpu", JFloat (gpu p))] w) w
    | None =>
        (log ERROR "Error getting resource usage" ;;
         ret [("timestamp", JInt (now w)); ("cpu", JFloat (Finite 0 0));
              ("ram", JFloat (Finite 0 0)); ("gpu", JFloat (Finite 0 0))]) w
    end.

(** [self.request] of the bound Celery task, as far as [check_cancellation]
    reads it: a missing attribute reads as [False]. *)
Record TaskRequest : Type := {
  is_aborted : bool;
  revoked : bool
}.

(** [check_cancellation(self, job_id)] *)
Definition check_cancellation (self : TaskRequest) (job_id : string) : M bool :=
  try_except
    (flagged <- try_except_if is_conn_or_timeout
                  (get_redis_client ;;
                   v <- redis_get (cancel_key job_id) ;;
                   ret (bool_decide (v = Some "true")))
                  (fun _ => ret false) ;;
     if flagged then ret true
     else ret (is_aborted self || revoked self))
    (fun e =>
       log ERROR ("Error checking cancellation for " +:+ job_id +:+ ": " +:+ exn_str e) ;;
       ret false).

(** The [while True] loop of [handle_pause], at most [fuel] polls of it:
    [true] when the loop ends in [return True], [false] when it ends in
    [break].  With no fuel left the job is still waiting. *)
Fixpoint pause_wait (fuel : nat) (self : TaskRequest) (job_id : string) : M bool :=
  match fuel with
  | O => fun w => Hang w
  | S fuel' =>
      still_paused <-
        try_except_if is_conn_or_timeout
          (get_redis_client ;;
           v <- redis_get (pause_key job_id) ;;
           ret (bool_decide (v = Some "true")))
          (fun _ =>
             log WARNING ("Redis connection lost during pause for " +:+ job_id
                          +:+ ", resuming training") ;;
             ret false) ;;
      if still_paused then
        cancelled <- check_cancellation self job_id ;;
        if cancelled then ret true
        else sleep 300 ;; pause_wait fuel' self job_id
      else ret false
  end.

(** The "Notify pause" block of [handle_pause] (lines 193-203). *)
Definition notify_paused (job_id : string) : M unit :=
  update_job_status job_id
    [("job_id", JStr job_id); ("status", JStr "paused");
     ("message", JStr "Training paused")] ;;
  publish_update job_id
    [("type", JStr "status"); ("status", JStr "paused");
     ("message", JStr "Training paused. Click Resume to continue.")].

(** The "Notify resume" block of [handle_pause] (lines 220-230). *)
Definition notify_resumed (job_id : string) : M unit :=
  update_job_status job_id
    [("job_id", JStr job_id); ("status", JStr "running");
     ("message", JStr "Training resumed")] ;;
  publish_update job_id
    [("type", JStr "status"); ("status", JStr "running");
     ("message", JStr "Training resumed")].

(** [handle_pause(self, job_id)]: [true] if cancelled. *)
Definition handle_pause (fuel : nat) (self : TaskRequest) (job_id : string) : M bool :=
  try_except
    (flag <- try_except_if is_conn_or_timeout
               (get_redis_client ;;
                v <- redis_get (pause_key job_id) ;;
                ret (Some v))
               (fun _ => ret None) ;;
     match flag with
     | None => ret false
     | Some pause_flag =>
         if negb (bool_decide (pause_flag = Some "true")) then ret false
         else
           notify_paused job_id ;;
           cancelled <- pause_wait fuel self job_id ;;
           if cancelled then ret true
           else
             notify_resumed job_id ;;
             ret false
     end)
    (fun e =>
       log ERROR ("Error handling pause for " +:+ job_id +:+ ": " +:+ exn_str e) ;;
       ret false).

(** [get_model_display_name(model_type)] *)
Definition get_model_display_name (model_type : string) : string :=
  let m := lower model_type in
  if String.eqb m "knn" then "K-Nearest Neighbors (KNN)"
  else if String.eqb m "k_nearest_neighbors" then "K-Nearest Neighbors (KNN)"
  else if String.eqb m "random_forest" then "Random Forest"
  else if String.eqb m "svm" then "Support Vector Machine (SVM)"
  else if String.eqb m "support_vector_machine" then "Support Vector Machine (SVM)"
  else if String.eqb m "decision_tree" then "Decision Tree"
  else if String.eqb m "dt" then "Decision Tree"
  else model_type.

(** An estimator of scikit-learn as [create_model] asks for it: the class
    and the keyword arguments of its constructor.  (The constructors only
    store their arguments; scikit-learn checks them in [fit].) *)
Record Estimator : Type := {
  class_name : string;
  kwargs : dict
}.

(** [create_model(task_type, model_config)] *)
Definition create_model (task_type : string) (model_config : dict) : Exn + Estimator :=
  match dict_get_default "model_type" (JStr "random_forest") model_config with
  | JStr model_type =>
      let model_type := lower model_type in
      let max_depth := dict_get_or_null "max_depth" model_config in
      let random_state := dict_get_default "random_state" (JInt 42) model_config in
      let get := fun k default => dict_get_default k default model_config in
      if String.eqb task_type "classification" then
        if bool_decide (model_type ∈ ["knn"; "k_nearest_neighbors"]) then
          inr {| class_name := "KNeighborsClassifier";
                 kwargs := [("n_neighbors", get "n_neighbors" (JInt 5));
                            ("weights", get "weights" (JStr "uniform"));
                            ("algorithm", get "algorithm" (JStr "auto"));
                            ("metric", get "metric" (JStr "minkowski"));
                            ("p", get "p" (JInt 2)); ("n_jobs", JInt (-1))] |}
        else if bool_decide (model_type ∈ ["decision_tree"; "dt"]) then
          inr {| class_name := "DecisionTreeClassifier";
                 kwargs := [("max_depth", max_depth); ("random_state", random_state);
                            ("min_samples_split", get "min_samples_split" (JInt 2));
                            ("min_samples_leaf", get "min_samples_leaf" (JInt 1))] |}
        else if bool_decide (model_type ∈ ["svm"; "support_vector_machine"]) then
          inr {| class_name := "SVC";
                 kwargs := [("C", get "C" (JFloat (Finite 1 0)));
                            ("kernel", get "kernel" (JStr "rbf"));
                            ("random_state", random_state);
                            ("probability", JBool true); ("cache_size", JInt 500)] |}
        else
          inr {| class_name := "RandomForestClassifier";
                 kwargs := [("n_estimators", get "n_estimators" (JInt 100));
                            ("max_depth", max_depth); ("random_state", random_state);
                            ("n_jobs", JInt (-1));
                            ("min_samples_split", get "min_samples_split" (JInt 2));
                            ("min_samples_leaf", get "min_samples_leaf" (JInt 1));
                            ("verbose", JInt 0)] |}
      else
        if bool_decide (model_type ∈ ["knn"; "k_nearest_neighbors"]) then
          inr {| class_name := "KNeighborsRegressor";
                 kwargs := [("n_neighbors", get "n_neighbors" (JInt 5));
                            ("weights", get "weights" (JStr "uniform"));
                            ("algorithm", get "algorithm" (JStr "auto"));
                            ("metric", get "metric" (JStr "minkowski"));
                            ("p", get "p" (JInt 2)); ("n_jobs", JInt (-1))] |}
        else if bool_decide (model_type ∈ ["decision_tree"; "dt"]) then
          inr {| class_name := "DecisionTreeRegressor";
                 kwargs := [("max_depth", max_depth); ("random_state", random_state);
                            ("min_samples_split", get "min_samples_split" (JInt 2));
                            ("min_samples_leaf", get "min_samples_leaf" (JInt 1))] |}
        else if bool_decide (model_type ∈ ["svm"; "support_vector_machine"]) then
          inr {| class_name := "SVR";
                 kwargs := [("C", get "C" (JFloat (Finite 1 0)));
                            ("kernel", get "kernel" (JStr "rbf"));
                            ("cache_size", JInt 500)] |}
        else
          inr {| class_name := "RandomForestRegressor";
                 kwargs := [("n_estimators", get "n_estimators" (JInt 100));
                            ("max_depth", max_depth); ("random_state", random_state);
                            ("n_jobs", JInt (-1));
                            ("min_samples_split", get "min_samples_split" (JInt 2));
                            ("min_samples_leaf", get "min_samples_leaf" (JInt 1));
                            ("verbose", JInt 0)] |}
  | _ => inl (PyException "object has no attribute 'lower'")
  end.

(** [calculate_epochs(dataset_size, user_epochs)].  The override is whatever
    the caller put under ["epochs"]; [None] is [JNull]. *)
Definition calculate_epochs (dataset_size : Z) (user_epochs : json) : Exn + json :=
  match (if truthy user_epochs then greater_than_zero user_epochs else inr false) with
  | inl e => inl e
  | inr true => inr user_epochs
  | inr false =>
      if (dataset_size <? 1000)%Z then inr (JInt 50)
      else if (dataset_size <? 10000)%Z then inr (JInt 20)
      else inr (JInt 10)
  end.

(** What scikit-learn reports when the fitted model is scored during one pass
    of the progress loop.  All figures are floats; [summary] is the part of
    the progress message that prints them to four decimals. *)
Record Evaluation : Type := {
  train_acc : pyfloat;
  val_acc : pyfloat;
  train_err : pyfloat;     (* 1.0 - train_acc *)
  val_err : pyfloat;       (* 1.0 - val_acc *)
  train_mse : pyfloat;
  val_mse : pyfloat;
  val_mae : pyfloat;
  val_r2 : pyfloat;
  summary : string
}.

(** The final hold-out scores. *)
Record FinalEvaluation : Type := {
  accuracy : pyfloat;
  report : json;          (* classification_report(..., output_dict=True) *)
  mse : pyfloat;
  mae : pyfloat;
  r2 : pyfloat
}.

(** The collaborators of one run: pandas and scikit-learn beyond what
    [DataFrame] records, joblib and psutil.  Each may raise. *)
Record Env : Type := {
  stratify_error : option Exn;            (* train_test_split(stratify=y) *)
  fit_error : option Exn;                 (* model.fit *)
  evaluate : nat -> Exn + Evaluation;     (* predict and score, pass by pass *)
  final_evaluate : Exn + FinalEvaluation;
  dump_error : option Exn;                (* os.makedirs and joblib.dump *)
  probe : nat -> option Probe
}.

(** [len(X_test)] for [test_size=0.2]: the ceiling of a fifth. *)
Definition test_size (n : nat) : nat := (n + 4) / 5.

(** [len(X_train)] *)
Definition train_size (n : nat) : nat := n - test_size n.

(** [progress = 30 + int((epoch + 1) / total_epochs * 50)], in exact
    arithmetic.  (In floating point a pass before the last one may come out
    one lower; on the last pass the quotient is exactly 1.0.) *)
Definition progress_of (epoch : nat) (total_epochs : json) : Z :=
  (30 + (Z.of_nat epoch + 1) * 50 / int_value total_epochs)%Z.

(** The metrics of one pass (lines 498-527). *)
Definition metrics_of (task_type : string) (ev : Evaluation) : dict :=
  if String.eqb task_type "classification" then
    [("accuracy", JFloat (val_acc ev)); ("valAccuracy", JFloat (val_acc ev));
     ("trainAccuracy", JFloat (train_acc ev)); ("loss", JFloat (val_err ev));
     ("valLoss", JFloat (val_err ev)); ("trainLoss", JFloat (train_err ev))]
  else
    [("mse", JFloat (val_mse ev)); ("mae", JFloat (val_mae ev));
     ("r2_score", JFloat (val_r2 ev)); ("loss", JFloat (val_mse ev));
     ("valLoss", JFloat (val_mse ev)); ("trainLoss", JFloat (train_mse ev))].

(** The history entry of one pass (lines 530-538). *)
Definition history_entry (epoch : nat) (metrics : dict) : json :=
  JObj [("epoch", JInt (Z.of_nat epoch + 1));
        ("trainLoss", dict_get_default "trainLoss" (JInt 0) metrics);
        ("valLoss", dict_get_default "valLoss" (JInt 0) metrics);
        ("trainAccuracy", dict_get_or_null "trainAccuracy" metrics);
        ("valAccuracy", dict_get_or_null "valAccuracy" metrics);
        ("mse", dict_get_or_null "mse" metrics);
        ("r2", dict_get_or_null "r2_score" metrics)].

(** Lines 472-481: what the loop writes and publishes when it sees the
    cancel signal at the top of a pass. *)
Definition cancel_in_loop (job_id : string) : M unit :=
  update_job_status job_id
    [("job_id", JStr job_id); ("status", JStr "cancelled");
     ("message", JStr "Training cancelled")] ;;
  publish_update job_id
    [("type", JStr "error"); ("error", JStr "Cancelled");
     ("message", JStr "Training cancelled by user")].

(** The [for epoch in range(total_epochs)] loop (lines 469-570) over the
    epochs still to run.  [inl r]: the loop returned [r] from the task;
    [inr history]: the loop ran to its end. *)
Fixpoint epoch_loop (fuel : nat) (self : TaskRequest) (env : Env)
    (job_id task_type : string) (total_epochs : json) (start_time : Z)
    (epochs : list nat) (training_history : list json) : M (dict + list json) :=
  match epochs with
  | [] => ret (inr training_history)
  | epoch :: later =>
      cancelled <- check_cancellation self job_id ;;
      if cancelled then
        cancel_in_loop job_id ;;
        ret (inl [("status", JStr "cancelled"); ("job_id", JStr job_id)])
      else
        cancelled_in_pause <- handle_pause fuel self job_id ;;
        if cancelled_in_pause then raise (PyException "Training cancelled during pause")
        else
          let progress := progress_of epoch total_epochs in
          ev <- lift (evaluate env epoch) ;;
          elapsed_time <- (fun w => Ret (now w - start_time)%Z w) ;;
          let metrics := metrics_of task_type ev in
          let message := "Epoch " +:+ pretty (Z.of_nat epoch + 1)%Z +:+ "/"
                         +:+ py_str total_epochs +:+ " - " +:+ summary ev in
          let training_history := (training_history ++ [history_entry epoch metrics])%list in
          resource_usage <- get_resource_usage (probe env epoch) ;;
          publish_update job_id
            [("type", JStr "progress"); ("progress", JInt progress);
             ("epoch", JInt (Z.of_nat epoch + 1)); ("total_epochs", total_epochs);
             ("metrics", JObj metrics); ("resource_usage", JObj resource_usage);
             ("elapsed_time", JFloat (seconds_float elapsed_time));
             ("message", JStr message); ("training_history", JList training_history)] ;;
          update_job_status job_id
            [("job_id", JStr job_id); ("status", JStr "running");
             ("progress", JInt progress); ("epoch", JInt (Z.of_nat epoch + 1));
             ("total_epochs", total_epochs); ("metrics", JObj metrics);
             ("elapsed_time", JFloat (seconds_float elapsed_time));
             ("training_history", JList training_history)] ;;
          sleep 100 ;;
          epoch_loop fuel self env job_id task_type total_epochs start_time
                     later training_history
  end.

(** Lines 369-381: the first status write and event. *)
Definition announce_start (job_id : string) : M unit :=
  update_job_status job_id
    [("job_id", JStr job_id); ("status", JStr "running");
     ("progress", JInt 0); ("message", JStr "Training started")] ;;
  publish_update job_id
    [("type", JStr "status"); ("status", JStr "running");
     ("progress", JInt 0); ("message", JStr "Training started - Loading dataset...")].

(** [pd.read_csv(path)] on a path that exists: a table, or the exception of
    the parser or of [open]. *)
Definition read_csv (path : string) : M DataFrame :=
  fun w => match os_stat w path, files w !! path with
           | IsFile, Some (Some df) => Ret df w
           | IsFile, _ => Raise (ValueError "Error tokenizing data") w
           | IsDir, _ =>
               Raise (OSError ("[Errno 21] Is a directory: '" +:+ path +:+ "'")) w
           | NotFound, _ =>
               Raise (FileNotFoundError ("[Errno 2] No such file or directory: '"
                                         +:+ path +:+ "'")) w
           | StatError msg, _ => Raise (OSError msg) w
           end.

(** Lines 383-408: read and check the dataset; the result is [len(df)] after
    [dropna] together with the table. *)
Definition load_dataset (job_id dataset_path target_column : string) : M (DataFrame * nat) :=
  exists_ <- (fun w => Ret (os_path_exists w dataset_path) w) ;;
  if negb exists_ then raise (FileNotFoundError ("Dataset not found: " +:+ dataset_path))
  else
    df <- read_csv dataset_path ;;
    if bool_decide (n_rows df = 0 \/ columns df = []) then
      raise (ValueError "Dataset is empty")
    else if negb (bool_decide (target_column ∈ columns df)) then
      raise (ValueError ("Target column '" +:+ target_column +:+ "' not found. "
                         +:+ "Available: " +:+ py_list_repr (columns df)))
    else
      let initial_rows := n_rows df in
      let rows := n_complete df in
      (if bool_decide (rows < initial_rows) then
         log WARNING ("[JOB " +:+ job_id +:+ "] Dropped " +:+ pretty (initial_rows - rows)
                      +:+ " rows with missing values")
       else ret tt) ;;
      publish_update job_id
        [("type", JStr "progress"); ("progress", JInt 10);
         ("message", JStr ("Dataset loaded: " +:+ pretty rows +:+ " rows, "
                           +:+ pretty (length (columns df)) +:+ " columns"))] ;;
      ret (df, rows).

(** Lines 410-434: the feature check and the 80/20 split; the result is
    [len(X_train)]. *)
Definition split_data (env : Env) (job_id target_column task_type : string)
    (df : DataFrame) (rows : nat) : M nat :=
  let non_numeric :=
    filter (fun c => c <> target_column) (non_numeric df) in
  match non_numeric with
  | _ :: _ =>
      raise (ValueError ("Non-numeric columns found: " +:+ py_list_repr non_numeric
                         +:+ ". Please encode categorical variables."))
  | [] =>
      if bool_decide (rows = 0 \/ train_size rows = 0) then
        raise (ValueError ("With n_samples=" +:+ pretty rows +:+ ", test_size=0.2 and "
                           +:+ "train_size=None, the resulting train set will be empty."))
      else
        match (if String.eqb task_type "classification"
               then stratify_error env else None) with
        | Some e => raise e
        | None =>
            publish_update job_id
              [("type", JStr "progress"); ("progress", JInt 20);
               ("message", JStr ("Data split: Train=" +:+ pretty (train_size rows)
                                 +:+ ", Test=" +:+ pretty (test_size rows)))] ;;
            ret (train_size rows)
        end
  end.

(** Lines 436-449: the model is built ([create_model] lower-cases the model
    type, which must be a string) and the epoch count is fixed. *)
Definition init_model (job_id task_type : string) (model_config : dict)
    (n_train : nat) : M json :=
  match dict_get_default "model_type" (JStr "random_forest") model_config with
  | JStr model_type =>
      publish_update job_id
        [("type", JStr "progress"); ("progress", JInt 30);
         ("message", JStr ("Model initialized: " +:+ get_model_display_name model_type
                           +:+ " (" +:+ task_type +:+ ")"))] ;;
      lift (calculate_epochs (Z.of_nat n_train) (dict_get_or_null "epochs" model_config))
  | _ => raise (PyException "object has no attribute 'lower'")
  end.

(** Lines 451-466: the checkpoints around the single [model.fit]. *)
Definition fit_model (fuel : nat) (self : TaskRequest) (env : Env) (job_id : string)
  : M unit :=
  cancelled <- check_cancellation self job_id ;;
  if cancelled then raise (PyException "Training cancelled by user")
  else
    cancelled_in_pause <- handle_pause fuel self job_id ;;
    if cancelled_in_pause then raise (PyException "Training cancelled during pause")
    else
      match fit_error env with
      | Some e => raise e
      | None =>
          cancelled <- check_cancellation self job_id ;;
          if cancelled then raise (PyException "Training cancelled by user")
          else ret tt
      end.

(** [d.get(k, default)] on a value that should be a dictionary. *)
Definition json_get (k : string) (default : json) (v : json) : Exn + json :=
  match v with
  | JObj d => inr (dict_get_default k default d)
  | _ => inl (PyException "object has no attribute 'get'")
  end.

(** The [result] dictionary of a classification run (lines 581-591). *)
Definition classification_result (fin : FinalEvaluation) (precision recall f1 : json)
    (training_time : Z) (training_history : list json) : dict :=
  [("status", JStr "completed"); ("task_type", JStr "classification");
   ("accuracy", JFloat (accuracy fin)); ("precision", precision);
   ("recall", recall); ("f1", f1);
   ("classification_report", report fin);
   ("training_time", JFloat (seconds_float (round2 training_time)));
   ("training_history", JList training_history)].

(** The [result] dictionary of a regression run (lines 597-605). *)
Definition regression_result (fin : FinalEvaluation)
    (training_time : Z) (training_history : list json) : dict :=
  [("status", JStr "completed"); ("task_type", JStr "regression");
   ("mse", JFloat (mse fin)); ("mae", JFloat (mae fin));
   ("r2_score", JFloat (r2 fin));
   ("training_time", JFloat (seconds_float (round2 training_time)));
   ("training_history", JList training_history)].

(** Lines 576-605: the [result] of the run, by task type. *)
Definition final_result (task_type : string) (fin : FinalEvaluation)
    (training_time : Z) (training_history : list json) : M dict :=
  if String.eqb task_type "classification" then
    weighted_avg <- lift (json_get "weighted avg" (JObj []) (report fin)) ;;
    precision <- lift (json_get "precision" (JInt 0) weighted_avg) ;;
    recall <- lift (json_get "recall" (JInt 0) weighted_avg) ;;
    f1 <- lift (json_get "f1-score" (JInt 0) weighted_avg) ;;
    ret (classification_result fin precision recall f1 training_time training_history)
  else
    ret (regression_result fin training_time training_history).

(** What [result.update] adds once the model is saved (lines 612-616). *)
Definition completed_result (result : dict) (job_id completed_at : string) : dict :=
  dict_update result
    [("model_path", JStr ("models/" +:+ job_id +:+ "_model.pkl"));
     ("completed_at", JStr completed_at); ("job_id", JStr job_id)].

(** The completion event (lines 621-627). *)
Definition complete_event (result : dict) (training_time : Z) : dict :=
  [("type", JStr "complete"); ("progress", JInt 100);
   ("elapsed_time", JFloat (seconds_float training_time));
   ("results", JObj result);
   ("message", JStr ("Training completed in " +:+ fixed2 training_time +:+ "s!"))].

(** Lines 572-631: final scores, the model artifact, the final status write
    and the completion event. *)
Definition finish (env : Env) (job_id task_type : string) (start_time : Z)
    (training_history : list json) : M dict :=
  fin <- lift (final_evaluate env) ;;
  training_time <- (fun w => Ret (now w - start_time)%Z w) ;;
  result <- final_result task_type fin training_time training_history ;;
  let model_path := "models/" +:+ job_id +:+ "_model.pkl" in
  match dump_error env with
  | Some e => raise e
  | None =>
      (fun w => Ret tt (with_artifacts (artifacts w ++ [model_path])%list w)) ;;
      completed_at <- (fun w => Ret (isoformat (now w)) w) ;;
      let result := completed_result result job_id completed_at in
      update_job_status job_id result ;;
      publish_update job_id (complete_event result training_time) ;;
      ret result
  end.

(** Lines 633-649: the handler of any exception of the run. *)
Definition on_exception {A} (job_id : string) (e : Exn) : M A :=
  let error_msg := exn_str e in
  log ERROR ("[JOB " +:+ job_id +:+ "] Failed: " +:+ error_msg) ;;
  update_job_status job_id
    [("job_id", JStr job_id); ("status", JStr "failed"); ("error", JStr error_msg)] ;;
  publish_update job_id
    [("type", JStr "error"); ("error", JStr error_msg);
     ("message", JStr ("Training failed: " +:+ error_msg))] ;;
  raise e.

(** [train_model_task(self, dataset_path, model_config, target_column, job_id,
    task_type)].  [fuel] bounds the polls of each wait for resume. *)
Definition train_model_task (fuel : nat) (self : TaskRequest) (env : Env)
    (dataset_path : string) (model_config : dict)
    (target_column job_id task_type : string) : M dict :=
  start_time <- (fun w => Ret (now w) w) ;;
  try_except
    (announce_start job_id ;;
     loaded <- load_dataset job_id dataset_path target_column ;;
     n_train <- split_data env job_id target_column task_type (fst loaded) (snd loaded) ;;
     total_epochs <- init_model job_id task_type model_config n_train ;;
     fit_model fuel self env job_id ;;
     n <- lift (range_len total_epochs) ;;
     looped <- epoch_loop fuel self env job_id task_type total_epochs start_time
                          (seq 0 n) [] ;;
     match looped with
     | inl returned => ret returned
     | inr training_history => finish env job_id task_type start_time training_history
     end)
    (on_exception job_id).

End Tasks.

(** * [backend/routes/dependencies.py] and [backend/routes/training.py] *)

Module Routes.

(** [dependencies.get_redis_client()]: [true] for a client, [false] for
    [None].  Unlike the worker's, it never raises. *)
Definition get_redis_client : M bool :=
  let connect : M bool :=
    try_except
      ((fun w => Ret tt (with_api_client true w)) ;;
       redis_ping ;;
       ret true)
      (fun e =>
         (if match e with RedisConnectionError _ => true | _ => false end
          then log STDOUT ("Warning: Redis connection failed: " +:+ exn_str e) ;;
               log STDOUT "   Make sure Redis is running on localhost:6379"
          else log STDOUT ("Warning: Redis initialization error: " +:+ exn_str e)) ;;
         (fun w => Ret tt (with_api_client false w)) ;;
         ret false) in
  fun w =>
    if api_client w then
      try_except (redis_ping ;; ret true)
        (fun e =>
           log STDOUT ("Warning: Redis connection lost, reconnecting: " +:+ exn_str e) ;;
           (fun w => Ret tt (with_api_client false w)) ;;
           connect) w
    else connect w.

(** The body of a [POST /train] request. *)
Record TrainRequest : Type := {
  dataset_path : string;
  model_config : dict;
  target_column : string;
  task_type : string
}.

(** [train_model_task.delay(...)]: the broker accepts the call and names the
    task, or the call raises. *)
Definition delay (call : TaskCall) : M string :=
  fun w =>
    match broker w with
    | Some e :: rest => Raise e (with_broker rest w)
    | None :: rest =>
        Ret ("task_" +:+ pretty (length (queue w)))
            (with_queue (queue w ++ [call])%list (with_broker rest w))
    | [] =>
        Ret ("task_" +:+ pretty (length (queue w)))
            (with_queue (queue w ++ [call])%list w)
    end.

(** [celery_app.control.revoke(task_id, terminate=True)] *)
Definition revoke (task_id : json) : M unit :=
  fun w =>
    match broker w with
    | Some e :: rest => Raise e (with_broker rest w)
    | None :: rest =>
        Ret tt (with_revoked (revoked_tasks w ++ [task_id])%list (with_broker rest w))
    | [] => Ret tt (with_revoked (revoked_tasks w ++ [task_id])%list w)
    end.

(** The two [except] clauses that close every endpoint: an [HTTPException]
    passes, anything else becomes a 500. *)
Definition endpoint {A} (what : string) (body : M A) : M A :=
  try_except body
    (fun e =>
       if is_http_exception e then raise e
       else raise (HTTPException 500 (what +:+ exn_str e))).

(** [job_data.get("status")] and the like on the value [json.loads] returned. *)
Definition as_dict (v : json) : M dict :=
  match v with
  | JObj d => ret d
  | _ => raise (PyException "object has no attribute 'get'")
  end.

(** [POST /train] *)
Definition train_model (req : TrainRequest) : M dict :=
  endpoint "Internal server error: "
    (client <- get_redis_client ;;
     if negb client then
       raise (HTTPException 503
                "Redis is not connected. Please ensure Redis server is running.")
     else
       exists_ <- path_exists (dataset_path req) ;;
       if negb exists_ then
         raise (HTTPException 404 ("Dataset file not found: " +:+ dataset_path req))
       else
         job_id <- (fun w => Ret ("job_" +:+ pretty (now w)) w) ;;
         task_id <-
           try_except
             (delay {| call_dataset_path := dataset_path req;
                       call_model_config := model_config req;
                       call_target_column := target_column req;
                       call_job_id := job_id;
                       call_task_type := task_type req |})
             (fun e =>
                raise (HTTPException 503
                         ("Failed to create Celery task: " +:+ exn_str e
                          +:+ ". Ensure Celery worker is running."))) ;;
         try_except
           (created_at <- (fun w => Ret (isoformat (now w)) w) ;;
            s <- lift (json_dumps (JObj
                   [("job_id", JStr job_id); ("status", JStr "accepted");
                    ("task_id", JStr task_id); ("created_at", JStr created_at);
                    ("dataset_path", JStr (dataset_path req));
                    ("model_config", JObj (model_config req));
                    ("target_column", JStr (target_column req));
                    ("task_type", JStr (task_type req))])) ;;
            redis_set (status_key job_id) s)
           (fun e =>
              log STDOUT ("Warning: Failed to store job status in Redis: " +:+ exn_str e)) ;;
         ret [("job_id", JStr job_id); ("status", JStr "accepted");
              ("task_id", JStr task_id);
              ("message", JStr "Training job created successfully")]).

(** The start shared by the four job endpoints: the client, then the stored
    text of the status record; [not data] also refuses the empty text. *)
Definition fetch_status (job_id : string) : M string :=
  client <- get_redis_client ;;
  if negb client then raise (HTTPException 503 "Redis is not connected")
  else
    data <- redis_get (status_key job_id) ;;
    match data with
    | Some (String c s) => ret (String c s)
    | _ => raise (HTTPException 404 ("Job not found: " +:+ job_id))
    end.

(** [GET /jobs/{job_id}] *)
Definition job_status (job_id : string) : M json :=
  endpoint "Error getting job status: "
    (data <- fetch_status job_id ;;
     lift (json_loads data)).

(** [print] on a failed publish; the endpoint goes on. *)
Definition publish_quietly (what job_id : string) (event : dict) : M unit :=
  try_except
    (s <- lift (json_dumps (JObj event)) ;;
     redis_publish (channel job_id) s)
    (fun e => log STDOUT ("Error publishing " +:+ what +:+ " update: " +:+ exn_str e)).

(** [POST /jobs/{job_id}/pause] *)
Definition pause_job (job_id : string) : M dict :=
  endpoint "Error pausing job: "
    (data <- fetch_status job_id ;;
     loaded <- lift (json_loads data) ;;
     job_data <- as_dict loaded ;;
     let current_status := dict_get_or_null "status" job_data in
     if negb (is_one_of current_status ["running"; "paused"])
     then raise (HTTPException 400 ("Cannot pause job. Current status: "
                                    +:+ py_str current_status))
     else
       redis_set (pause_key job_id) "true" ;;
       let job_data := dict_set "status" (JStr "paused") job_data in
       let job_data := dict_set "message" (JStr "Training paused by user") job_data in
       s <- lift (json_dumps (JObj job_data)) ;;
       redis_set (status_key job_id) s ;;
       publish_quietly "pause" job_id
         [("type", JStr "status"); ("status", JStr "paused");
          ("message", JStr "Training paused. Click Resume to continue.")] ;;
       ret [("job_id", JStr job_id); ("status", JStr "paused");
            ("message", JStr "Job paused successfully")]).

(** [POST /jobs/{job_id}/resume] *)
Definition resume_job (job_id : string) : M dict :=
  endpoint "Error resuming job: "
    (data <- fetch_status job_id ;;
     loaded <- lift (json_loads data) ;;
     job_data <- as_dict loaded ;;
     let current_status := dict_get_or_null "status" job_data in
     if negb (is_one_of current_status ["paused"; "running"])
     then raise (HTTPException 400 ("Cannot resume job. Current status: "
                                    +:+ py_str current_status))
     else
       redis_delete (pause_key job_id) ;;
       let job_data := dict_set "status" (JStr "running") job_data in
       let job_data := dict_set "message" (JStr "Training resumed") job_data in
       s <- lift (json_dumps (JObj job_data)) ;;
       redis_set (status_key job_id) s ;;
       publish_quietly "resume" job_id
         [("type", JStr "status"); ("status", JStr "running");
          ("message", JStr "Training resumed")] ;;
       ret [("job_id", JStr job_id); ("status", JStr "running");
            ("message", JStr "Job resumed successfully")]).

(** [POST /jobs/{job_id}/stop] *)
Definition stop_job (job_id : string) : M dict :=
  endpoint "Error stopping job: "
    (data <- fetch_status job_id ;;
     loaded <- lift (json_loads data) ;;
     job_data <- as_dict loaded ;;
     let task_id := dict_get_or_null "task_id" job_data in
     (if truthy task_id then revoke task_id else ret tt) ;;
     let job_data := dict_set "status" (JStr "cancelled") job_data in
     let job_data := dict_set "message" (JStr "Training cancelled by user") job_data in
     s <- lift (json_dumps (JObj job_data)) ;;
     redis_set (status_key job_id) s ;;
     redis_delete (pause_key job_id) ;;
     ret [("job_id", JStr job_id); ("status", JStr "cancelled");
          ("message", JStr "Job stopped successfully")]).

End Routes.

(** ** Vocabulary of the codec proofs *)

Fixpoint all_digits (s : string) : bool :=
  match s with
  | String c r => is_digit c && all_digits r
  | EmptyString => true
  end.

(** Nothing that could continue a numeral. *)
Definition ends_number (s : string) : bool :=
  match s with
  | String c _ => negb (is_digit c)
  | EmptyString => true
  end.

(** What follows a value inside a text printed by [json_dumps]. *)
Definition closes (rest : string) : Prop :=
  rest = "" \/ exists r, rest = String "," r \/ rest = String "]" r \/ rest = String "}" r.

(** The characters a printed value can start with. *)
Definition value_start (c : ascii) : bool :=
  (is_digit c || Ascii.eqb c "-" || Ascii.eqb c "n" || Ascii.eqb c "t"
   || Ascii.eqb c "f" || Ascii.eqb c "N" || Ascii.eqb c "I"
   || Ascii.eqb c dquote || Ascii.eqb c "[" || Ascii.eqb c "{")%bool.


(** ** Vocabulary of the proofs about runs *)

(** [m] never waits for ever. *)
Definition halts {A} (m : M A) : Prop :=
  forall w, match m w with Hang _ => False | _ => True end.

(** [m] always returns: it neither raises nor waits for ever. *)
Definition returns {A} (m : M A) : Prop :=
  forall w, exists a w', m w = Ret a w'.

(** Every outcome of [m] from a world in [P] ends in a world in [Q]. *)
Definition hoare {A} (P : World -> Prop) (m : M A) (Q : World -> Prop) : Prop :=
  forall w, P w -> Q (world_of (m w)).

(** No command of the script fails. *)
Definition faultless (s : list Turn) : Prop :=
  Forall (fun t => fault t = None) s.

(** The read of the pause flag that opens [handle_pause] and every pass of
    its wait loop (lines 184-185 and 208-209). *)
Definition read_pause_flag (job_id : string) : M (option string) :=
  Tasks.get_redis_client ;; redis_get (pause_key job_id).

(** One pass of the wait loop that goes round again: the flag still reads
    ["true"], no cancellation is seen, and the worker sleeps. *)
Definition poll_again (self : Tasks.TaskRequest) (job_id : string) (w w' : World) : Prop :=
  exists w1 w2,
    read_pause_flag job_id w = Ret (Some "true") w1
    /\ Tasks.check_cancellation self job_id w1 = Ret false w2
    /\ sleep 300 w2 = Ret tt w'.

(** [polls self job_id n w w']: [n] such passes lead from [w] to [w']. *)
Inductive polls (self : Tasks.TaskRequest) (job_id : string)
  : nat -> World -> World -> Prop :=
| polls_O w : polls self job_id 0 w w
| polls_S n w w1 w2 :
    poll_again self job_id w w1 -> polls self job_id n w1 w2 ->
    polls self job_id (S n) w w2.

(** An event that writes nothing: a ping or a log record. *)
Definition writes_nothing (ev : Event) : Prop :=
  ev = Cmd PING \/ exists lvl msg, ev = Log lvl msg.

(** The ["type"] of a published event and the ["status"] of a stored record,
    as a subscriber or a client decodes them. *)
Definition event_type (msg : string) : option json :=
  match json_loads msg with
  | inr (JObj d) => dict_get "type" d
  | _ => None
  end.

Definition record_status (text : string) : option json :=
  match json_loads text with
  | inr (JObj d) => dict_get "status" d
  | _ => None
  end.

(** A terminal event is a [complete] or an [error] event. *)
Definition is_terminal_event (msg : string) : bool :=
  match event_type msg with
  | Some t => is_one_of t ["complete"; "error"]
  | None => false
  end.

(** A terminal status is [completed], [failed] or [cancelled]. *)
Definition is_terminal_status (text : string) : bool :=
  match record_status text with
  | Some st => is_one_of st ["completed"; "failed"; "cancelled"]
  | None => false
  end.

(** Anything but a terminal event on the channel of [job_id]. *)
Definition harmless (job_id : string) (ev : Event) : bool :=
  match ev with
  | Cmd (PUBLISH ch msg) =>
      negb (String.eqb ch (channel job_id) && is_terminal_event msg)
  | _ => true
  end.

(** Reading a trace from its oldest event on, [written] tells whether a
    terminal status of [job_id] has been stored so far.  The result is [None]
    as soon as a terminal event of the job is published before that. *)
Fixpoint scan (job_id : string) (written : bool) (evs : list Event) : option bool :=
  match evs with
  | [] => Some written
  | Cmd (SETEX key _ text) :: rest =>
      scan job_id
           (written || (String.eqb key (status_key job_id) && is_terminal_status text))
           rest
  | Cmd (PUBLISH ch msg) :: rest =>
      if (String.eqb ch (channel job_id) && is_terminal_event msg && negb written)%bool
      then None
      else scan job_id written rest
  | _ :: rest => scan job_id written rest
  end.

(** Every terminal event of the job in [evs] comes after a write of a
    terminal status of the job in [evs]. *)
Definition terminal_write_first (job_id : string) (evs : list Event) : bool :=
  match scan job_id false evs with
  | Some _ => true
  | None => false
  end.

(** The status that goes with a terminal event, as the two texts decode:
    [completed] with [complete]; [failed] or [cancelled] with [error]. *)
Definition corresponds (msg text : string) : bool :=
  match event_type msg, record_status text with
  | Some (JStr t), Some (JStr st) =>
      (String.eqb t "complete" && String.eqb st "completed")
      || (String.eqb t "error" && (String.eqb st "failed" || String.eqb st "cancelled"))
  | _, _ => false
  end.

(** [msg] is what [update_job_status] logs when its write of the status of
    [job_id] does not go through (lines 98-103). *)
Definition update_failure (job_id msg : string) : Prop :=
  exists e,
    msg = "Redis connection error updating job " +:+ job_id +:+ ": " +:+ exn_str e
    \/ msg = "Redis error updating job " +:+ job_id +:+ ": " +:+ exn_str e
    \/ msg = "Error updating job status " +:+ job_id +:+ ": " +:+ exn_str e.

(** What [update_job_status] leaves in the trace for the status that goes
    with the terminal event [msg]: the write of that status under the job's
    key, or, when the write does not go through, the error record. *)
Definition status_attempt (job_id msg : string) (ev : Event) : Prop :=
  (exists text, ev = Cmd (SETEX (status_key job_id) 3600 text)
                /\ corresponds msg text = true)
  \/ (exists m, ev = Log ERROR m /\ update_failure job_id m).

(** [evs] ends with a terminal event of the job, the only one in [evs], and
    the attempt to write its status is the last thing before it but for health
    checks and log records. *)
Definition announced (job_id : string) (evs : list Event) : Prop :=
  exists earlier attempt later msg,
    evs = (earlier ++ attempt :: later ++ [Cmd (PUBLISH (channel job_id) msg)])%list
    /\ Forall (fun ev => harmless job_id ev = true) earlier
    /\ status_attempt job_id msg attempt
    /\ Forall writes_nothing later
    /\ is_terminal_event msg = true.

(** [evs] holds no terminal event of the job, or ends with the only one. *)
Definition settled (job_id : string) (evs : list Event) : Prop :=
  Forall (fun ev => harmless job_id ev = true) evs \/ announced job_id evs.

(** Where [m] returns a value in [P], what it added to the trace is settled;
    in every other outcome it added no terminal event of the job. *)
Definition settles {A} (job_id : string) (P : A -> bool) (m : M A) : Prop :=
  forall w, exists evs,
    trace (world_of (m w)) = (trace w ++ evs)%list
    /\ match m w with
       | Ret a _ => if P a then settled job_id evs
                    else Forall (fun ev => harmless job_id ev = true) evs
       | _ => Forall (fun ev => harmless job_id ev = true) evs
       end.

(** [w'] comes after [w] in a run: the files are the same, the script has been
    consumed from its head, and the trace has grown by events in [E]. *)
Definition extends (E : Event -> Prop) (w w' : World) : Prop :=
  files w' = files w
  /\ (exists k, script w' = drop k (script w))
  /\ exists evs, trace w' = (trace w ++ evs)%list /\ Forall E evs.

(** Whatever its outcome, [m] extends the world by events in [E]. *)
Definition emits {A} (E : Event -> Prop) (m : M A) : Prop :=
  forall w, extends E w (world_of (m w)).

(** The epoch indices of a training history. *)
Definition epoch_indices (history : list json) : list json :=
  map (fun entry => match entry with
                    | JObj d => dict_get_or_null "epoch" d
                    | _ => JNull
                    end) history.

(** The indices 1, 2, ..., n. *)
Definition one_to (n : nat) : list json := map (fun i => JInt (Z.of_nat i + 1)) (seq 0 n).

(** With nothing asked of the events. *)
Definition any_event (ev : Event) : Prop := True.

(** ** Vocabulary of the proofs about the helpers and the endpoints *)

(** The read of the cancel flag that opens [check_cancellation] (lines
    165-166). *)
Definition read_cancel_flag (job_id : string) : M (option string) :=
  Tasks.get_redis_client ;; redis_get (cancel_key job_id).

(** [m] leaves the observation [f] of the world as it was, whatever its
    outcome. *)
Definition keeps {A X} (f : World -> X) (m : M A) : Prop :=
  forall w, f (world_of (m w)) = f w.

(** An observation of the world that does not look at the clock, the key
    space, the script, the trace or the worker's connection. *)
Definition store_blind {X} (f : World -> X) : Prop :=
  (forall t w, f (with_now t w) = f w)
  /\ (forall m w, f (with_kv m w) = f w)
  /\ (forall s w, f (with_script s w) = f w)
  /\ (forall t w, f (with_trace t w) = f w)
  /\ (forall b w, f (with_worker_client b w) = f w).

(** What the runner of [job_id] may do to the store: a health check, a read
    of the job's cancel or pause flag, a write of the job's status record
    that expires after an hour, an event on the job's channel.  (Log records
    do not reach the store.) *)
Definition worker_command (job_id : string) (ev : Event) : bool :=
  match ev with
  | Log _ _ => true
  | Cmd PING => true
  | Cmd (GET key) => String.eqb key (cancel_key job_id) || String.eqb key (pause_key job_id)
  | Cmd (SETEX key seconds _) => String.eqb key (status_key job_id) && (seconds =? 3600)%Z
  | Cmd (PUBLISH ch _) => String.eqb ch (channel job_id)
  | Cmd (SET _ _) | Cmd (DEL _) => false
  end.

(** A value [json.dumps] can print: no object foreign to [json] in it. *)
Fixpoint serialisable (v : json) : bool :=
  match v with
  | JList l => forallb serialisable l
  | JObj kvs => forallb (fun kv => serialisable (snd kv)) kvs
  | JOpaque _ => false
  | _ => true
  end.

(** The world after the health check of an endpoint and its read of the
    status record of [job_id], on a quiet, reliable store. *)
Definition after_fetch (job_id : string) (w : World) : World :=
  with_trace (trace w ++ [Cmd PING; Cmd (GET (status_key job_id))])%list
    (with_api_client true w).

(** What an endpoint for [job_id] may do to the store: a health check, a
    read of the job's status record, a write of that record or of the pause
    flag (both without expiry), the deletion of the pause flag, an event on
    the job's channel.  (What [print] writes does not reach the store.) *)
Definition api_command (job_id : string) (ev : Event) : bool :=
  match ev with
  | Log _ _ => true
  | Cmd PING => true
  | Cmd (GET key) => String.eqb key (status_key job_id)
  | Cmd (SET key value) =>
      String.eqb key (status_key job_id)
      || (String.eqb key (pause_key job_id) && String.eqb value "true")
  | Cmd (DEL key) => String.eqb key (pause_key job_id)
  | Cmd (PUBLISH ch _) => String.eqb ch (channel job_id)
  | Cmd (SETEX _ _ _) => false
  end.

(** The outcome is not a returned value: an exception, or a wait that does
    not end. *)
Definition no_result {A} (r : Res A) : Prop :=
  match r with
  | Ret _ _ => False
  | Raise _ _ | Hang _ => True
  end.

(** The answer of an endpoint as FastAPI sees it: a value, or an
    [HTTPException]; never another exception, never no answer. *)
Definition answers {A} (r : Res A) : Prop :=
  match r with
  | Ret _ _ => True
  | Raise e _ => is_http_exception e = true
  | Hang _ => False
  end.

(** ** Reading the store as a client does *)

(** The status record a client finds under the job's key, decoded. *)
Definition persisted_record (w : World) (job_id : string) : option dict :=
  match live_value (now w) (kv w) (status_key job_id) with
  | Some s => match json_loads s with
              | inr (JObj d) => Some d
              | _ => None
              end
  | None => None
  end.

Definition persisted_status (w : World) (job_id : string) : option json :=
  match persisted_record w job_id with
  | Some d => dict_get "status" d
  | None => None
  end.

(** ** Scenarios *)

Module Scenario.

(** A 100-row table of four numeric features and a label. *)
Definition table : DataFrame :=
  {| columns := ["f1"; "f2"; "f3"; "f4"; "label"];
     n_rows := 100; n_complete := 100; non_numeric := [] |}.

Definition scores : Tasks.Evaluation :=
  {| Tasks.train_acc := Finite 1 0; Tasks.val_acc := Finite 95 (-2);
     Tasks.train_err := Finite 0 0; Tasks.val_err := Finite 5 (-2);
     Tasks.train_mse := Finite 0 0; Tasks.val_mse := Finite 5 (-2);
     Tasks.val_mae := Finite 5 (-2); Tasks.val_r2 := Finite 8 (-1);
     Tasks.summary := "Val Acc: 0.9500, Loss: 0.0500" |}.

Definition final_scores : Tasks.FinalEvaluation :=
  {| Tasks.accuracy := Finite 95 (-2);
     Tasks.report :=
       JObj [("weighted avg",
              JObj [("precision", JFloat (Finite 95 (-2)));
                    ("recall", JFloat (Finite 95 (-2)));
                    ("f1-score", JFloat (Finite 95 (-2)));
                    ("support", JFloat (Finite 20 0))])];
     Tasks.mse := Finite 5 (-2); Tasks.mae := Finite 5 (-2);
     Tasks.r2 := Finite 8 (-1) |}.

(** Collaborators that never fail. *)
Definition env : Tasks.Env :=
  {| Tasks.stratify_error := None; Tasks.fit_error := None;
     Tasks.evaluate := fun _ => inr scores;
     Tasks.final_evaluate := inr final_scores;
     Tasks.dump_error := None;
     Tasks.probe := fun _ =>
       Some {| Tasks.cpu := Finite 125 (-1); Tasks.ram := Finite 21 (-1);
               Tasks.gpu := Finite 0 0 |} |}.

(** A task request that Celery has not revoked. *)
Definition self : Tasks.TaskRequest :=
  {| Tasks.is_aborted := false; Tasks.revoked := false |}.

Definition path : string := "uploads/iris.csv".
Definition job : string := "job_1000".

(** The directories of the backend. *)
Definition directories : gmap string Special :=
  {[ "." := Directory; "uploads" := Directory; "models" := Directory ]}.

(** A quiet, reliable store, both processes connected, the table on disk. *)
Definition world : World :=
  {| now := 1000; kv := ∅; script := []; trace := [];
     worker_client := true; api_client := true;
     files := {[ path := Some table ]}; special := directories;
     artifacts := []; queue := []; revoked_tasks := []; broker := [] |}.

(** A command that goes through, and one that finds the store unreachable. *)
Definition ok : Turn := {| ext := []; fault := None |}.
Definition down : Turn :=
  {| ext := []; fault := Some (RedisConnectionError "Connection refused") |}.

(** A command that times out. *)
Definition timed_out : Turn :=
  {| ext := []; fault := Some (RedisTimeoutError "Timeout reading from socket") |}.

(** A command before which another client sets the cancel flag of [job]. *)
Definition cancel_arrives : Turn :=
  {| ext := [(cancel_key job, Some ("true", None))]; fault := None |}.

(** The worker's run of [job] with a two-epoch override. *)
Definition run (w : World) : Res dict :=
  Tasks.train_model_task 5 self env path [("epochs", JInt 2)] "label" job
    "classification" w.

(** The same run with the epoch count left to the dataset size. *)
Definition run_default (w : World) : Res dict :=
  Tasks.train_model_task 5 self env path [] "label" job "classification" w.

(** The request that creates [job] at time 1000. *)
Definition request : Routes.TrainRequest :=
  {| Routes.dataset_path := path; Routes.model_config := [("epochs", JInt 2)];
     Routes.target_column := "label"; Routes.task_type := "classification" |}.

(** A request for a dataset that is not on disk. *)
Definition bad_request : Routes.TrainRequest :=
  {| Routes.dataset_path := "uploads/missing.csv"; Routes.model_config := [];
     Routes.target_column := "label"; Routes.task_type := "classification" |}.

(** A request whose dataset path has a name longer than the file system
    takes, and a world in which [stat] says so. *)
Definition long_path : string :=
  "uploads/" +:+ string_of_list_ascii (replicate 300 "a"%char).

Definition long_request : Routes.TrainRequest :=
  {| Routes.dataset_path := long_path; Routes.model_config := [];
     Routes.target_column := "label"; Routes.task_type := "classification" |}.

Definition long_path_world : World :=
  {| now := 1000; kv := ∅; script := []; trace := [];
     worker_client := true; api_client := true;
     files := {[ path := Some table ]};
     special := <[ long_path := StatFails "[Errno 36] File name too long" ]> directories;
     artifacts := []; queue := []; revoked_tasks := []; broker := [] |}.

(** The cancel flag is already set when the worker starts. *)
Definition cancelled_world : World :=
  with_kv {[ cancel_key job := ("true", None) ]} world.

(** The pause flag is set when the worker starts; the cancel flag arrives
    while the worker waits in [handle_pause]. *)
Definition paused_world : World :=
  with_script (replicate 14 ok ++ [cancel_arrives])%list
    (with_kv {[ pause_key job := ("true", None) ]} world).

(** The store is unreachable for the API process. *)
Definition api_down_world : World := with_script [down; down] world.

(** The store is unreachable for the worker. *)
Definition worker_down_world : World := with_script [down; down] world.

(** The worker is paused; after one more poll the store goes down. *)
Definition outage_while_paused : World :=
  with_script (replicate 10 ok ++ [down; down])%list
    (with_kv {[ pause_key job := ("true", None) ]} world).

(** The store times out once, on the command that stores the result of the
    two-epoch run (its 34th command). *)
Definition final_write_lost : World :=
  with_script (replicate 33 ok ++ [timed_out])%list world.

(** What the two runs return on the quiet store, and the worlds they leave. *)
Definition outcome : dict :=
  match run world with Ret result _ => result | _ => [] end.

Definition after_run : World := world_of (run world).

(** The completion event of that run, the last entry of its trace, and what
    the run sent before it. *)
Definition complete_message : string :=
  match last (trace after_run) with
  | Some (Cmd (PUBLISH _ msg)) => msg
  | _ => ""
  end.

Definition before_complete : list Event := removelast (trace after_run).

Definition default_outcome : dict :=
  match run_default world with Ret result _ => result | _ => [] end.

Definition after_default_run : World := world_of (run_default world).

(** A status record of [job] and the text [json.dumps] makes of it. *)
Definition record : dict :=
  [("job_id", JStr job); ("status", JStr "running"); ("progress", JInt 55);
   ("metrics", JObj [("accuracy", JFloat (Finite 95 (-2)))]);
   ("training_history", JList [JObj [("epoch", JInt 1); ("mse", JNull)]])].

Definition record_text : string :=
  match json_dumps (JObj record) with inr s => s | inl _ => EmptyString end.

(** A command before which another client deletes the pause flag of [job]. *)
Definition resume_arrives : Turn :=
  {| ext := [(pause_key job, None)]; fault := None |}.

(** The worker is paused; the flag is deleted while it waits. *)
Definition resumed_while_paused : World :=
  with_script (replicate 10 ok ++ [resume_arrives])%list
    (with_kv {[ pause_key job := ("true", None) ]} world).

(** A table with a header and no rows, and a world that has it on disk. *)
Definition empty_table : DataFrame :=
  {| columns := ["f1"; "label"]; n_rows := 0; n_complete := 0; non_numeric := [] |}.

Definition empty_dataset_world : World :=
  {| now := 1000; kv := ∅; script := []; trace := [];
     worker_client := true; api_client := true;
     files := {[ path := Some empty_table ]}; special := directories;
     artifacts := []; queue := []; revoked_tasks := []; broker := [] |}.

(** The cancel flag of [job] is set by another client after the first pass
    of the progress loop of the two-epoch run (before its 25th command). *)
Definition cancelled_in_loop : World :=
  with_script (replicate 24 ok ++ [cancel_arrives])%list world.

Definition cancelled_outcome : dict :=
  match run cancelled_in_loop with Ret result _ => result | _ => [] end.

(** The world after [POST /train] has accepted [request], and the record it
    stored. *)
Definition accepted_world : World := world_of (Routes.train_model request world).

Definition accepted_record : dict :=
  [("job_id", JStr job); ("status", JStr "accepted"); ("task_id", JStr "task_0");
   ("created_at", JStr "1000"); ("dataset_path", JStr path);
   ("model_config", JObj [("epochs", JInt 2)]); ("target_column", JStr "label");
   ("task_type", JStr "classification")].

(** The world after the worker has announced the start of [job], and the
    record it stored over the accepted one. *)
Definition started_world : World := world_of (Tasks.announce_start job accepted_world).

Definition started_record : dict :=
  [("job_id", JStr job); ("status", JStr "running"); ("progress", JInt 0);
   ("message", JStr "Training started")].

(** A request for a three-neighbour classifier, spelled in capitals, and the
    estimator [create_model] makes of it. *)
Definition knn_config : dict := [("model_type", JStr "KNN"); ("n_neighbors", JInt 3)].

Definition knn_classifier : Tasks.Estimator :=
  {| Tasks.class_name := "KNeighborsClassifier";
     Tasks.kwargs := [("n_neighbors", JInt 3); ("weights", JStr "uniform");
                      ("algorithm", JStr "auto"); ("metric", JStr "minkowski");
                      ("p", JInt 2); ("n_jobs", JInt (-1))] |}.

End Scenario.

(** * Properties of the codec *)

Example dumps_record :
  json_dumps (JObj [("job_id", JStr "job_1"); ("status", JStr "paused");
                    ("progress", JInt 30); ("h", JList [JNull; JBool true])])
  = inr (String "{" (quote "job_id" +:+ ": " +:+ quote "job_1" +:+ ", "
         +:+ quote "status" +:+ ": " +:+ quote "paused" +:+ ", "
         +:+ quote "progress" +:+ ": 30, " +:+ quote "h" +:+ ": [null, true]}")).
Proof. vm_compute. reflexivity. Qed.

Example loads_record :
  json_loads (String "{" (quote "job_id" +:+ ": " +:+ quote "job_1" +:+ ", "
         +:+ quote "status" +:+ ": " +:+ quote "paused" +:+ ", "
         +:+ quote "progress" +:+ ": 30, " +:+ quote "m" +:+ ": [null, -0.25, {}]}"))
  = inr (JObj [("job_id", JStr "job_1"); ("status", JStr "paused");
               ("progress", JInt 30);
               ("m", JList [JNull; JFloat (Finite (-25) (-2)); JObj []])]).
Proof. vm_compute. reflexivity. Qed.

Local Arguments String.append !_ _ / : simpl nomatch.

Lemma app_assoc_s (a b c : string) : (a +:+ b) +:+ c = a +:+ (b +:+ c).
Proof. induction a as [|x a IH]; simpl; [reflexivity | by f_equal]. Qed.

Lemma app_nil_r_s (a : string) : a +:+ "" = a.
Proof. induction a as [|x a IH]; simpl; [reflexivity | by f_equal]. Qed.

Lemma length_app_s (a b : string) :
  String.length (a +:+ b) = String.length a + String.length b.
Proof. induction a as [|x a IH]; simpl; [reflexivity | by f_equal]. Qed.

Lemma app_cons_s (x : ascii) (a b : string) : String x a +:+ b = String x (a +:+ b).
Proof. reflexivity. Qed.

Lemma app_nil_l_s (b : string) : "" +:+ b = b.
Proof. reflexivity. Qed.

(** Appends to the right, literal prefixes as constructors. *)
Ltac norm_app :=
  repeat first [rewrite app_assoc_s | rewrite app_cons_s | rewrite app_nil_l_s].

(** *** Decimal numerals *)

Lemma pretty_N_char_digit x : (x < 10)%N -> is_digit (pretty_N_char x) = true.
Proof.
  intros H.
  assert (x = 0 ∨ x = 1 ∨ x = 2 ∨ x = 3 ∨ x = 4 ∨ x = 5 ∨ x = 6 ∨ x = 7 ∨ x = 8 ∨ x = 9)%N
    as Hx by lia.
  destruct Hx as [->|[->|[->|[->|[->|[->|[->|[->|[->| ->]]]]]]]]]; reflexivity.
Qed.

Lemma pretty_N_char_value x : (x < 10)%N -> digit_value (pretty_N_char x) = Z.of_N x.
Proof.
  intros H.
  assert (x = 0 ∨ x = 1 ∨ x = 2 ∨ x = 3 ∨ x = 4 ∨ x = 5 ∨ x = 6 ∨ x = 7 ∨ x = 8 ∨ x = 9)%N
    as Hx by lia.
  destruct Hx as [->|[->|[->|[->|[->|[->|[->|[->|[->| ->]]]]]]]]]; reflexivity.
Qed.

Lemma pretty_N_go_app x s : pretty_N_go x s = pretty_N_go x "" +:+ s.
Proof.
  revert s. induction (N.lt_wf_0 x) as [x _ IH]; intros s.
  destruct (decide (x = 0)%N) as [->|Hx].
  - by rewrite !pretty_N_go_0.
  - rewrite !(pretty_N_go_step x) by lia.
    assert (x `div` 10 < x)%N as Hlt by (apply N.div_lt; lia).
    rewrite (IH _ Hlt (String _ s)), (IH _ Hlt (String _ "")).
    by rewrite app_assoc_s.
Qed.

Lemma pretty_N_go_digits x s : all_digits s = true -> all_digits (pretty_N_go x s) = true.
Proof.
  revert s. induction (N.lt_wf_0 x) as [x _ IH]; intros s Hs.
  destruct (decide (x = 0)%N) as [->|Hx].
  - by rewrite pretty_N_go_0.
  - rewrite pretty_N_go_step by lia. apply IH; [apply N.div_lt; lia|].
    simpl. rewrite pretty_N_char_digit, Hs; [done|]. apply N.mod_lt. lia.
Qed.

Lemma pretty_N_go_value x s :
  digits_value_from 0 (pretty_N_go x s) = digits_value_from (Z.of_N x) s.
Proof.
  revert s. induction (N.lt_wf_0 x) as [x _ IH]; intros s.
  destruct (decide (x = 0)%N) as [->|Hx].
  - by rewrite pretty_N_go_0.
  - rewrite pretty_N_go_step by lia. rewrite IH by (apply N.div_lt; lia).
    simpl. rewrite pretty_N_char_value by (apply N.mod_lt; lia).
    f_equal. rewrite <- N2Z.inj_mul with (n := 10%N), <- N2Z.inj_add.
    f_equal. rewrite (N.div_mod x 10) at 3 by lia. lia.
Qed.

(** A positive numeral starts with a digit other than zero. *)
Lemma pretty_N_go_head x s :
  (0 < x)%N ->
  exists c r, pretty_N_go x s = String c r /\ is_digit c = true /\ Ascii.eqb c "0" = false.
Proof.
  revert s. induction (N.lt_wf_0 x) as [x _ IH]; intros s Hx.
  rewrite pretty_N_go_step by lia.
  destruct (decide (x `div` 10 = 0)%N) as [H0|H0].
  - rewrite H0, pretty_N_go_0. eexists _, _. split; [reflexivity|].
    assert (x < 10)%N.
    { pose proof (N.div_mod x 10 ltac:(lia)). pose proof (N.mod_lt x 10 ltac:(lia)). lia. }
    rewrite N.mod_small by lia.
    assert (x = 1 ∨ x = 2 ∨ x = 3 ∨ x = 4 ∨ x = 5 ∨ x = 6 ∨ x = 7 ∨ x = 8 ∨ x = 9)%N
      as Hc by lia.
    destruct Hc as [->|[->|[->|[->|[->|[->|[->|[->| ->]]]]]]]]; split; reflexivity.
  - apply IH.
    + apply N.div_lt; lia.
    + by apply N.neq_0_lt_0.
Qed.

Lemma take_digits_app d rest :
  all_digits d = true -> ends_number rest = true -> take_digits (d +:+ rest) = (d, rest).
Proof.
  intros Hd Hr. induction d as [|c d IH]; simpl in *.
  - destruct rest as [|c r]; [done|]. simpl in *. by destruct (is_digit c).
  - apply andb_prop in Hd as [Hc Hd]. by rewrite Hc, IH.
Qed.

(** *** Numbers *)

Lemma numeral_spec (n : N) :
  exists c r, pretty n = String c r /\ is_digit c = true /\ all_digits r = true
    /\ (Ascii.eqb c "0" && negb (String.eqb r ""))%bool = false
    /\ digits_value (pretty n) = Z.of_N n.
Proof.
  unfold pretty, pretty_N. case_decide as Hn.
  - subst n. exists "0"%char, "". repeat split; reflexivity.
  - destruct (pretty_N_go_head n "" ltac:(lia)) as (c & r & Heq & Hc & Hz).
    exists c, r. rewrite Heq. repeat split; try done.
    + pose proof (pretty_N_go_digits n "" eq_refl) as Hd. rewrite Heq in Hd.
      simpl in Hd. by apply andb_prop in Hd as [_ ?].
    + by rewrite Hz.
    + rewrite <- Heq. unfold digits_value. by rewrite pretty_N_go_value.
Qed.

Lemma parse_sign_digit c r :
  is_digit c = true -> parse_sign (String c r) = (false, String c r).
Proof. destruct c as [[] [] [] [] [] [] [] []]; try discriminate; reflexivity. Qed.

Lemma ends_number_closes rest : closes rest -> ends_number rest = true.
Proof. intros [->|(r & [->|[->| ->]])]; reflexivity. Qed.

Lemma parse_frac_closes rest : closes rest -> parse_frac rest = ("", rest).
Proof. intros [->|(r & [->|[->| ->]])]; reflexivity. Qed.

Lemma parse_exp_closes rest : closes rest -> parse_exp rest = (None, rest).
Proof. intros [->|(r & [->|[->| ->]])]; reflexivity. Qed.

(** The unsigned part of an integer. *)
Lemma parse_unsigned (n : N) (neg : bool) rest :
  closes rest ->
  (let (ip, s2) := take_digits (pretty n +:+ rest) in
   match ip with
   | EmptyString => None
   | String d ds =>
       if (Ascii.eqb d "0" && negb (String.eqb ds EmptyString))%bool then None
       else
         let (fd, s3) := parse_frac s2 in
         let (ex, s4) := parse_exp s3 in
         match fd, ex with
         | EmptyString, None => Some (JInt (signed neg (digits_value ip)), s4)
         | _, _ =>
             Some (JFloat (Finite (signed neg (digits_value (ip +:+ fd)))
                                  (match ex with Some x => x | None => 0 end
                                   - Z.of_nat (String.length fd))%Z), s4)
         end
   end) = Some (JInt (signed neg (Z.of_N n)), rest).
Proof.
  intros Hrest.
  destruct (numeral_spec n) as (c & r & Heq & Hc & Hr & Hz & Hv).
  rewrite take_digits_app;
    [| rewrite Heq; simpl; by rewrite Hc, Hr | by apply ends_number_closes].
  rewrite Hv. rewrite Heq at 1. rewrite Hz.
  by rewrite parse_frac_closes, parse_exp_closes.
Qed.

Lemma pretty_Z_nonneg (z : Z) : (0 <= z)%Z -> pretty z = pretty (Z.to_N z).
Proof. destruct z; try done; lia. Qed.

Lemma pretty_Z_neg (z : Z) : (z < 0)%Z -> pretty z = "-" +:+ pretty (Z.to_N (- z)).
Proof. destruct z; try done; lia. Qed.

Lemma parse_sign_numeral (n : N) rest :
  parse_sign (pretty n +:+ rest) = (false, pretty n +:+ rest).
Proof.
  destruct (numeral_spec n) as (c & r & Heq & Hc & _). rewrite Heq.
  change (String c r +:+ rest) with (String c (r +:+ rest)).
  by apply parse_sign_digit.
Qed.

Lemma parse_number_int (z : Z) rest :
  closes rest -> parse_number (pretty z +:+ rest) = Some (JInt z, rest).
Proof.
  intros Hrest. destruct (Z_lt_le_dec z 0) as [Hz|Hz].
  - rewrite pretty_Z_neg by done. unfold parse_number. rewrite app_assoc_s.
    change (parse_sign ("-" +:+ (pretty (Z.to_N (- z)) +:+ rest)))
      with (true, pretty (Z.to_N (- z)) +:+ rest). cbv iota beta.
    rewrite (parse_unsigned _ true) by done. simpl. do 3 f_equal. lia.
  - rewrite pretty_Z_nonneg by done. unfold parse_number.
    rewrite parse_sign_numeral.
    rewrite (parse_unsigned _ false) by done. simpl. do 3 f_equal. lia.
Qed.

Lemma exp_sign_digit c r :
  is_digit c = true -> parse_exp_sign (String c r) = (false, String c r).
Proof. destruct c as [[] [] [] [] [] [] [] []]; try discriminate; reflexivity. Qed.

Lemma parse_exp_spec (e : Z) rest :
  closes rest -> parse_exp (String "e" (pretty e +:+ rest)) = (Some e, rest).
Proof.
  intros Hrest. unfold parse_exp.
  change (Ascii.eqb "e" "e" || Ascii.eqb "e" "E")%bool with true. cbv iota.
  destruct (Z_lt_le_dec e 0) as [He|He].
  - rewrite pretty_Z_neg by done. rewrite app_assoc_s.
    change (parse_exp_sign ("-" +:+ (pretty (Z.to_N (- e)) +:+ rest)))
      with (true, pretty (Z.to_N (- e)) +:+ rest). cbv iota beta.
    destruct (numeral_spec (Z.to_N (- e))) as (c & r & Heq & Hc & Hr & _ & Hv).
    rewrite take_digits_app;
      [| rewrite Heq; simpl; by rewrite Hc, Hr | by apply ends_number_closes].
    rewrite Hv. rewrite Heq at 1. simpl. do 2 f_equal. lia.
  - rewrite pretty_Z_nonneg by done.
    destruct (numeral_spec (Z.to_N e)) as (c & r & Heq & Hc & Hr & _ & Hv).
    rewrite Heq at 1. change (String c r +:+ rest) with (String c (r +:+ rest)).
    rewrite exp_sign_digit by done.
    change (String c (r +:+ rest)) with (String c r +:+ rest). rewrite <- Heq.
    rewrite take_digits_app;
      [| rewrite Heq; simpl; by rewrite Hc, Hr | by apply ends_number_closes].
    rewrite Hv. rewrite Heq at 1. simpl. do 2 f_equal. lia.
Qed.

(** The unsigned mantissa of a float, with its exponent. *)
Lemma parse_mantissa (n : N) (neg : bool) (e : Z) rest :
  closes rest ->
  (let (ip, s2) := take_digits (pretty n +:+ String "e" (pretty e +:+ rest)) in
   match ip with
   | EmptyString => None
   | String d ds =>
       if (Ascii.eqb d "0" && negb (String.eqb ds EmptyString))%bool then None
       else
         let (fd, s3) := parse_frac s2 in
         let (ex, s4) := parse_exp s3 in
         match fd, ex with
         | EmptyString, None => Some (JInt (signed neg (digits_value ip)), s4)
         | _, _ =>
             Some (JFloat (Finite (signed neg (digits_value (ip +:+ fd)))
                                  (match ex with Some x => x | None => 0 end
                                   - Z.of_nat (String.length fd))%Z), s4)
         end
   end) = Some (JFloat (Finite (signed neg (Z.of_N n)) e), rest).
Proof.
  intros Hrest.
  destruct (numeral_spec n) as (c & r & Heq & Hc & Hr & Hz & Hv).
  rewrite take_digits_app; [| rewrite Heq; simpl; by rewrite Hc, Hr | reflexivity].
  rewrite Heq at 1. rewrite Hz.
  change (parse_frac (String "e" (pretty e +:+ rest)))
    with (EmptyString, String "e" (pretty e +:+ rest)).
  cbv iota beta. rewrite parse_exp_spec by done. cbv iota beta.
  rewrite app_nil_r_s, Hv. simpl String.length.
  by replace (e - Z.of_nat 0)%Z with e by lia.
Qed.

Lemma parse_number_float (m e : Z) rest :
  closes rest ->
  parse_number (dump_float (Finite m e) +:+ rest) = Some (JFloat (Finite m e), rest).
Proof.
  intros Hrest. unfold dump_float. rewrite !app_assoc_s.
  change ("e" +:+ pretty e +:+ rest) with (String "e" (pretty e +:+ rest)).
  destruct (Z_lt_le_dec m 0) as [Hm|Hm].
  - rewrite pretty_Z_neg by done. unfold parse_number. rewrite app_assoc_s.
    change (parse_sign ("-" +:+ (pretty (Z.to_N (- m)) +:+ String "e" (pretty e +:+ rest))))
      with (true, pretty (Z.to_N (- m)) +:+ String "e" (pretty e +:+ rest)).
    cbv iota beta.
    rewrite (parse_mantissa _ true) by done. simpl. do 4 f_equal. lia.
  - rewrite pretty_Z_nonneg by done. unfold parse_number.
    rewrite parse_sign_numeral.
    rewrite (parse_mantissa _ false) by done. simpl. do 4 f_equal. lia.
Qed.

(** A numeral is not one of the literals. *)
Lemma parse_literal_digit c r :
  is_digit c = true -> parse_literal (String c r) = parse_number (String c r).
Proof. destruct c as [[] [] [] [] [] [] [] []]; try discriminate; reflexivity. Qed.

Lemma parse_literal_minus_digit c r :
  is_digit c = true ->
  parse_literal (String "-" (String c r)) = parse_number (String "-" (String c r)).
Proof. destruct c as [[] [] [] [] [] [] [] []]; try discriminate; reflexivity. Qed.

Lemma parse_literal_numeral (z : Z) t :
  parse_literal (pretty z +:+ t) = parse_number (pretty z +:+ t).
Proof.
  destruct (Z_lt_le_dec z 0) as [Hz|Hz].
  - rewrite pretty_Z_neg by done.
    destruct (numeral_spec (Z.to_N (- z))) as (c & r & Heq & Hc & _).
    rewrite Heq, app_assoc_s. by apply parse_literal_minus_digit.
  - rewrite pretty_Z_nonneg by done.
    destruct (numeral_spec (Z.to_N z)) as (c & r & Heq & Hc & _).
    rewrite Heq. by apply parse_literal_digit.
Qed.

(** *** String literals *)

Lemma parse_chars_escape_char c tail :
  parse_chars (escape_char c +:+ tail)
  = match parse_chars tail with
    | Some (t, r) => Some (String c t, r)
    | None => None
    end.
Proof. destruct c as [[] [] [] [] [] [] [] []]; reflexivity. Qed.

Lemma parse_chars_escape s rest :
  parse_chars (escape s +:+ String dquote rest) = Some (s, rest).
Proof.
  induction s as [|c s IH].
  - reflexivity.
  - change (escape (String c s)) with (escape_char c +:+ escape s).
    by rewrite app_assoc_s, parse_chars_escape_char, IH.
Qed.

(** *** Values *)

Lemma numeral_start (z : Z) :
  exists c r, pretty z = String c r /\ (is_digit c || Ascii.eqb c "-")%bool = true.
Proof.
  destruct (Z_lt_le_dec z 0) as [Hz|Hz].
  - rewrite pretty_Z_neg by done. by eexists _, _.
  - rewrite pretty_Z_nonneg by done.
    destruct (numeral_spec (Z.to_N z)) as (c & r & Heq & Hc & _).
    exists c, r. by rewrite Hc.
Qed.

Lemma dumps_start v s :
  json_dumps v = inr s -> exists c r, s = String c r /\ value_start c = true.
Proof.
  destruct v as [|[]|z|[m e| |[]]|t|l|kvs|t]; simpl; intros Hs; simplify_eq;
    try (by eexists _, _).
  - destruct (numeral_start z) as (c & r & -> & Hc).
    exists c, r. split; [done|]. unfold value_start.
    apply orb_prop in Hc as [->| ->]; [done|]. by rewrite orb_true_r.
  - destruct (numeral_start m) as (c & r & Heq & Hc). rewrite Heq.
    eexists c, _. split; [done|]. unfold value_start.
    apply orb_prop in Hc as [->| ->]; [done|]. by rewrite orb_true_r.
  - destruct (dump_items json_dumps l); simplify_eq. by eexists _, _.
  - destruct (dump_members json_dumps kvs); simplify_eq. by eexists _, _.
Qed.

Lemma parse_value_numeric f c t :
  (is_digit c || Ascii.eqb c "-")%bool = true ->
  parse_value (S f) (String c t) = parse_literal (String c t).
Proof. destruct c as [[] [] [] [] [] [] [] []]; try discriminate; reflexivity. Qed.

Lemma parse_value_space fuel t : parse_value fuel (String " " t) = parse_value fuel t.
Proof. by destruct fuel. Qed.

Lemma parse_value_list f c t :
  value_start c = true ->
  parse_value (S f) (String "[" (String c t))
  = match parse_items (parse_value f) (S f) (String c t) with
    | Some (vs, r) => Some (JList vs, r)
    | None => None
    end.
Proof. destruct c as [[] [] [] [] [] [] [] []]; try discriminate; reflexivity. Qed.

Lemma parse_items_space parse k t :
  (forall t, parse (String " " t) = parse t) ->
  parse_items parse k (String " " t) = parse_items parse k t.
Proof. intros Hsp. destruct k; simpl; [done | by rewrite Hsp]. Qed.

Lemma skip_ws_closes rest : closes rest -> skip_ws rest = rest.
Proof. intros [->|(r & [->|[->| ->]])]; reflexivity. Qed.

Lemma parse_items_dump parse :
  (forall t, parse (String " " t) = parse t) ->
  forall l s k rest,
    l <> [] -> dump_items json_dumps l = inr s -> length l <= k ->
    (forall x sx rest', x ∈ l -> json_dumps x = inr sx -> closes rest' ->
       parse (sx +:+ rest') = Some (x, rest')) ->
    parse_items parse k (s +:+ String "]" rest) = Some (l, rest).
Proof.
  intros Hsp l. induction l as [|x l IH]; intros s k rest Hne Hs Hk Hel; [done|].
  destruct k as [|k]; [simpl in Hk; lia|].
  simpl in Hs. destruct (json_dumps x) as [|sx] eqn:Hx; [done|].
  destruct l as [|y l].
  - simplify_eq. simpl.
    rewrite (Hel x s (String "]" rest)); [done | set_solver | done |].
    right. eauto.
  - destruct (dump_items json_dumps (y :: l)) as [|sr] eqn:Hr; [done|].
    simplify_eq. rewrite !app_assoc_s.
    change (", " +:+ sr +:+ String "]" rest)
      with (String "," (String " " (sr +:+ String "]" rest))).
    simpl.
    rewrite (Hel x sx (String "," (String " " (sr +:+ String "]" rest))));
      [| set_solver | done | right; eauto].
    simpl. rewrite parse_items_space by done.
    rewrite (IH sr k rest); [done | done | done | simpl in *; lia |].
    intros x' sx' rest' Hin. apply Hel. by apply list_elem_of_further.
Qed.

Lemma parse_value_dict f t :
  parse_value (S f) (String "{" (String dquote t))
  = match parse_members (parse_value f) (S f) (String dquote t) with
    | Some (kvs, r) => Some (JObj kvs, r)
    | None => None
    end.
Proof. reflexivity. Qed.

Lemma parse_members_space parse k t :
  parse_members parse k (String " " t) = parse_members parse k t.
Proof. by destruct k. Qed.

Lemma parse_members_quote parse k key t :
  parse_members parse (S k) (quote key +:+ ": " +:+ t)
  = match parse (String " " t) with
    | Some (v, r) =>
        match skip_ws r with
        | String "," r' =>
            match parse_members parse k r' with
            | Some (kvs, r'') => Some ((key, v) :: kvs, r'')
            | None => None
            end
        | String "}" r' => Some ([(key, v)], r')
        | _ => None
        end
    | None => None
    end.
Proof.
  unfold quote.
  change (String dquote (escape key +:+ String dquote "") +:+ ": " +:+ t)
    with (String dquote ((escape key +:+ String dquote "") +:+ String ":" (String " " t))).
  rewrite app_assoc_s.
  change (String dquote "" +:+ String ":" (String " " t))
    with (String dquote (String ":" (String " " t))).
  pose proof (parse_chars_escape key (String ":" (String " " t))) as Hk.
  simpl. change (Ascii false true false false false true false false) with dquote.
  by rewrite Hk.
Qed.

Lemma dump_members_cons dump key x rest :
  dump_members dump ((key, x) :: rest)
  = match dump x with
    | inl e => inl e
    | inr sx =>
        match rest with
        | [] => inr (quote key +:+ ": " +:+ sx)
        | _ => match dump_members dump rest with
               | inl e => inl e
               | inr sr => inr (quote key +:+ ": " +:+ sx +:+ ", " +:+ sr)
               end
        end
    end.
Proof. reflexivity. Qed.

Lemma parse_members_dump parse :
  (forall t, parse (String " " t) = parse t) ->
  forall (kvs : list (string * json)) s k rest,
    kvs <> [] -> dump_members json_dumps kvs = inr s -> length kvs <= k ->
    (forall key x sx rest', (key, x) ∈ kvs -> json_dumps x = inr sx -> closes rest' ->
       parse (sx +:+ rest') = Some (x, rest')) ->
    parse_members parse k (s +:+ String "}" rest) = Some (kvs, rest).
Proof.
  intros Hsp kvs. induction kvs as [|[key x] kvs IH]; intros s k rest Hne Hs Hk Hel; [done|].
  destruct k as [|k]; [simpl in Hk; lia|].
  rewrite dump_members_cons in Hs. destruct (json_dumps x) as [|sx] eqn:Hx; [done|].
  destruct kvs as [|y kvs].
  - simplify_eq. rewrite !app_assoc_s, parse_members_quote, Hsp.
    rewrite (Hel key x sx (String "}" rest)); [done | set_solver | done |].
    right. eauto.
  - destruct (dump_members json_dumps (y :: kvs)) as [|sr] eqn:Hr; [done|].
    simplify_eq. rewrite !app_assoc_s, parse_members_quote, Hsp.
    change (", " +:+ sr +:+ String "}" rest)
      with (String "," (String " " (sr +:+ String "}" rest))).
    rewrite (Hel key x sx (String "," (String " " (sr +:+ String "}" rest))));
      [| set_solver | done | right; eauto].
    simpl. rewrite parse_members_space.
    rewrite (IH sr k rest); [done | done | done | simpl in *; lia |].
    intros key' x' sx' rest' Hin. apply (Hel key'). by apply list_elem_of_further.
Qed.

Lemma json_size_pos v : 1 <= json_size v.
Proof. destruct v; simpl; lia. Qed.

Lemma json_size_item x (l : list json) :
  x ∈ l -> json_size x <= sum_list (map json_size l).
Proof.
  induction l as [|y l IH]; intros Hin; [by apply elem_of_nil in Hin|].
  apply elem_of_cons in Hin as [->|Hin]; simpl; [lia|]. specialize (IH Hin). lia.
Qed.

Lemma json_size_member key x (kvs : list (string * json)) :
  (key, x) ∈ kvs -> json_size x <= sum_list (map (fun kv => json_size (snd kv)) kvs).
Proof.
  induction kvs as [|y kvs IH]; intros Hin; [by apply elem_of_nil in Hin|].
  apply elem_of_cons in Hin as [<-|Hin]; simpl; [lia|]. specialize (IH Hin). lia.
Qed.

Lemma length_le_size (l : list json) : length l <= sum_list (map json_size l).
Proof.
  induction l as [|y l IH]; simpl; [lia|]. pose proof (json_size_pos y). lia.
Qed.

Lemma length_le_size_members (kvs : list (string * json)) :
  length kvs <= sum_list (map (fun kv => json_size (snd kv)) kvs).
Proof.
  induction kvs as [|y kvs IH]; simpl; [lia|]. pose proof (json_size_pos (snd y)). lia.
Qed.

(** The parser reads back what the printer wrote, whatever closes it. *)
Lemma parse_value_dumps n :
  forall v s fuel rest,
    json_size v <= n -> json_dumps v = inr s -> json_size v <= fuel -> closes rest ->
    parse_value fuel (s +:+ rest) = Some (v, rest).
Proof.
  induction n as [|n IH]; intros v s fuel rest Hn Hs Hfuel Hrest.
  { pose proof (json_size_pos v). lia. }
  destruct fuel as [|f]; [pose proof (json_size_pos v); lia|].
  destruct v as [|[]|z|[m e| |[]]|t|l|kvs|t]; simpl in Hs; simplify_eq;
    try reflexivity.
  - (* int *)
    destruct (numeral_start z) as (c & r & Heq & Hc).
    rewrite Heq at 1. change (String c r +:+ rest) with (String c (r +:+ rest)).
    rewrite (parse_value_numeric f c (r +:+ rest) Hc).
    change (String c (r +:+ rest)) with (String c r +:+ rest). rewrite <- Heq.
    by rewrite parse_literal_numeral, parse_number_int.
  - (* finite float *)
    destruct (numeral_start m) as (c & r & Heq & Hc).
    rewrite !app_assoc_s.
    pose proof (parse_number_float m e rest Hrest) as Hf.
    unfold dump_float in Hf. rewrite !app_assoc_s in Hf.
    rewrite <- Hf, <- parse_literal_numeral.
    rewrite Heq.
    change (String c r +:+ "e" +:+ pretty e +:+ rest)
      with (String c (r +:+ "e" +:+ pretty e +:+ rest)).
    exact (parse_value_numeric f c _ Hc).
  - (* string *)
    unfold quote.
    change (String dquote (escape t +:+ String dquote "") +:+ rest)
      with (String dquote ((escape t +:+ String dquote "") +:+ rest)).
    rewrite app_assoc_s.
    change (String dquote "" +:+ rest) with (String dquote rest).
    pose proof (parse_chars_escape t rest) as Ht.
    simpl. change (Ascii false true false false false true false false) with dquote.
    by rewrite Ht.
  - (* list *)
    destruct (dump_items json_dumps l) as [|sl] eqn:Hl; simplify_eq.
    destruct l as [|x l].
    { simpl in Hl. by simplify_eq. }
    assert (exists c r, sl = String c r /\ value_start c = true) as (c & r & Hsl & Hc).
    { simpl in Hl. destruct (json_dumps x) as [|sx] eqn:Hx; [done|].
      destruct (dumps_start _ _ Hx) as (c & r & -> & Hc).
      destruct l; [|destruct (dump_items _ _)]; simplify_eq; by eexists _, _. }
    norm_app. rewrite Hsl at 1. norm_app.
    rewrite (parse_value_list f c _ Hc).
    rewrite <- app_cons_s, <- Hsl.
    simpl in Hn, Hfuel.
    rewrite (parse_items_dump (parse_value f) (parse_value_space f) (x :: l) sl (S f) rest);
      [done | done | done | |].
    + pose proof (length_le_size (x :: l)). simpl in *. lia.
    + intros y sy rest' Hin Hy Hrest'.
      pose proof (json_size_item y (x :: l) Hin) as Hsz. simpl in Hsz.
      apply IH; [lia | done | lia | done].
  - (* dict *)
    destruct (dump_members json_dumps kvs) as [|sl] eqn:Hl; simplify_eq.
    destruct kvs as [|[key x] kvs].
    { simpl in Hl. by simplify_eq. }
    assert (exists r, sl = String dquote r) as (r & Hsl).
    { rewrite dump_members_cons in Hl. destruct (json_dumps x) as [|sx]; [done|].
      destruct kvs; [|destruct (dump_members _ _)]; simplify_eq; by eexists. }
    norm_app. rewrite Hsl at 1. norm_app.
    rewrite parse_value_dict.
    rewrite <- app_cons_s, <- Hsl.
    simpl in Hn, Hfuel.
    rewrite (parse_members_dump (parse_value f) (parse_value_space f)
               ((key, x) :: kvs) sl (S f) rest); [done | done | done | |].
    + pose proof (length_le_size_members ((key, x) :: kvs)). simpl in *. lia.
    + intros k' y sy rest' Hin Hy Hrest'.
      pose proof (json_size_member k' y ((key, x) :: kvs) Hin) as Hsz. simpl in Hsz.
      apply IH; [lia | done | lia | done].
Qed.

(** *** The whole text *)

Lemma dump_items_length n (l : list json) sl :
  (forall v s, json_size v <= n -> json_dumps v = inr s -> json_size v <= String.length s) ->
  sum_list (map json_size l) <= n ->
  dump_items json_dumps l = inr sl ->
  sum_list (map json_size l) <= String.length sl.
Proof.
  intros IH. revert sl. induction l as [|x l IHl]; intros sl Hn Hl.
  - simpl. lia.
  - simpl in Hl, Hn. destruct (json_dumps x) as [|sx] eqn:Hx; [done|].
    pose proof (IH x sx ltac:(lia) Hx).
    destruct l as [|y l].
    + simplify_eq. simpl. lia.
    + destruct (dump_items json_dumps (y :: l)) as [|sr] eqn:Hr; [done|].
      simplify_eq. specialize (IHl sr ltac:(simpl in *; lia) eq_refl).
      simpl in *. rewrite ?length_app_s. simpl. rewrite ?length_app_s. simpl. lia.
Qed.

Lemma dump_members_length n (kvs : list (string * json)) sl :
  (forall v s, json_size v <= n -> json_dumps v = inr s -> json_size v <= String.length s) ->
  sum_list (map (fun kv => json_size (snd kv)) kvs) <= n ->
  dump_members json_dumps kvs = inr sl ->
  sum_list (map (fun kv => json_size (snd kv)) kvs) <= String.length sl.
Proof.
  intros IH. revert sl. induction kvs as [|[key x] kvs IHl]; intros sl Hn Hl.
  - simpl. lia.
  - rewrite dump_members_cons in Hl. simpl in Hn.
    destruct (json_dumps x) as [|sx] eqn:Hx; [done|].
    pose proof (IH x sx ltac:(lia) Hx).
    destruct kvs as [|y kvs].
    + simplify_eq. simpl. rewrite ?length_app_s. simpl. rewrite ?length_app_s. simpl. lia.
    + destruct (dump_members json_dumps (y :: kvs)) as [|sr] eqn:Hr; [done|].
      simplify_eq. specialize (IHl sr ltac:(simpl in *; lia) eq_refl).
      simpl in *. rewrite ?length_app_s. simpl. rewrite ?length_app_s. simpl. lia.
Qed.

Lemma dumps_length n :
  forall v s, json_size v <= n -> json_dumps v = inr s -> json_size v <= String.length s.
Proof.
  induction n as [|n IH]; intros v s Hn Hs.
  { pose proof (json_size_pos v). lia. }
  destruct v as [|[]|z|x|t|l|kvs|t]; simpl in Hs; simplify_eq; try (simpl; lia).
  - destruct (numeral_start z) as (c & r & -> & _). simpl. lia.
  - destruct x as [m e| |[]]; try (simpl; lia).
    destruct (numeral_start m) as (c & r & Heq & _). simpl. rewrite Heq. simpl. lia.
  - destruct (dump_items json_dumps l) as [|sl] eqn:Hl; simplify_eq.
    simpl in Hn. pose proof (dump_items_length n l sl IH ltac:(lia) Hl).
    simpl. rewrite ?length_app_s. simpl. rewrite ?length_app_s. simpl. lia.
  - destruct (dump_members json_dumps kvs) as [|sl] eqn:Hl; simplify_eq.
    simpl in Hn. pose proof (dump_members_length n kvs sl IH ltac:(lia) Hl).
    simpl. rewrite ?length_app_s. simpl. rewrite ?length_app_s. simpl. lia.
Qed.

(** Reading back a printed value gives the value, up to repeated keys. *)
Lemma json_loads_dumps_dedup v s :
  json_dumps v = inr s -> json_loads s = inr (dedup_keys v).
Proof.
  intros Hs. unfold json_loads.
  pose proof (parse_value_dumps (json_size v) v s (S (String.length s)) "" (le_n _) Hs) as Hp.
  rewrite app_nil_r_s in Hp. rewrite Hp; [done| |by left].
  pose proof (dumps_length _ v s (le_n _) Hs). lia.
Qed.

(** *** Dictionaries without repeated keys *)

Lemma dict_set_fresh k v (d : dict) :
  k ∉ map fst d -> dict_set k v d = (d ++ [(k, v)])%list.
Proof.
  induction d as [|[k' v'] d IH]; intros Hk; [done|].
  simpl in *. apply not_elem_of_cons in Hk as [Hne Hk].
  destruct (String.eqb_spec k k'); [done|]. by rewrite IH.
Qed.

Lemma fold_dict_set (f : json -> json) (kvs acc : dict) :
  NoDup (map fst (acc ++ kvs)%list) ->
  fold_left (fun acc kv => dict_set (fst kv) (f (snd kv)) acc) kvs acc
  = (acc ++ map (fun kv => (fst kv, f (snd kv))) kvs)%list.
Proof.
  revert acc. induction kvs as [|[k v] kvs IH]; intros acc Hnd; simpl.
  - by rewrite app_nil_r.
  - rewrite dict_set_fresh.
    + rewrite IH; [by rewrite <- app_assoc |].
      rewrite <- app_assoc, map_app. rewrite map_app in Hnd. exact Hnd.
    + rewrite map_app in Hnd. apply NoDup_app in Hnd as (_ & Hd & _).
      intros Hin. apply (Hd k Hin). simpl. left.
Qed.

Lemma dedup_unique n :
  forall v, json_size v <= n -> unique_keys v = true -> dedup_keys v = v.
Proof.
  induction n as [|n IH]; intros v Hn Hu.
  { pose proof (json_size_pos v). lia. }
  destruct v as [| | | | |l|kvs|]; try done; simpl in *.
  - f_equal. induction l as [|x l IHl]; [done|]. simpl in *.
    apply andb_prop in Hu as [Hx Hl]. rewrite IH by (done || lia).
    f_equal. apply IHl; [lia | done].
  - apply andb_prop in Hu as [Hnd Hu]. apply bool_decide_eq_true in Hnd.
    rewrite fold_dict_set by done. simpl. f_equal.
    clear Hnd. induction kvs as [|[k x] kvs IHl]; [done|]. simpl in *.
    apply andb_prop in Hu as [Hx Hl]. rewrite IH by (done || lia).
    f_equal. apply IHl; [lia | done].
Qed.

(** [json.loads(json.dumps(v)) == v] for a value whose dictionaries are
    dictionaries. *)
Lemma json_loads_dumps v s :
  json_dumps v = inr s -> unique_keys v = true -> json_loads s = inr v.
Proof.
  intros Hs Hu. rewrite (json_loads_dumps_dedup v s Hs).
  by rewrite (dedup_unique _ v (le_n _) Hu).
Qed.

Local Arguments json_dumps : simpl never.
Local Arguments json_loads : simpl never.

(** * The monad of runs *)

Lemma bind_Ret {A B} (m : M A) (k : A -> M B) w a w1 :
  m w = Ret a w1 -> bind m k w = k a w1.
Proof. unfold bind. by intros ->. Qed.

Lemma bind_Raise {A B} (m : M A) (k : A -> M B) w e w1 :
  m w = Raise e w1 -> bind m k w = Raise e w1.
Proof. unfold bind. by intros ->. Qed.

Lemma bind_Hang {A B} (m : M A) (k : A -> M B) w w1 :
  m w = Hang w1 -> bind m k w = Hang w1.
Proof. unfold bind. by intros ->. Qed.

Lemma bind_Ret_inv {A B} (m : M A) (k : A -> M B) w b w' :
  bind m k w = Ret b w' -> exists a w1, m w = Ret a w1 /\ k a w1 = Ret b w'.
Proof. unfold bind. destruct (m w); [eauto | done | done]. Qed.

Lemma halts_ret {A} (a : A) : halts (ret a).
Proof. by intros w. Qed.

Lemma halts_raise {A} e : halts (@raise A e).
Proof. by intros w. Qed.

Lemma halts_bind {A B} (m : M A) (k : A -> M B) :
  halts m -> (forall a, halts (k a)) -> halts (bind m k).
Proof.
  intros Hm Hk w. unfold bind. specialize (Hm w).
  destruct (m w) as [a w1| |]; [apply Hk | done | done].
Qed.

Lemma halts_try_except {A} (m : M A) h :
  halts m -> (forall e, halts (h e)) -> halts (try_except m h).
Proof.
  intros Hm Hh w. unfold try_except. specialize (Hm w).
  destruct (m w) as [|e w1|]; [done | apply Hh | done].
Qed.

Lemma halts_try_except_if {A} p (m : M A) h :
  halts m -> (forall e, halts (h e)) -> halts (try_except_if p m h).
Proof.
  intros Hm Hh. apply halts_try_except; [done|].
  intros e. destruct (p e); [apply Hh | apply halts_raise].
Qed.

Lemma halts_lift {A} (r : Exn + A) : halts (lift r).
Proof. destruct r; [apply halts_raise | apply halts_ret]. Qed.

Lemma halts_command {A} c (exec : World -> A * World) : halts (command c exec).
Proof.
  intros w. unfold command.
  destruct (script w) as [|[upd [e|]] rest]; try done; by destruct (exec _).
Qed.

Lemma halts_emit ev : halts (emit ev).
Proof. by intros w. Qed.

Lemma halts_sleep ms : halts (sleep ms).
Proof. by intros w. Qed.

Lemma halts_state {A} (f : World -> A * World) : halts (fun w => Ret (f w).1 (f w).2).
Proof. by intros w. Qed.

Lemma returns_ret {A} (a : A) : returns (ret a).
Proof. intros w. by eexists _, _. Qed.

Lemma returns_emit ev : returns (emit ev).
Proof. intros w. by eexists _, _. Qed.

Lemma returns_bind {A B} (m : M A) (k : A -> M B) :
  returns m -> (forall a, returns (k a)) -> returns (bind m k).
Proof.
  intros Hm Hk w. destruct (Hm w) as (a & w1 & Hw).
  rewrite (bind_Ret _ _ _ _ _ Hw). apply Hk.
Qed.

Lemma returns_try_except {A} (m : M A) h :
  halts m -> (forall e, returns (h e)) -> returns (try_except m h).
Proof.
  intros Hm Hh w. unfold try_except. specialize (Hm w).
  destruct (m w) as [a w1|e w1|]; [by eexists _, _ | apply Hh | done].
Qed.

Lemma returns_halts {A} (m : M A) : returns m -> halts m.
Proof. intros Hm w. by destruct (Hm w) as (a & w1 & ->). Qed.

Create HintDb run.
#[local] Hint Resolve halts_ret halts_raise halts_lift halts_command halts_emit
  halts_sleep returns_ret returns_emit : run.

Ltac halts_step :=
  first [ apply halts_ret | apply halts_raise | apply halts_lift | apply halts_command
        | apply halts_emit | apply halts_sleep
        | apply halts_bind; [| intros ?]
        | apply halts_try_except_if; [| intros ?]
        | apply halts_try_except; [| intros ?]
        | (intros ?; done) ].

(** ** The helpers of the runner always come back *)

Lemma halts_connect : halts Tasks.connect.
Proof.
  unfold Tasks.connect. apply halts_try_except.
  - apply halts_bind; [by intros w | intros _; apply halts_command].
  - intros e. apply halts_bind; [|intros _; apply halts_raise].
    destruct (is_conn_or_timeout e); unfold log; repeat halts_step.
Qed.

Lemma halts_get_redis_client : halts Tasks.get_redis_client.
Proof.
  intros w. unfold Tasks.get_redis_client. destruct (worker_client w).
  - revert w. apply halts_try_except; [apply halts_command|].
    intros e. unfold log. apply halts_bind; [apply halts_emit|intros _].
    apply halts_bind; [by intros w | intros _; apply halts_connect].
  - apply halts_connect.
Qed.

Lemma returns_log lvl msg : returns (log lvl msg).
Proof. apply returns_emit. Qed.

Lemma returns_update_job_status job_id data :
  returns (Tasks.update_job_status job_id data).
Proof.
  unfold Tasks.update_job_status. apply returns_try_except.
  - apply halts_bind; [apply halts_get_redis_client | intros _].
    apply halts_bind; [apply halts_lift | intros s; apply halts_command].
  - intros e. destruct (is_conn_or_timeout e); [|destruct (is_redis_error e)];
      apply returns_log.
Qed.

Lemma returns_publish_update job_id data : returns (Tasks.publish_update job_id data).
Proof.
  unfold Tasks.publish_update. apply returns_try_except.
  - apply halts_bind; [apply halts_get_redis_client | intros _].
    apply halts_bind; [apply halts_lift | intros s; apply halts_command].
  - intros e. destruct (is_conn_or_timeout e); [|destruct (is_redis_error e)];
      apply returns_log.
Qed.

(** C8.  For every job id and every event, whatever the store does (the
    connection may fail on any command, the event may not be serialisable),
    [publish_update] returns to its caller: it neither raises nor blocks. *)
Theorem publish_update_returns job_id data (w : World) :
  exists w', Tasks.publish_update job_id data w = Ret tt w'.
Proof.
  destruct (returns_publish_update job_id data w) as ([] & w' & Hw). eauto.
Qed.

(** * [handle_pause] under a store outage *)

(** One pass of the wait loop, by the outcome of its read. *)
Lemma pause_wait_unfold self job_id fuel w :
  Tasks.pause_wait (S fuel) self job_id w =
  match read_pause_flag job_id w with
  | Ret v w1 =>
      if bool_decide (v = Some "true") then
        match Tasks.check_cancellation self job_id w1 with
        | Ret true w2 => Ret true w2
        | Ret false w2 =>
            Tasks.pause_wait fuel self job_id (with_now (now w2 + 300)%Z w2)
        | Raise e w2 => Raise e w2
        | Hang w2 => Hang w2
        end
      else Ret false w1
  | Raise e w1 =>
      if is_conn_or_timeout e then
        Ret false
            (with_trace (trace w1 ++
               [Log WARNING ("Redis connection lost during pause for " +:+ job_id
                             +:+ ", resuming training")])%list w1)
      else Raise e w1
  | Hang w1 => Hang w1
  end.
Proof.
  cbn [Tasks.pause_wait].
  unfold read_pause_flag, try_except_if, try_except, bind.
  destruct (Tasks.get_redis_client w) as [[] w0|e w0|w0]; [| by destruct (is_conn_or_timeout e) | done].
  destruct (redis_get (pause_key job_id) w0) as [v w1|e w1|w1];
    [| by destruct (is_conn_or_timeout e) | done].
  cbn [ret]. destruct (bool_decide (v = Some "true")); [|done].
  destruct (Tasks.check_cancellation self job_id w1) as [[] w2| |]; done.
Qed.

(** [handle_pause], by the outcome of its first read. *)
Lemma handle_pause_unfold self job_id fuel w :
  Tasks.handle_pause fuel self job_id w =
  match read_pause_flag job_id w with
  | Ret v w1 =>
      if bool_decide (v = Some "true") then
        try_except
          (Tasks.notify_paused job_id ;;
           cancelled <- Tasks.pause_wait fuel self job_id ;;
           if cancelled then ret true
           else Tasks.notify_resumed job_id ;; ret false)
          (fun e =>
             log ERROR ("Error handling pause for " +:+ job_id +:+ ": " +:+ exn_str e) ;;
             ret false) w1
      else Ret false w1
  | Raise e w1 =>
      if is_conn_or_timeout e then Ret false w1
      else Ret false
             (with_trace (trace w1 ++
                [Log ERROR ("Error handling pause for " +:+ job_id +:+ ": "
                            +:+ exn_str e)])%list w1)
  | Hang w1 => Hang w1
  end.
Proof.
  unfold Tasks.handle_pause, read_pause_flag, try_except_if, try_except, bind.
  destruct (Tasks.get_redis_client w) as [[] w0|e w0|w0];
    [| by destruct (is_conn_or_timeout e) | done].
  destruct (redis_get (pause_key job_id) w0) as [v w1|e w1|w1];
    [| by destruct (is_conn_or_timeout e) | done].
  cbn [ret]. by destruct (bool_decide (v = Some "true")).
Qed.

Lemma returns_notify_paused job_id : returns (Tasks.notify_paused job_id).
Proof.
  apply returns_bind; [apply returns_update_job_status | intros _].
  apply returns_publish_update.
Qed.

Lemma returns_notify_resumed job_id : returns (Tasks.notify_resumed job_id).
Proof.
  apply returns_bind; [apply returns_update_job_status | intros _].
  apply returns_publish_update.
Qed.

(** Passes that go round again only use up fuel. *)
Lemma pause_wait_polls self job_id n w wk fuel :
  polls self job_id n w wk ->
  Tasks.pause_wait (n + fuel) self job_id w = Tasks.pause_wait fuel self job_id wk.
Proof.
  induction 1 as [|n w w1 w2 (wa & wb & Hread & Hcancel & Hsleep) _ IH]; [done|].
  rewrite <- IH. change (S n + fuel) with (S (n + fuel)).
  rewrite pause_wait_unfold, Hread, bool_decide_eq_true_2, Hcancel by done.
  unfold sleep in Hsleep. by simplify_eq.
Qed.

(** C10.  Whenever the read of the pause flag raises -- a connection error, a
    timeout, or anything else -- [handle_pause] returns [False] (not
    cancelled): on the first read without pausing (the world is the one the
    failed read left, when the error is a connection error or a timeout), and
    inside the wait loop after any number of polls.  So a store outage never
    leaves the job waiting. *)
Theorem handle_pause_store_outage (self : Tasks.TaskRequest) (job_id : string) (e : Exn) :
  (forall fuel w w1,
     read_pause_flag job_id w = Raise e w1 ->
     exists w', Tasks.handle_pause fuel self job_id w = Ret false w'
                /\ (is_conn_or_timeout e = true -> w' = w1))
  /\
  (forall fuel n w w1 w2 wk wk',
     read_pause_flag job_id w = Ret (Some "true") w1 ->
     Tasks.notify_paused job_id w1 = Ret tt w2 ->
     polls self job_id n w2 wk ->
     read_pause_flag job_id wk = Raise e wk' ->
     exists w', Tasks.handle_pause (n + S fuel) self job_id w = Ret false w').
Proof.
  split.
  - intros fuel w w1 Hread. rewrite handle_pause_unfold, Hread.
    destruct (is_conn_or_timeout e); eexists; (split; [reflexivity | done]).
  - intros fuel n w w1 w2 wk wk' Hread Hnote Hpolls Hdown.
    rewrite handle_pause_unfold, Hread, bool_decide_eq_true_2 by done.
    unfold try_except. rewrite (bind_Ret _ _ _ _ _ Hnote).
    unfold bind at 1.
    rewrite (pause_wait_polls _ _ _ _ _ _ Hpolls), pause_wait_unfold, Hdown.
    destruct (is_conn_or_timeout e).
    + match goal with |- context [Tasks.notify_resumed job_id ;; ret false] => idtac end.
      match goal with
      | |- context [(Tasks.notify_resumed job_id ;; ret false) ?w0] =>
          destruct (returns_notify_resumed job_id w0) as ([] & w'' & Hres);
          rewrite (bind_Ret _ _ _ _ _ Hres)
      end.
      eexists. reflexivity.
    + eexists. reflexivity.
Qed.

Lemma handle_pause_store_outage_witness :
  (exists w1 w',
     read_pause_flag Scenario.job Scenario.worker_down_world
     = Raise (RedisConnectionError "Connection refused") w1
     /\ Tasks.handle_pause 5 Scenario.self Scenario.job Scenario.worker_down_world
        = Ret false w')
  /\ (exists wk wk' w',
        polls Scenario.self Scenario.job 1
          (world_of (Tasks.notify_paused Scenario.job
                       (world_of (read_pause_flag Scenario.job
                                    Scenario.outage_while_paused)))) wk
        /\ read_pause_flag Scenario.job wk
           = Raise (RedisConnectionError "Connection refused") wk'
        /\ Tasks.handle_pause (1 + S 3) Scenario.self Scenario.job
             Scenario.outage_while_paused = Ret false w').
Proof.
  split.
  - set (w := Scenario.worker_down_world).
    set (w1 := world_of (read_pause_flag Scenario.job w)).
    assert (read_pause_flag Scenario.job w
            = Raise (RedisConnectionError "Connection refused") w1) as Hread
      by (vm_compute; reflexivity).
    destruct (proj1 (handle_pause_store_outage Scenario.self Scenario.job
                       (RedisConnectionError "Connection refused")) 5 w w1 Hread)
      as (w' & Hrun & _).
    exists w1, w'. exact (conj Hread Hrun).
  - set (w := Scenario.outage_while_paused).
    set (w1 := world_of (read_pause_flag Scenario.job w)).
    set (w2 := world_of (Tasks.notify_paused Scenario.job w1)).
    set (wa := world_of (read_pause_flag Scenario.job w2)).
    set (wb := world_of (Tasks.check_cancellation Scenario.self Scenario.job wa)).
    set (wk := world_of (sleep 300 wb)).
    set (wk' := world_of (read_pause_flag Scenario.job wk)).
    assert (polls Scenario.self Scenario.job 1 w2 wk) as Hpolls.
    { apply (polls_S _ _ 0 w2 wk wk); [|apply polls_O].
      exists wa, wb. split; [|split]; vm_compute; reflexivity. }
    assert (read_pause_flag Scenario.job wk
            = Raise (RedisConnectionError "Connection refused") wk') as Hdown
      by (vm_compute; reflexivity).
    destruct (proj2 (handle_pause_store_outage Scenario.self Scenario.job
                       (RedisConnectionError "Connection refused"))
                3 1 w w1 w2 wk wk') as (w' & Hrun);
      [vm_compute; reflexivity | vm_compute; reflexivity | exact Hpolls | exact Hdown |].
    exists wk, wk', w'. exact (conj Hpolls (conj Hdown Hrun)).
Defined.

(** * Writing and reading a status record *)

(** On a quiet, reliable store a serialisable record is stored under the
    job's status key with a one-hour expiry. *)
Lemma update_job_status_quiet job_id data s w :
  script w = [] -> json_dumps (JObj data) = inr s ->
  exists w', Tasks.update_job_status job_id data w = Ret tt w'
    /\ kv w' = <[status_key job_id := (s, Some (now w + 3600 * 1000)%Z)]> (kv w)
    /\ now w' = now w /\ script w' = [] /\ api_client w' = api_client w
    /\ trace w' = (trace w ++ [Cmd PING; Cmd (SETEX (status_key job_id) 3600 s)])%list.
Proof.
  intros Hscript Hs.
  unfold Tasks.update_job_status, Tasks.get_redis_client, Tasks.connect,
    try_except, bind, redis_ping, redis_setex, command, lift.
  destruct (worker_client w) eqn:Hc; simpl; rewrite ?Hscript, Hs; simpl;
    rewrite ?Hscript; simpl; eexists; (split; [reflexivity|]); simpl;
    rewrite <- ?app_assoc; done.
Qed.

(** C9.  Round trip: on a store that stays reachable and that nobody else
    writes to, a serialisable status record written by [update_job_status]
    and read back by [job_status] before the hour is over is the record that
    was written; the text under the key is exactly the text [json.dumps]
    produced. *)
Theorem status_round_trip job_id (data : dict) s (dt : Z) (w : World) :
  script w = [] ->
  json_dumps (JObj data) = inr s ->
  unique_keys (JObj data) = true ->
  (0 <= dt < 3600 * 1000)%Z ->
  exists w1 w2,
    Tasks.update_job_status job_id data w = Ret tt w1
    /\ live_value (now w1 + dt) (kv w1) (status_key job_id) = Some s
    /\ Routes.job_status job_id (with_now (now w1 + dt) w1) = Ret (JObj data) w2.
Proof.
  intros Hscript Hs Hu Hdt.
  destruct (update_job_status_quiet job_id data s w Hscript Hs)
    as (w1 & Hrun & Hkv & Hnow & Hscript1 & _).
  assert (live_value (now w1 + dt) (kv w1) (status_key job_id) = Some s) as Hlive.
  { unfold live_value. rewrite Hkv, lookup_insert_eq.
    destruct (Z.ltb_spec (now w1 + dt) (now w + 3600 * 1000)); [done | lia]. }
  destruct (dumps_start _ _ Hs) as (c & r & Hcr & _).
  cut (exists w2, Routes.job_status job_id (with_now (now w1 + dt) w1) = Ret (JObj data) w2).
  { intros (w2 & Hread). by exists w1, w2. }
  unfold Routes.job_status, Routes.endpoint, Routes.fetch_status, Routes.get_redis_client,
    try_except, bind, redis_ping, redis_get, command, lift.
  destruct (api_client w1) eqn:Hc; simpl; rewrite ?Hc, ?Hscript1; simpl;
    rewrite ?Hscript1; simpl; rewrite Hlive, Hcr; simpl; rewrite <- Hcr;
    rewrite (json_loads_dumps _ _ Hs Hu); eexists; reflexivity.
Qed.

Lemma status_round_trip_witness :
  exists w1 w2,
    Tasks.update_job_status Scenario.job Scenario.record Scenario.world = Ret tt w1
    /\ live_value (now w1 + 1000) (kv w1) (status_key Scenario.job)
       = Some Scenario.record_text
    /\ Routes.job_status Scenario.job (with_now (now w1 + 1000) w1)
       = Ret (JObj Scenario.record) w2.
Proof.
  apply (status_round_trip Scenario.job Scenario.record Scenario.record_text 1000
           Scenario.world).
  - reflexivity.
  - vm_compute. reflexivity.
  - vm_compute. reflexivity.
  - lia.
Defined.

(** * Scenarios *)

Example run_completes :
  exists result w', Scenario.run Scenario.world = Ret result w'
    /\ dict_get "status" result = Some (JStr "completed")
    /\ persisted_record w' Scenario.job = Some result.
Proof.
  assert (match Scenario.run Scenario.world with
          | Ret result w' =>
              dict_get "status" result = Some (JStr "completed")
              /\ persisted_record w' Scenario.job = Some result
          | _ => False
          end) as H.
  { vm_compute. split; reflexivity. }
  destruct (Scenario.run Scenario.world) as [result w'| |]; [|done..].
  by exists result, w'.
Qed.

(** C1 (the code departs from the claim).  A cancel flag seen at the check
    before [model.fit], and a cancel flag seen while the worker waits in
    [handle_pause], both end the run in the exception handler: the persisted
    status is ["failed"], not ["cancelled"]. *)
Theorem cancel_outside_loop_persists_failed :
  (exists w', Scenario.run Scenario.cancelled_world
              = Raise (PyException "Training cancelled by user") w'
     /\ persisted_status w' Scenario.job = Some (JStr "failed"))
  /\
  (exists w', Scenario.run Scenario.paused_world
              = Raise (PyException "Training cancelled during pause") w'
     /\ persisted_status w' Scenario.job = Some (JStr "failed")).
Proof.
  split.
  - assert (match Scenario.run Scenario.cancelled_world with
            | Raise e w' =>
                e = PyException "Training cancelled by user"
                /\ persisted_status w' Scenario.job = Some (JStr "failed")
            | _ => False
            end) as H.
    { vm_compute. split; reflexivity. }
    destruct (Scenario.run Scenario.cancelled_world) as [|e w'|]; [done| |done].
    destruct H as [-> H]. by exists w'.
  - assert (match Scenario.run Scenario.paused_world with
            | Raise e w' =>
                e = PyException "Training cancelled during pause"
                /\ persisted_status w' Scenario.job = Some (JStr "failed")
            | _ => False
            end) as H.
    { vm_compute. split; reflexivity. }
    destruct (Scenario.run Scenario.paused_world) as [|e w'|]; [done| |done].
    destruct H as [-> H]. by exists w'.
Qed.

(** C2 (the code departs from the claim).  After a run has persisted the
    terminal status ["completed"], the stop endpoint answers 200 and
    overwrites it with ["cancelled"]. *)
Theorem stop_job_overwrites_completed :
  exists result w1 answer w2,
    Scenario.run Scenario.world = Ret result w1
    /\ persisted_status w1 Scenario.job = Some (JStr "completed")
    /\ Routes.stop_job Scenario.job w1 = Ret answer w2
    /\ persisted_status w2 Scenario.job = Some (JStr "cancelled").
Proof.
  assert (match Scenario.run Scenario.world with
          | Ret result w1 =>
              persisted_status w1 Scenario.job = Some (JStr "completed")
              /\ match Routes.stop_job Scenario.job w1 with
                 | Ret answer w2 =>
                     persisted_status w2 Scenario.job = Some (JStr "cancelled")
                 | _ => False
                 end
          | _ => False
          end) as H.
  { vm_compute. split; reflexivity. }
  destruct (Scenario.run Scenario.world) as [result w1| |]; [|done..].
  destruct H as [H1 H2].
  destruct (Routes.stop_job Scenario.job w1) as [answer w2| |] eqn:Hstop; [|done..].
  exists result, w1, answer, w2. repeat split; done.
Qed.

(** C4 (the code departs from the claim).  The record written by
    [POST /train] has no expiry; the worker's writes give the key its
    one-hour expiry; the write of the stop endpoint removes it again. *)
Theorem api_writes_have_no_expiry :
  exists answer w1 result w2 answer' w3 s1 s2 s3,
    Routes.train_model Scenario.request Scenario.world = Ret answer w1
    /\ kv w1 !! status_key Scenario.job = Some (s1, None)
    /\ Scenario.run w1 = Ret result w2
    /\ kv w2 !! status_key Scenario.job = Some (s2, Some (now w2 + 3600 * 1000)%Z)
    /\ Routes.stop_job Scenario.job w2 = Ret answer' w3
    /\ kv w3 !! status_key Scenario.job = Some (s3, None).
Proof.
  assert (match Routes.train_model Scenario.request Scenario.world with
          | Ret answer w1 =>
              (exists s1, kv w1 !! status_key Scenario.job = Some (s1, None))
              /\ match Scenario.run w1 with
                 | Ret result w2 =>
                     (exists s2, kv w2 !! status_key Scenario.job
                                 = Some (s2, Some (now w2 + 3600 * 1000)%Z))
                     /\ match Routes.stop_job Scenario.job w2 with
                        | Ret answer' w3 =>
                            exists s3, kv w3 !! status_key Scenario.job = Some (s3, None)
                        | _ => False
                        end
                 | _ => False
                 end
          | _ => False
          end) as H.
  { vm_compute. repeat split; eexists; reflexivity. }
  destruct (Routes.train_model _ _) as [answer w1| |]; [|done..].
  destruct H as [[s1 H1] H].
  destruct (Scenario.run w1) as [result w2| |] eqn:Hrun; [|done..].
  destruct H as [[s2 H2] H].
  destruct (Routes.stop_job _ w2) as [answer' w3| |] eqn:Hstop; [|done..].
  destruct H as [s3 H3].
  exists answer, w1, result, w2, answer', w3, s1, s2, s3. repeat split; done.
Qed.
(** * Creating a job for a dataset that does not exist *)

(** The API's [get_redis_client] always answers; it only pings and prints. *)
Lemma api_get_redis_client_spec w :
  exists b w1 evs,
    Routes.get_redis_client w = Ret b w1
    /\ files w1 = files w /\ special w1 = special w /\ queue w1 = queue w
    /\ trace w1 = (trace w ++ evs)%list /\ Forall writes_nothing evs.
Proof.
  assert (forall l m, writes_nothing (Log l m)) as Hlog by (right; eauto).
  assert (writes_nothing (Cmd PING)) as Hping by (by left).
  unfold Routes.get_redis_client, try_except, bind, redis_ping, command, log, emit.
  destruct (api_client w); simpl;
    destruct (script w) as [|[upd [e|]] [|[upd' [e'|]] rest]]; simpl;
    try destruct e; try destruct e'; simpl;
    eexists _, _, _; (split; [reflexivity|]); simpl;
    rewrite <- ?app_assoc; (split; [done|]); (split; [done|]); (split; [done|]);
    (split; [reflexivity|]);
    repeat (apply Forall_cons_2; [first [apply Hping | apply Hlog]|]); apply Forall_nil_2.
Qed.

(** What [os.stat] finds depends on the files and the other paths only. *)
Lemma os_stat_ext w w1 path :
  files w1 = files w -> special w1 = special w -> os_stat w1 path = os_stat w path.
Proof. unfold os_stat. by intros -> ->. Qed.

(** C7 as amended.  When the dataset path does not exist -- [Path.exists()]
    answers [False], or fails with an [OSError] -- [POST /train] raises an
    [HTTPException] at once, nothing is submitted to the queue and nothing is
    written to the store.  The status code is 503 when the store client is
    not available (that check comes first); otherwise it is 404 when the path
    is absent, and 500 when the existence test itself raised. *)
Theorem train_model_missing_dataset (req : Routes.TrainRequest) (w : World) :
  os_stat w (pathlib_str (Routes.dataset_path req)) = NotFound
  \/ (exists msg, os_stat w (pathlib_str (Routes.dataset_path req)) = StatError msg) ->
  exists code detail w' evs,
    Routes.train_model req w = Raise (HTTPException code detail) w'
    /\ (code = if match Routes.get_redis_client w with Ret true _ => true | _ => false end
               then match os_stat w (pathlib_str (Routes.dataset_path req)) with
                    | NotFound => 404
                    | _ => 500
                    end
               else 503)%Z
    /\ queue w' = queue w
    /\ trace w' = (trace w ++ evs)%list /\ Forall writes_nothing evs.
Proof.
  intros Hmissing.
  destruct (api_get_redis_client_spec w)
    as (b & w1 & evs & Hc & Hfiles & Hspecial & Hqueue & Htrace & Hevs).
  pose proof (os_stat_ext w w1 (pathlib_str (Routes.dataset_path req)) Hfiles Hspecial)
    as Hstat.
  unfold Routes.train_model, Routes.endpoint, try_except.
  rewrite (bind_Ret _ _ _ _ _ Hc), Hc.
  destruct b; cbn [negb].
  - unfold bind at 1, path_exists. rewrite Hstat.
    destruct Hmissing as [-> | [msg ->]]; cbn; by eexists _, _, _, _.
  - cbn. by eexists _, _, _, _.
Qed.

(** C7 as stated fails: a request for a dataset that is not there is not
    always answered 404.  With the store unreachable the answer is 503; with
    a path whose name is too long for the file system the answer is 500. *)
Lemma train_model_missing_dataset_not_404 :
  (os_stat Scenario.api_down_world
     (pathlib_str (Routes.dataset_path Scenario.bad_request)) = NotFound
   /\ exists detail w', Routes.train_model Scenario.bad_request Scenario.api_down_world
                        = Raise (HTTPException 503 detail) w')
  /\ (os_path_exists Scenario.long_path_world
        (Routes.dataset_path Scenario.long_request) = false
      /\ exists detail w', Routes.train_model Scenario.long_request Scenario.long_path_world
                           = Raise (HTTPException 500 detail) w').
Proof.
  split.
  - assert (match Routes.train_model Scenario.bad_request Scenario.api_down_world with
            | Raise (HTTPException code _) _ => code = 503%Z
            | _ => False
            end) as H by (vm_compute; reflexivity).
    split; [vm_compute; reflexivity|].
    destruct (Routes.train_model _ _) as [|[| | | | | | | |code detail] w'|]; try done.
    subst code. by eexists _, _.
  - assert (match Routes.train_model Scenario.long_request Scenario.long_path_world with
            | Raise (HTTPException code _) _ => code = 500%Z
            | _ => False
            end) as H by (vm_compute; reflexivity).
    split; [vm_compute; reflexivity|].
    destruct (Routes.train_model _ _) as [|[| | | | | | | |code detail] w'|]; try done.
    subst code. by eexists _, _.
Qed.

Lemma train_model_missing_dataset_witness :
  exists code detail w' evs,
    Routes.train_model Scenario.bad_request Scenario.world
    = Raise (HTTPException code detail) w'
    /\ (code = if match Routes.get_redis_client Scenario.world with
                  | Ret true _ => true | _ => false end
               then match os_stat Scenario.world
                            (pathlib_str (Routes.dataset_path Scenario.bad_request)) with
                    | NotFound => 404
                    | _ => 500
                    end
               else 503)%Z
    /\ queue w' = queue Scenario.world
    /\ trace w' = (trace Scenario.world ++ evs)%list /\ Forall writes_nothing evs.
Proof.
  apply (train_model_missing_dataset Scenario.bad_request Scenario.world).
  left. vm_compute. reflexivity.
Defined.

(** * What a run adds to the trace *)

Lemma extends_refl E w : extends E w w.
Proof.
  split; [done|]. split; [by exists 0|]. exists []. by rewrite app_nil_r.
Qed.

Lemma extends_trans E w1 w2 w3 : extends E w1 w2 -> extends E w2 w3 -> extends E w1 w3.
Proof.
  intros (Hf1 & [k1 Hs1] & evs1 & Ht1 & He1) (Hf2 & [k2 Hs2] & evs2 & Ht2 & He2).
  split; [congruence|]. split.
  - exists (k1 + k2). by rewrite Hs2, Hs1, drop_drop.
  - exists (evs1 ++ evs2)%list. rewrite Ht2, Ht1, <- app_assoc.
    split; [done|]. by apply Forall_app.
Qed.

Lemma extends_mono (E E' : Event -> Prop) w w' :
  (forall ev, E ev -> E' ev) -> extends E w w' -> extends E' w w'.
Proof.
  intros HE (Hf & Hs & evs & Ht & He). repeat split; try done.
  exists evs. split; [done|]. by eapply Forall_impl.
Qed.

Lemma extends_faultless E w w' : extends E w w' -> faultless (script w) -> faultless (script w').
Proof. intros (_ & [k ->] & _) H. by apply Forall_drop. Qed.

Lemma emits_mono {A} (E E' : Event -> Prop) (m : M A) :
  (forall ev, E ev -> E' ev) -> emits E m -> emits E' m.
Proof. intros HE Hm w. eapply extends_mono; [done | apply Hm]. Qed.

Lemma emits_ret {A} E (a : A) : emits E (ret a).
Proof. intros w. apply extends_refl. Qed.

Lemma emits_raise {A} E e : emits E (@raise A e).
Proof. intros w. apply extends_refl. Qed.

Lemma emits_lift {A} E (r : Exn + A) : emits E (lift r).
Proof. destruct r; [apply emits_raise | apply emits_ret]. Qed.

Lemma emits_bind {A B} E (m : M A) (k : A -> M B) :
  emits E m -> (forall a, emits E (k a)) -> emits E (bind m k).
Proof.
  intros Hm Hk w. unfold bind. specialize (Hm w).
  destruct (m w) as [a w1| |]; [|done..].
  eapply extends_trans; [exact Hm | apply Hk].
Qed.

Lemma emits_try_except {A} E (m : M A) h :
  emits E m -> (forall e, emits E (h e)) -> emits E (try_except m h).
Proof.
  intros Hm Hh w. unfold try_except. specialize (Hm w).
  destruct (m w) as [|e w1|]; [done| |done].
  eapply extends_trans; [exact Hm | apply Hh].
Qed.

Lemma emits_try_except_if {A} E p (m : M A) h :
  emits E m -> (forall e, emits E (h e)) -> emits E (try_except_if p m h).
Proof.
  intros Hm Hh. apply emits_try_except; [done|].
  intros e. destruct (p e); [apply Hh | apply emits_raise].
Qed.

Lemma emits_emit (E : Event -> Prop) ev : E ev -> emits E (emit ev).
Proof.
  intros He w. split; [done|]. split; [by exists 0|].
  exists [ev]. split; [done|]. by apply Forall_singleton.
Qed.

Lemma emits_sleep E ms : emits E (sleep ms).
Proof. intros w. split; [done|]. split; [by exists 0|]. exists []. by rewrite app_nil_r. Qed.

(** A step that only reads the world, or changes what [extends] does not
    look at. *)
Lemma emits_quiet {A} E (f : World -> A) (g : World -> World) :
  (forall w, files (g w) = files w /\ script (g w) = script w /\ trace (g w) = trace w) ->
  emits E (fun w => Ret (f w) (g w)).
Proof.
  intros Hg w. destruct (Hg w) as (Hf & Hs & Ht). cbn.
  split; [done|]. split; [exists 0; exact Hs|]. exists []. by rewrite app_nil_r.
Qed.

Lemma emits_command {A} (E : Event -> Prop) c (exec : World -> A * World) :
  E (Cmd c) ->
  (forall w, files (exec w).2 = files w /\ script (exec w).2 = script w
             /\ trace (exec w).2 = trace w) ->
  emits E (command c exec).
Proof.
  intros Hc Hexec w. unfold command.
  destruct (script w) as [|[upd flt] rest] eqn:Hscript.
  - destruct (Hexec w) as (Hf & Hs & Ht). destruct (exec w) as [a w2]; cbn in *.
    split; [done|]. split; [exists 0; exact Hs|].
    exists [Cmd c]. simpl. rewrite Ht. split; [done|]. by apply Forall_singleton.
  - set (w1 := with_script rest (with_kv (apply_ext upd (kv w)) w)).
    destruct flt as [e|].
    + cbn. split; [done|]. split; [exists 1; simpl; rewrite Hscript; reflexivity|].
      exists []. by rewrite app_nil_r.
    + destruct (Hexec w1) as (Hf & Hs & Ht). subst w1.
      destruct (exec _) as [a w2]. cbn in *.
      split; [done|]. split; [exists 1; simpl; rewrite Hs, Hscript; reflexivity|].
      exists [Cmd c]. simpl. rewrite Ht. split; [done|]. by apply Forall_singleton.
Qed.

(** ** Decoding what was published and stored *)

Lemma dict_get_set k k' v (d : dict) :
  dict_get k (dict_set k' v d) = if String.eqb k k' then Some v else dict_get k d.
Proof.
  induction d as [|[k0 v0] d IH]; simpl.
  - by destruct (String.eqb k k').
  - destruct (String.eqb_spec k' k0) as [->|Hne]; simpl.
    + by destruct (String.eqb k k0).
    + rewrite IH. destruct (String.eqb_spec k k') as [->|]; [|done].
      by destruct (String.eqb_spec k' k0).
Qed.

Lemma dict_get_app k (d1 d2 : dict) :
  dict_get k (d1 ++ d2)%list
  = match dict_get k d1 with Some v => Some v | None => dict_get k d2 end.
Proof.
  induction d1 as [|[k0 v0] d1 IH]; simpl; [done|]. by destruct (String.eqb k k0).
Qed.

(** After the members are set one by one, a key holds its last value. *)
Lemma dict_get_fold k (f : json -> json) (kvs acc : dict) :
  dict_get k (fold_left (fun acc kv => dict_set (fst kv) (f (snd kv)) acc) kvs acc)
  = match dict_get k (rev kvs) with
    | Some v => Some (f v)
    | None => dict_get k acc
    end.
Proof.
  revert acc. induction kvs as [|[k1 v1] kvs IH]; intros acc; simpl; [done|].
  rewrite IH, dict_get_app, dict_get_set. simpl.
  destruct (dict_get k (rev kvs)); [done|]. by destruct (String.eqb k k1).
Qed.

Lemma loads_dumps_dict (d : dict) s :
  json_dumps (JObj d) = inr s ->
  json_loads s
  = inr (JObj (fold_left (fun acc kv => dict_set (fst kv) (dedup_keys (snd kv)) acc) d [])).
Proof. intros Hs. by rewrite (json_loads_dumps_dedup _ _ Hs). Qed.

Lemma event_type_dumps (d : dict) s :
  json_dumps (JObj d) = inr s ->
  event_type s = dedup_keys <$> dict_get "type" (rev d).
Proof.
  intros Hs. unfold event_type. rewrite (loads_dumps_dict _ _ Hs), dict_get_fold.
  by destruct (dict_get "type" (rev d)).
Qed.

Lemma record_status_dumps (d : dict) s :
  json_dumps (JObj d) = inr s ->
  record_status s = dedup_keys <$> dict_get "status" (rev d).
Proof.
  intros Hs. unfold record_status. rewrite (loads_dumps_dict _ _ Hs), dict_get_fold.
  by destruct (dict_get "status" (rev d)).
Qed.

(** An event whose type is spelled out in the code is terminal or not by its
    type. *)
Ltac event_kind :=
  let s := fresh "s" in let Hs := fresh "Hs" in
  intros s Hs; unfold is_terminal_event; rewrite (event_type_dumps _ _ Hs); reflexivity.

(** The events of the runner outside its three terminal writes. *)
Section Harmless.

Context (job_id : string) (E : Event -> Prop).
Hypothesis E_harmless : forall ev, harmless job_id ev = true -> E ev.

Lemma emits_log lvl msg : emits E (log lvl msg).
Proof. apply emits_emit. by apply E_harmless. Qed.

Lemma emits_redis_ping : emits E redis_ping.
Proof. apply emits_command; [by apply E_harmless | done]. Qed.

Lemma emits_redis_get key : emits E (redis_get key).
Proof. apply emits_command; [by apply E_harmless | done]. Qed.

Lemma emits_redis_setex key secs text : emits E (redis_setex key secs text).
Proof. apply emits_command; [by apply E_harmless | done]. Qed.

Lemma emits_connect : emits E Tasks.connect.
Proof.
  apply emits_try_except.
  - apply emits_bind; [by apply (emits_quiet E (fun _ => tt)) | intros _].
    apply emits_redis_ping.
  - intros e. apply emits_bind; [|intros _; apply emits_raise].
    destruct (is_conn_or_timeout e); [apply emits_bind; [|intros _]|]; apply emits_log.
Qed.

Lemma emits_get_redis_client : emits E Tasks.get_redis_client.
Proof.
  intros w. unfold Tasks.get_redis_client. destruct (worker_client w).
  - revert w. apply emits_try_except; [apply emits_redis_ping|].
    intros e. apply emits_bind; [apply emits_log | intros _].
    apply emits_bind; [by apply (emits_quiet E (fun _ => tt)) | intros _].
    apply emits_connect.
  - apply emits_connect.
Qed.

Lemma emits_update_job_status job_id' data :
  emits E (Tasks.update_job_status job_id' data).
Proof.
  apply emits_try_except.
  - apply emits_bind; [apply emits_get_redis_client | intros _].
    apply emits_bind; [apply emits_lift | intros s; apply emits_redis_setex].
  - intros e. destruct (is_conn_or_timeout e); [|destruct (is_redis_error e)];
      apply emits_log.
Qed.

(** A publish is harmless when the event is not terminal. *)
Lemma emits_publish_update data :
  (forall s, json_dumps (JObj data) = inr s -> is_terminal_event s = false) ->
  emits E (Tasks.publish_update job_id data).
Proof.
  intros Hdata. apply emits_try_except.
  - apply emits_bind; [apply emits_get_redis_client | intros _].
    unfold lift. destruct (json_dumps (JObj data)) as [e|s] eqn:Hs.
    + intros w. apply extends_refl.
    + intros w. change (extends E w (world_of (redis_publish (channel job_id) s w))).
      revert w. apply emits_command; [|done].
      apply E_harmless. cbn. by rewrite (Hdata s eq_refl), andb_false_r.
  - intros e. destruct (is_conn_or_timeout e); [|destruct (is_redis_error e)];
      apply emits_log.
Qed.

Ltac emits_step :=
  first [ apply emits_ret | apply emits_raise | apply emits_lift | apply emits_sleep
        | apply emits_log | apply emits_get_redis_client | apply emits_redis_get
        | apply emits_update_job_status
        | apply emits_publish_update; event_kind
        | apply emits_bind; [| intros ?]
        | apply emits_try_except_if; [| intros ?]
        | apply emits_try_except; [| intros ?]
        | match goal with
          | |- emits _ (if ?b then _ else _) => destruct b
          | |- emits _ (match ?x with _ => _ end) => destruct x
          end ].

Lemma emits_check_cancellation self : emits E (Tasks.check_cancellation self job_id).
Proof. unfold Tasks.check_cancellation. repeat emits_step. Qed.

Lemma emits_notify_paused : emits E (Tasks.notify_paused job_id).
Proof. unfold Tasks.notify_paused. repeat emits_step. Qed.

Lemma emits_notify_resumed : emits E (Tasks.notify_resumed job_id).
Proof. unfold Tasks.notify_resumed. repeat emits_step. Qed.

Lemma emits_pause_wait fuel self : emits E (Tasks.pause_wait fuel self job_id).
Proof.
  induction fuel as [|fuel IH]; [intros w; apply extends_refl|].
  cbn [Tasks.pause_wait]. repeat emits_step; try apply emits_check_cancellation. exact IH.
Qed.

Lemma emits_handle_pause fuel self : emits E (Tasks.handle_pause fuel self job_id).
Proof.
  unfold Tasks.handle_pause.
  repeat first [ apply emits_notify_paused | apply emits_notify_resumed
               | apply emits_pause_wait | emits_step ].
Qed.

Lemma emits_announce_start : emits E (Tasks.announce_start job_id).
Proof. unfold Tasks.announce_start. repeat emits_step. Qed.

Lemma emits_read_csv path : emits E (Tasks.read_csv path).
Proof.
  intros w. unfold Tasks.read_csv.
  destruct (os_stat w path), (files w !! path) as [[df|]|]; apply extends_refl.
Qed.

Lemma emits_load_dataset dataset_path target_column :
  emits E (Tasks.load_dataset job_id dataset_path target_column).
Proof.
  unfold Tasks.load_dataset.
  apply emits_bind; [by apply (emits_quiet E (fun w => os_path_exists w dataset_path) id)|].
  intros [|]; cbn [negb]; [|apply emits_raise].
  apply emits_bind; [apply emits_read_csv | intros df]. repeat emits_step.
Qed.

Lemma emits_split_data env target_column task_type df rows :
  emits E (Tasks.split_data env job_id target_column task_type df rows).
Proof. unfold Tasks.split_data. repeat emits_step. Qed.

Lemma emits_init_model task_type model_config n_train :
  emits E (Tasks.init_model job_id task_type model_config n_train).
Proof. unfold Tasks.init_model. repeat emits_step. Qed.

Lemma emits_fit_model fuel self env : emits E (Tasks.fit_model fuel self env job_id).
Proof.
  unfold Tasks.fit_model.
  repeat first [ apply emits_check_cancellation | apply emits_handle_pause | emits_step ].
Qed.

Lemma emits_get_resource_usage probe : emits E (Tasks.get_resource_usage probe).
Proof.
  intros w. unfold Tasks.get_resource_usage. destruct probe as [p|]; revert w.
  - apply emits_bind; [apply emits_sleep | intros _].
    by apply (emits_quiet E _ id).
  - repeat emits_step.
Qed.

End Harmless.

(** ** The whole run *)

Lemma harmless_any job_id ev : harmless job_id ev = true -> any_event ev.
Proof. done. Qed.

Lemma emits_publish_any job_id data : emits any_event (Tasks.publish_update job_id data).
Proof.
  apply emits_try_except.
  - apply emits_bind; [by apply (emits_get_redis_client job_id) | intros _].
    apply emits_bind; [apply emits_lift | intros s]. by apply emits_command.
  - intros e. destruct (is_conn_or_timeout e); [|destruct (is_redis_error e)];
      by apply emits_emit.
Qed.

Lemma emits_cancel_in_loop job_id : emits any_event (Tasks.cancel_in_loop job_id).
Proof.
  apply emits_bind; [by apply (emits_update_job_status job_id) | intros _].
  apply emits_publish_any.
Qed.

Lemma emits_epoch_loop fuel self env job_id task_type total_epochs start_time epochs history :
  emits any_event
    (Tasks.epoch_loop fuel self env job_id task_type total_epochs start_time epochs history).
Proof.
  revert history. induction epochs as [|epoch later IH]; intros history.
  - apply emits_ret.
  - cbn [Tasks.epoch_loop].
    apply emits_bind; [by apply (emits_check_cancellation job_id) | intros [|]].
    { apply emits_bind; [apply emits_cancel_in_loop | intros _; apply emits_ret]. }
    apply emits_bind; [by apply (emits_handle_pause job_id) | intros [|]];
      [apply emits_raise|].
    apply emits_bind; [apply emits_lift | intros ev].
    apply emits_bind; [by apply (emits_quiet any_event _ id) | intros elapsed_time].
    cbv zeta.
    apply emits_bind; [by apply (emits_get_resource_usage job_id) | intros usage].
    apply emits_bind; [apply emits_publish_any | intros _].
    apply emits_bind; [by apply (emits_update_job_status job_id) | intros _].
    apply emits_bind; [apply emits_sleep | intros _]. apply IH.
Qed.

Lemma emits_final_result E task_type fin training_time history :
  emits E (Tasks.final_result task_type fin training_time history).
Proof.
  unfold Tasks.final_result. destruct (String.eqb task_type "classification").
  - repeat (apply emits_bind; [apply emits_lift | intros ?]). apply emits_ret.
  - apply emits_ret.
Qed.

Lemma emits_finish env job_id task_type start_time history :
  emits any_event (Tasks.finish env job_id task_type start_time history).
Proof.
  unfold Tasks.finish.
  apply emits_bind; [apply emits_lift | intros fin].
  apply emits_bind; [by apply (emits_quiet any_event _ id) | intros training_time].
  apply emits_bind; [apply emits_final_result | intros result].
  cbv zeta. destruct (Tasks.dump_error env); [apply emits_raise|].
  apply emits_bind; [by apply (emits_quiet any_event (fun _ => tt)) | intros _].
  apply emits_bind; [by apply (emits_quiet any_event _ id) | intros completed_at].
  apply emits_bind; [by apply (emits_update_job_status job_id) | intros _].
  apply emits_bind; [apply emits_publish_any | intros _]. apply emits_ret.
Qed.

Lemma emits_on_exception {A} job_id e : emits any_event (@Tasks.on_exception A job_id e).
Proof.
  unfold Tasks.on_exception. cbv zeta.
  apply emits_bind; [by apply emits_emit | intros _].
  apply emits_bind; [by apply (emits_update_job_status job_id) | intros _].
  apply emits_bind; [apply emits_publish_any | intros _]. apply emits_raise.
Qed.

Lemma emits_train_model_task fuel self env dataset_path model_config target_column
    job_id task_type :
  emits any_event
    (Tasks.train_model_task fuel self env dataset_path model_config target_column
       job_id task_type).
Proof.
  unfold Tasks.train_model_task.
  apply emits_bind; [by apply (emits_quiet any_event _ id) | intros start_time].
  apply emits_try_except.
  - apply emits_bind; [by apply (emits_announce_start job_id) | intros _].
    apply emits_bind; [by apply (emits_load_dataset job_id) | intros loaded].
    apply emits_bind; [by apply (emits_split_data job_id) | intros n_train].
    apply emits_bind; [by apply (emits_init_model job_id) | intros total_epochs].
    apply emits_bind; [by apply (emits_fit_model job_id) | intros _].
    apply emits_bind; [apply emits_lift | intros n].
    apply emits_bind; [apply emits_epoch_loop | intros [returned|history]].
    + apply emits_ret.
    + apply emits_finish.
  - intros e. apply emits_on_exception.
Qed.
(** * The terminal status is written before the terminal event *)

(** On a store without faults the worker's client is there after one ping. *)
Lemma get_redis_client_faultless w :
  faultless (script w) ->
  exists w1, Tasks.get_redis_client w = Ret tt w1
    /\ trace w1 = (trace w ++ [Cmd PING])%list /\ faultless (script w1).
Proof.
  intros Hw. unfold Tasks.get_redis_client, Tasks.connect, try_except, bind,
    redis_ping, command.
  destruct (worker_client w); simpl;
    destruct (script w) as [|[upd [e|]] rest] eqn:Hscript; simpl;
    try (by apply Forall_cons in Hw as [[=] _]);
    eexists; (split; [reflexivity|]); simpl; (split; [done|]);
    try (by apply Forall_cons in Hw as [_ ?]); by rewrite Hscript.
Qed.

Lemma command_faultless {A} c (exec : World -> A * World) w :
  faultless (script w) ->
  (forall w, script (exec w).2 = script w /\ trace (exec w).2 = trace w) ->
  exists a w1, command c exec w = Ret a w1
    /\ trace w1 = (trace w ++ [Cmd c])%list /\ faultless (script w1).
Proof.
  intros Hw Hexec. unfold command.
  destruct (script w) as [|[upd [e|]] rest] eqn:Hscript.
  - destruct (Hexec w) as [Hs Ht]. destruct (exec w) as [a w1]. cbn in *.
    eexists _, _. split; [reflexivity|]. cbn. rewrite Ht, Hs, Hscript. done.
  - by apply Forall_cons in Hw as [[=] _].
  - apply Forall_cons in Hw as [_ Hrest].
    match goal with |- context [exec ?w0] =>
      destruct (Hexec w0) as [Hs Ht]; destruct (exec w0) as [a w1] end.
    cbn in *. eexists _, _. split; [reflexivity|]. cbn. by rewrite Ht, Hs.
Qed.

Lemma update_job_status_faultless job_id data s w :
  faultless (script w) -> json_dumps (JObj data) = inr s ->
  exists w1, Tasks.update_job_status job_id data w = Ret tt w1
    /\ trace w1 = (trace w ++ [Cmd PING; Cmd (SETEX (status_key job_id) 3600 s)])%list
    /\ faultless (script w1).
Proof.
  intros Hw Hs. destruct (get_redis_client_faultless w Hw) as (w0 & Hc & Ht0 & Hw0).
  destruct (command_faultless (SETEX (status_key job_id) 3600 s)
              (fun w => (tt, with_kv (<[status_key job_id := (s, Some (now w + 3600 * 1000)%Z)]> (kv w)) w))
              w0 Hw0 ltac:(done)) as ([] & w1 & Hset & Ht1 & Hw1).
  exists w1. unfold Tasks.update_job_status, try_except.
  rewrite (bind_Ret _ _ _ _ _ Hc), Hs. cbn [lift].
  change ((s0 <- ret s;; redis_setex (status_key job_id) 3600 s0) w0)
    with (redis_setex (status_key job_id) 3600 s w0).
  unfold redis_setex. rewrite Hset. split; [done|].
  rewrite Ht1, Ht0, <- app_assoc. done.
Qed.

Lemma publish_update_faultless job_id data s w :
  faultless (script w) -> json_dumps (JObj data) = inr s ->
  exists w1, Tasks.publish_update job_id data w = Ret tt w1
    /\ trace w1 = (trace w ++ [Cmd PING; Cmd (PUBLISH (channel job_id) s)])%list
    /\ faultless (script w1).
Proof.
  intros Hw Hs. destruct (get_redis_client_faultless w Hw) as (w0 & Hc & Ht0 & Hw0).
  destruct (command_faultless (PUBLISH (channel job_id) s) (fun w => (tt, w))
              w0 Hw0 ltac:(done)) as ([] & w1 & Hset & Ht1 & Hw1).
  exists w1. unfold Tasks.publish_update, try_except.
  rewrite (bind_Ret _ _ _ _ _ Hc), Hs. cbn [lift].
  change ((s0 <- ret s;; redis_publish (channel job_id) s0) w0)
    with (redis_publish (channel job_id) s w0).
  unfold redis_publish. rewrite Hset. split; [done|].
  rewrite Ht1, Ht0, <- app_assoc. done.
Qed.

(** ** The events around a terminal event *)

Lemma writes_nothing_log lvl msg : writes_nothing (Log lvl msg).
Proof. right. eauto. Qed.

Lemma writes_nothing_ping : writes_nothing (Cmd PING).
Proof. by left. Qed.

Lemma emits_worker_client_quiet : emits writes_nothing Tasks.get_redis_client.
Proof.
  assert (emits writes_nothing redis_ping) as Hping
    by (apply emits_command; [apply writes_nothing_ping | done]).
  assert (forall lvl msg, emits writes_nothing (log lvl msg)) as Hlog
    by (intros; apply emits_emit, writes_nothing_log).
  assert (emits writes_nothing Tasks.connect) as Hconnect.
  { apply emits_try_except.
    - apply emits_bind; [by apply (emits_quiet _ (fun _ => tt)) | intros _; exact Hping].
    - intros e. apply emits_bind; [|intros _; apply emits_raise].
      destruct (is_conn_or_timeout e); [apply emits_bind; [|intros _]|]; apply Hlog. }
  intros w. unfold Tasks.get_redis_client. destruct (worker_client w); [|apply Hconnect].
  revert w. apply emits_try_except; [exact Hping|].
  intros e. apply emits_bind; [apply Hlog | intros _].
  apply emits_bind; [by apply (emits_quiet _ (fun _ => tt)) | intros _; exact Hconnect].
Qed.


Lemma writes_nothing_harmless job_id ev : writes_nothing ev -> harmless job_id ev = true.
Proof. by intros [->|(lvl & msg & ->)]. Qed.

Lemma Forall_writes_nothing_harmless job_id evs :
  Forall writes_nothing evs -> Forall (fun ev => harmless job_id ev = true) evs.
Proof. intros H. eapply Forall_impl; [exact H|]. intros ev. apply writes_nothing_harmless. Qed.

Lemma status_attempt_harmless job_id msg ev :
  status_attempt job_id msg ev -> harmless job_id ev = true.
Proof. by intros [(text & -> & _)|(m & -> & _)]. Qed.

(** A command fails and leaves the trace as it is, or enters it. *)
Lemma command_outcome {A} c (exec : World -> A * World) w :
  (forall w, trace (exec w).2 = trace w) ->
  (exists e w1, command c exec w = Raise e w1 /\ trace w1 = trace w)
  \/ (exists a w1, command c exec w = Ret a w1 /\ trace w1 = (trace w ++ [Cmd c])%list).
Proof.
  intros Hexec. unfold command.
  destruct (script w) as [|[upd [e|]] rest].
  - right. specialize (Hexec w). destruct (exec w) as [a w2]. cbn in *.
    eexists _, _. split; [reflexivity|]. cbn. by rewrite Hexec.
  - left. eexists _, _. split; [reflexivity | done].
  - right.
    match goal with |- context [exec ?w0] =>
      specialize (Hexec w0); destruct (exec w0) as [a w2] end.
    cbn in *. eexists _, _. split; [reflexivity|]. cbn. by rewrite Hexec.
Qed.

(** The worker's client comes back or raises, after health checks and log
    records only. *)
Lemma get_redis_client_outcome w :
  exists evs,
    trace (world_of (Tasks.get_redis_client w)) = (trace w ++ evs)%list
    /\ Forall writes_nothing evs
    /\ ((exists w1, Tasks.get_redis_client w = Ret tt w1)
        \/ (exists e w1, Tasks.get_redis_client w = Raise e w1)).
Proof.
  destruct (emits_worker_client_quiet w) as (_ & _ & evs & Ht & He).
  exists evs. split; [done|]. split; [done|].
  pose proof (halts_get_redis_client w) as Hh.
  destruct (Tasks.get_redis_client w) as [[] w1|e w1|w1]; [left|right|done]; eauto.
Qed.

(** The three handlers of [update_job_status] log the failure. *)
Lemma update_job_status_handler job_id e w :
  exists m,
    (if is_conn_or_timeout e then
       log ERROR ("Redis connection error updating job " +:+ job_id +:+ ": " +:+ exn_str e)
     else if is_redis_error e then
       log ERROR ("Redis error updating job " +:+ job_id +:+ ": " +:+ exn_str e)
     else
       log ERROR ("Error updating job status " +:+ job_id +:+ ": " +:+ exn_str e)) w
    = Ret tt (with_trace (trace w ++ [Log ERROR m])%list w)
    /\ update_failure job_id m.
Proof.
  destruct (is_conn_or_timeout e); [|destruct (is_redis_error e)];
    eexists; (split; [reflexivity|]); exists e; auto.
Qed.

Lemma publish_update_handler job_id e w :
  exists m,
    (if is_conn_or_timeout e then
       log ERROR ("Redis connection error publishing for " +:+ job_id +:+ ": " +:+ exn_str e)
     else if is_redis_error e then
       log ERROR ("Redis error publishing for " +:+ job_id +:+ ": " +:+ exn_str e)
     else
       log ERROR ("Error publishing update for " +:+ job_id +:+ ": " +:+ exn_str e)) w
    = Ret tt (with_trace (trace w ++ [Log ERROR m])%list w).
Proof.
  destruct (is_conn_or_timeout e); [|destruct (is_redis_error e)];
    eexists; reflexivity.
Qed.

(** On any store, [update_job_status] ends with the write of the record or
    with the error record of the write that did not go through; before that
    it sends health checks and log records only. *)
Lemma update_job_status_attempt job_id data w :
  exists w1 pre attempt,
    Tasks.update_job_status job_id data w = Ret tt w1
    /\ trace w1 = (trace w ++ pre ++ [attempt])%list
    /\ Forall writes_nothing pre
    /\ ((exists text, json_dumps (JObj data) = inr text
                      /\ attempt = Cmd (SETEX (status_key job_id) 3600 text))
        \/ (exists m, attempt = Log ERROR m /\ update_failure job_id m)).
Proof.
  destruct (get_redis_client_outcome w) as (pre & Ht & Hpre & [[w0 Hc]|(e & w0 & Hc)]);
    rewrite Hc in Ht; cbn in Ht; unfold Tasks.update_job_status, try_except.
  - rewrite (bind_Ret _ _ _ _ _ Hc).
    destruct (json_dumps (JObj data)) as [e|text] eqn:Hdata.
    + cbn [lift]. unfold bind at 1, raise.
      destruct (update_job_status_handler job_id e w0) as (m & -> & Hm).
      eexists _, pre, _. split; [reflexivity|]. cbn. rewrite Ht, <- app_assoc.
      split; [done|]. split; [done|]. right. eauto.
    + cbn [lift]. unfold bind at 1, ret. unfold redis_setex.
      destruct (command_outcome (SETEX (status_key job_id) 3600 text)
                  (fun w => (tt, with_kv (<[status_key job_id
                                            := (text, Some (now w + 3600 * 1000)%Z)]>
                                            (kv w)) w)) w0 ltac:(done))
        as [(e & w1 & -> & Ht1)|([] & w1 & -> & Ht1)].
      * destruct (update_job_status_handler job_id e w1) as (m & -> & Hm).
        eexists _, pre, _. split; [reflexivity|]. cbn. rewrite Ht1, Ht, <- app_assoc.
        split; [done|]. split; [done|]. right. eauto.
      * eexists _, pre, _. split; [reflexivity|]. rewrite Ht1, Ht, <- app_assoc.
        split; [done|]. split; [done|]. left. eauto.
  - rewrite (bind_Raise _ _ _ _ _ Hc).
    destruct (update_job_status_handler job_id e w0) as (m & -> & Hm).
    eexists _, pre, _. split; [reflexivity|]. cbn. rewrite Ht, <- app_assoc.
    split; [done|]. split; [done|]. right. eauto.
Qed.

(** On any store, [publish_update] ends with the event on the job's channel,
    or sends health checks and log records only. *)
Lemma publish_update_attempt job_id data w :
  exists w1 evs,
    Tasks.publish_update job_id data w = Ret tt w1
    /\ trace w1 = (trace w ++ evs)%list
    /\ (Forall writes_nothing evs
        \/ exists pre msg,
             json_dumps (JObj data) = inr msg
             /\ evs = (pre ++ [Cmd (PUBLISH (channel job_id) msg)])%list
             /\ Forall writes_nothing pre).
Proof.
  destruct (get_redis_client_outcome w) as (pre & Ht & Hpre & [[w0 Hc]|(e & w0 & Hc)]);
    rewrite Hc in Ht; cbn in Ht; unfold Tasks.publish_update, try_except.
  - rewrite (bind_Ret _ _ _ _ _ Hc).
    destruct (json_dumps (JObj data)) as [e|msg] eqn:Hdata.
    + cbn [lift]. unfold bind at 1, raise.
      destruct (publish_update_handler job_id e w0) as (m & ->).
      eexists _, _. split; [reflexivity|]. cbn. rewrite Ht, <- app_assoc.
      split; [done|]. left. apply Forall_app. split; [done|].
      apply Forall_singleton, writes_nothing_log.
    + cbn [lift]. unfold bind at 1, ret. unfold redis_publish.
      destruct (command_outcome (PUBLISH (channel job_id) msg) (fun w => (tt, w))
                  w0 ltac:(done))
        as [(e & w1 & -> & Ht1)|([] & w1 & -> & Ht1)].
      * destruct (publish_update_handler job_id e w1) as (m & ->).
        eexists _, _. split; [reflexivity|]. cbn. rewrite Ht1, Ht, <- app_assoc.
        split; [done|]. left. apply Forall_app. split; [done|].
        apply Forall_singleton, writes_nothing_log.
      * eexists _, _. split; [reflexivity|]. rewrite Ht1, Ht, <- app_assoc.
        split; [done|]. right. by exists pre, msg.
  - rewrite (bind_Raise _ _ _ _ _ Hc).
    destruct (publish_update_handler job_id e w0) as (m & ->).
    eexists _, _. split; [reflexivity|]. cbn. rewrite Ht, <- app_assoc.
    split; [done|]. left. apply Forall_app. split; [done|].
    apply Forall_singleton, writes_nothing_log.
Qed.

(** ** Settled traces *)

Lemma settled_app job_id evs1 evs2 :
  Forall (fun ev => harmless job_id ev = true) evs1 -> settled job_id evs2 ->
  settled job_id (evs1 ++ evs2)%list.
Proof.
  intros H1 [H2|(earlier & attempt & later & msg & -> & He & Ha & Hl & Hm)].
  - left. by apply Forall_app.
  - right. exists (evs1 ++ earlier)%list, attempt, later, msg.
    rewrite <- app_assoc. split; [done|]. split; [by apply Forall_app | done].
Qed.

(** The status write and the event that follows it: when the event is
    terminal and the record is the one that goes with it, what the two calls
    add to the trace is settled. *)
Lemma terminal_pair_settled job_id record event w :
  (forall msg, json_dumps (JObj event) = inr msg -> is_terminal_event msg = true) ->
  (forall msg text, json_dumps (JObj event) = inr msg ->
     json_dumps (JObj record) = inr text -> corresponds msg text = true) ->
  exists w2 evs,
    (Tasks.update_job_status job_id record ;; Tasks.publish_update job_id event) w
    = Ret tt w2
    /\ trace w2 = (trace w ++ evs)%list /\ settled job_id evs.
Proof.
  intros Hterminal Hpair.
  destruct (update_job_status_attempt job_id record w)
    as (w1 & pre & attempt & Hup & Ht1 & Hpre & Hattempt).
  destruct (publish_update_attempt job_id event w1) as (w2 & evs & Hpub & Ht2 & Hevs).
  exists w2, ((pre ++ [attempt]) ++ evs)%list.
  rewrite (bind_Ret _ _ _ _ _ Hup). split; [exact Hpub|].
  split; [by rewrite Ht2, Ht1, <- !app_assoc|].
  assert (harmless job_id attempt = true) as Hharmless.
  { by destruct Hattempt as [(text & _ & ->)|(m & -> & _)]. }
  destruct Hevs as [Hquiet|(pre2 & msg & Hmsg & -> & Hpre2)].
  - left. repeat (apply Forall_app; split).
    + by apply Forall_writes_nothing_harmless.
    + by apply Forall_singleton.
    + by apply Forall_writes_nothing_harmless.
  - right. exists pre, attempt, pre2, msg. rewrite <- !app_assoc.
    split; [done|]. split; [by apply Forall_writes_nothing_harmless|].
    split; [|by auto].
    destruct Hattempt as [(text & Htext & ->)|(m & -> & Hm)].
    + left. exists text. split; [done|]. by apply Hpair.
    + right. eauto.
Qed.

Lemma settles_emits {A} job_id P (m : M A) :
  emits (fun ev => harmless job_id ev = true) m -> settles job_id P m.
Proof.
  intros Hm w. destruct (Hm w) as (_ & _ & evs & Ht & He). exists evs.
  split; [done|]. destruct (m w) as [a w1| |]; [|done..].
  destruct (P a); [by left | done].
Qed.

Lemma settles_bind {A B} job_id P (m : M A) (k : A -> M B) :
  emits (fun ev => harmless job_id ev = true) m ->
  (forall a, settles job_id P (k a)) -> settles job_id P (bind m k).
Proof.
  intros Hm Hk w. destruct (Hm w) as (_ & _ & evs1 & Ht1 & He1). unfold bind.
  destruct (m w) as [a w1| |]; cbn in Ht1; [|by exists evs1..].
  destruct (Hk a w1) as (evs2 & Ht2 & He2). exists (evs1 ++ evs2)%list.
  split; [by rewrite Ht2, Ht1, <- app_assoc|].
  destruct (k a w1) as [b w2| |]; [|by apply Forall_app..].
  destruct (P b); [by apply settled_app | by apply Forall_app].
Qed.

Lemma settles_ret {A} job_id P (a : A) : settles job_id P (ret a).
Proof. apply settles_emits, emits_ret. Qed.

Lemma settles_raise {A} job_id P e : settles job_id P (@raise A e).
Proof. apply settles_emits, emits_raise. Qed.

(** A terminal pair, and a return after it. *)
Lemma settles_terminal_pair {A} job_id record event (a : A) P :
  (forall msg, json_dumps (JObj event) = inr msg -> is_terminal_event msg = true) ->
  (forall msg text, json_dumps (JObj event) = inr msg ->
     json_dumps (JObj record) = inr text -> corresponds msg text = true) ->
  P a = true ->
  settles job_id P
    (Tasks.update_job_status job_id record ;; Tasks.publish_update job_id event ;; ret a).
Proof.
  intros Hterminal Hpair HP w.
  destruct (terminal_pair_settled job_id record event w Hterminal Hpair)
    as (w2 & evs & Hrun & Ht & Hs).
  exists evs.
  assert ((Tasks.update_job_status job_id record ;;
           Tasks.publish_update job_id event ;; ret a) w = Ret a w2) as ->.
  { unfold bind in Hrun |- *.
    destruct (Tasks.update_job_status job_id record w) as [[] w1| |]; [|done..].
    by destruct (Tasks.publish_update job_id event w1) as [[] w3| |];
      [injection Hrun as ->|..]. }
  split; [done|]. by rewrite HP.
Qed.

(** An event and a record spelled out in the code. *)
Ltac terminal_kind :=
  let s := fresh "s" in let Hs := fresh "Hs" in
  intros s Hs; unfold is_terminal_event; rewrite (event_type_dumps _ _ Hs); reflexivity.

Ltac status_kind :=
  let msg := fresh "msg" in let text := fresh "text" in
  let Hmsg := fresh "Hmsg" in let Htext := fresh "Htext" in
  intros msg text Hmsg Htext; unfold corresponds;
  rewrite (event_type_dumps _ _ Hmsg), (record_status_dumps _ _ Htext); reflexivity.

(** A member of a dictionary that was serialised was serialised. *)
Lemma dump_members_member (d : dict) s key v :
  dump_members json_dumps d = inr s -> (key, v) ∈ d -> exists sv, json_dumps v = inr sv.
Proof.
  revert s. induction d as [|[k x] d IH]; intros s Hs Hin; [by apply elem_of_nil in Hin|].
  rewrite dump_members_cons in Hs.
  destruct (json_dumps x) as [|sx] eqn:Hx; [done|].
  apply elem_of_cons in Hin as [[= -> ->]|Hin]; [eauto|].
  destruct d as [|y d]; [by apply elem_of_nil in Hin|].
  destruct (dump_members json_dumps (y :: d)) as [|sr]; [done|]. by eapply IH.
Qed.

Lemma dumps_member (d : dict) s key v :
  json_dumps (JObj d) = inr s -> (key, v) ∈ d -> exists sv, json_dumps v = inr sv.
Proof.
  change (json_dumps (JObj d))
    with (match dump_members json_dumps d with
          | inl e => inl e
          | inr s => inr ("{" +:+ s +:+ "}")
          end).
  destruct (dump_members json_dumps d) as [|sd] eqn:Hd; [done|].
  intros _. by apply (dump_members_member d sd key v).
Qed.

(** The result of a run is one of the two dictionaries of the code. *)
Lemma final_result_shape task_type fin training_time history w result w1 :
  Tasks.final_result task_type fin training_time history w = Ret result w1 ->
  w1 = w /\
  ((exists precision recall f1,
      result = Tasks.classification_result fin precision recall f1 training_time history)
   \/ result = Tasks.regression_result fin training_time history).
Proof.
  unfold Tasks.final_result. destruct (String.eqb task_type "classification").
  - unfold bind, lift, ret.
    destruct (Tasks.json_get "weighted avg" _ _) as [|wa]; [done|].
    destruct (Tasks.json_get "precision" _ _) as [|p]; [done|].
    destruct (Tasks.json_get "recall" _ _) as [|r]; [done|].
    destruct (Tasks.json_get "f1-score" _ _) as [|f]; [done|].
    intros [= <- <-]. split; [done|]. left. eauto.
  - intros [= <- <-]. split; [done|]. by right.
Qed.


Lemma settles_ext {A} job_id P (m m' : M A) :
  (forall w, m w = m' w) -> settles job_id P m -> settles job_id P m'.
Proof. intros Heq Hm w. rewrite <- Heq. apply Hm. Qed.

Lemma settles_bind_val {A B} job_id P (Q : A -> Prop) (m : M A) (k : A -> M B) :
  emits (fun ev => harmless job_id ev = true) m ->
  (forall w a w1, m w = Ret a w1 -> Q a) ->
  (forall a, Q a -> settles job_id P (k a)) -> settles job_id P (bind m k).
Proof.
  intros Hm HQ Hk w. destruct (Hm w) as (_ & _ & evs1 & Ht1 & He1). unfold bind.
  destruct (m w) as [a w1| |] eqn:Hmw; cbn in Ht1; [|by exists evs1..].
  destruct (Hk a (HQ _ _ _ Hmw) w1) as (evs2 & Ht2 & He2). exists (evs1 ++ evs2)%list.
  split; [by rewrite Ht2, Ht1, <- app_assoc|].
  destruct (k a w1) as [b w2| |]; [|by apply Forall_app..].
  destruct (P b); [by apply settled_app | by apply Forall_app].
Qed.

(** The loop returns from the task after a settled trace, and runs to its
    end without a terminal event. *)
Lemma settles_epoch_loop fuel self env job_id task_type total_epochs start_time
    epochs history :
  settles job_id (fun looped => match looped with inl _ => true | inr _ => false end)
    (Tasks.epoch_loop fuel self env job_id task_type total_epochs start_time epochs history).
Proof.
  revert history. induction epochs as [|epoch later IH]; intros history.
  - apply settles_ret.
  - cbn [Tasks.epoch_loop].
    apply settles_bind; [by apply (emits_check_cancellation job_id) | intros [|]].
    { unfold Tasks.cancel_in_loop.
      eapply settles_ext;
        [|apply (settles_terminal_pair job_id
                   [("job_id", JStr job_id); ("status", JStr "cancelled");
                    ("message", JStr "Training cancelled")]
                   [("type", JStr "error"); ("error", JStr "Cancelled");
                    ("message", JStr "Training cancelled by user")]
                   (inl [("status", JStr "cancelled"); ("job_id", JStr job_id)]));
          [terminal_kind | status_kind | done]].
      intros w. unfold bind.
      destruct (Tasks.update_job_status _ _ w) as [[] w1| |]; [|done..].
      by destruct (Tasks.publish_update _ _ w1) as [[] w2| |]. }
    apply settles_bind; [by apply (emits_handle_pause job_id) | intros [|]];
      [apply settles_raise|].
    apply settles_bind; [apply emits_lift | intros ev].
    apply settles_bind; [by apply (emits_quiet _ _ id) | intros elapsed_time].
    cbv zeta.
    apply settles_bind; [by apply (emits_get_resource_usage job_id) | intros usage].
    apply settles_bind;
      [apply (emits_publish_update job_id); [done | event_kind] | intros _].
    apply settles_bind; [by apply (emits_update_job_status job_id) | intros _].
    apply settles_bind; [apply emits_sleep | intros _].
    apply IH.
Qed.

(** The last block of the run: the result is stored, then announced. *)
Lemma settles_finish env job_id task_type start_time history :
  settles job_id (fun _ => true) (Tasks.finish env job_id task_type start_time history).
Proof.
  unfold Tasks.finish.
  apply settles_bind; [apply emits_lift | intros fin].
  apply settles_bind; [by apply (emits_quiet _ _ id) | intros training_time].
  eapply settles_bind_val;
    [apply emits_final_result
    | intros w result w1 Hres; exact (proj2 (final_result_shape _ _ _ _ _ _ _ Hres))
    | intros result Hshape].
  cbv zeta. destruct (Tasks.dump_error env); [apply settles_raise|].
  apply settles_bind; [by apply (emits_quiet _ (fun _ => tt)) | intros _].
  apply settles_bind; [by apply (emits_quiet _ _ id) | intros completed_at].
  apply settles_terminal_pair; [terminal_kind | | done].
  intros msg text Hmsg Htext. unfold corresponds.
  rewrite (event_type_dumps _ _ Hmsg), (record_status_dumps _ _ Htext).
  by destruct Hshape as [(p & r & f & ->)| ->].
Qed.

(** The handler of the run: the failure is stored, then announced. *)
Lemma on_exception_settled {A} job_id e w :
  exists evs,
    trace (world_of (@Tasks.on_exception A job_id e w)) = (trace w ++ evs)%list
    /\ settled job_id evs.
Proof.
  unfold Tasks.on_exception. cbv zeta. unfold bind at 1, log, emit.
  match goal with |- context [bind _ _ ?w0] => set (w1 := w0) end.
  destruct (terminal_pair_settled job_id
              [("job_id", JStr job_id); ("status", JStr "failed");
               ("error", JStr (exn_str e))]
              [("type", JStr "error"); ("error", JStr (exn_str e));
               ("message", JStr ("Training failed: " +:+ exn_str e))] w1)
    as (w2 & evs & Hrun & Ht & Hs); [terminal_kind | status_kind |].
  match goal with
  | |- context [world_of ?r] => assert (r = Raise e w2) as ->
  end.
  { unfold bind in Hrun |- *.
    destruct (Tasks.update_job_status _ _ w1) as [[] w3| |]; [|done..].
    by destruct (Tasks.publish_update _ _ w3) as [[] w4| |];
      [injection Hrun as ->|..]. }
  exists ((Log ERROR ("[JOB " +:+ job_id +:+ "] Failed: " +:+ exn_str e)) :: evs).
  cbn [world_of]. rewrite Ht. subst w1. cbn [trace with_trace].
  rewrite <- app_assoc. split; [done|].
  by apply (settled_app job_id [_]); [apply Forall_singleton|].
Qed.

(** What a whole run adds to the trace is settled. *)
Lemma run_settles fuel self env dataset_path model_config target_column job_id
    task_type w :
  exists evs,
    trace (world_of (Tasks.train_model_task fuel self env dataset_path model_config
                       target_column job_id task_type w))
    = (trace w ++ evs)%list
    /\ settled job_id evs.
Proof.
  unfold Tasks.train_model_task. unfold bind at 1. cbv beta. unfold try_except.
  match goal with
  | |- context [match ?b w with _ => _ end] =>
      assert (settles job_id (fun _ => true) b) as Hbody; [|set (body := b) in *]
  end.
  { apply settles_bind; [by apply (emits_announce_start job_id) | intros _].
    apply settles_bind; [by apply (emits_load_dataset job_id) | intros loaded].
    apply settles_bind; [by apply (emits_split_data job_id) | intros n_train].
    apply settles_bind; [by apply (emits_init_model job_id) | intros total_epochs].
    apply settles_bind; [by apply (emits_fit_model job_id) | intros _].
    apply settles_bind; [apply emits_lift | intros n].
    intros w0.
    destruct (settles_epoch_loop fuel self env job_id task_type total_epochs (now w)
                (seq 0 n) [] w0) as (evs1 & Ht1 & H1).
    unfold bind.
    destruct (Tasks.epoch_loop _ _ _ _ _ _ _ _ _ w0) as [[returned|history] w1| |];
      cbn in Ht1; [by exists evs1| |by exists evs1..].
    destruct (settles_finish env job_id task_type (now w) history w1)
      as (evs2 & Ht2 & H2).
    exists (evs1 ++ evs2)%list. split; [by rewrite Ht2, Ht1, <- app_assoc|].
    destruct (Tasks.finish _ _ _ _ _ w1) as [result w2| |];
      [by apply settled_app | by apply Forall_app..]. }
  destruct (Hbody w) as (evs1 & Ht1 & H1).
  destruct (body w) as [result w1|e w1|w1]; cbn in Ht1.
  - by exists evs1.
  - destruct (@on_exception_settled dict job_id e w1) as (evs2 & Ht2 & H2).
    exists (evs1 ++ evs2)%list. split; [by rewrite Ht2, Ht1, <- app_assoc|].
    by apply settled_app.
  - exists evs1. split; [done | by left].
Qed.

(** Where a list ends with the only element outside [H], that element is
    found. *)
Lemma last_outside {A} (H : A -> Prop) (l1 : list A) x l2 pre y :
  (l1 ++ x :: l2 = pre ++ [y])%list -> Forall H pre -> ~ H x ->
  l1 = pre /\ x = y /\ l2 = [].
Proof.
  revert l1. induction pre as [|a pre IH]; intros l1 Heq Hpre Hx.
  - destruct l1 as [|b l1]; cbn in Heq.
    + by injection Heq as -> ->.
    + injection Heq as -> Heq. by destruct l1.
  - apply Forall_cons in Hpre as [Ha Hpre]. destruct l1 as [|b l1]; cbn in Heq.
    + injection Heq as -> _. done.
    + injection Heq as -> Heq. by destruct (IH l1 Heq Hpre Hx) as (-> & -> & ->).
Qed.

(** C5 as amended.  In every run of the job, on any store, a terminal event
    ([complete] or [error]) published on the job's channel is the last entry
    of the trace of the run, and the last thing before it, but for health
    checks and log records, is the attempt of [update_job_status] to write the
    status that goes with it ([completed] with [complete]; [failed] or
    [cancelled] with [error]) under the job's status key: the write itself
    when it goes through -- it is then the final status write of the run,
    made before the event -- or the error record of the write that failed. *)
Theorem terminal_status_written_first fuel self env dataset_path model_config
    target_column job_id task_type (w : World) before msg after :
  trace (world_of (Tasks.train_model_task fuel self env dataset_path model_config
                     target_column job_id task_type w))
  = (trace w ++ before ++ Cmd (PUBLISH (channel job_id) msg) :: after)%list ->
  is_terminal_event msg = true ->
  after = []
  /\ exists earlier attempt later,
       before = (earlier ++ attempt :: later)%list
       /\ status_attempt job_id msg attempt
       /\ Forall writes_nothing later.
Proof.
  intros Htrace Hterminal.
  destruct (run_settles fuel self env dataset_path model_config target_column job_id
              task_type w) as (evs & Ht & Hs).
  rewrite Ht in Htrace. apply app_inv_head in Htrace.
  assert (harmless job_id (Cmd (PUBLISH (channel job_id) msg)) = false) as Hevent.
  { cbn. by rewrite String.eqb_refl, Hterminal. }
  destruct Hs as [Hall|(earlier & attempt & later & msg' & Heq & He & Ha & Hl & Hm)].
  - rewrite Htrace in Hall. apply Forall_app in Hall as [_ Hall].
    apply Forall_cons in Hall as [Hall _]. congruence.
  - rewrite Htrace in Heq.
    change (earlier ++ attempt :: later ++ [Cmd (PUBLISH (channel job_id) msg')])%list
      with (earlier ++ (attempt :: later) ++ [Cmd (PUBLISH (channel job_id) msg')])%list
      in Heq.
    rewrite app_assoc in Heq.
    apply (last_outside (fun ev => harmless job_id ev = true)) in Heq
        as (-> & [= ->] & ->).
    + split; [done|]. by exists earlier, attempt, later.
    + apply Forall_app. split; [done|]. apply Forall_cons. split.
      * by eapply status_attempt_harmless.
      * by apply Forall_writes_nothing_harmless.
    + by rewrite Hevent.
Qed.

(** C5 as stated fails when the store fails: the write of the result times
    out (and is only logged), the completion event is published all the same,
    and a client that reads the status then still finds ["running"]. *)
Lemma terminal_event_without_status_write :
  exists result w',
    Scenario.run Scenario.final_write_lost = Ret result w'
    /\ dict_get "status" result = Some (JStr "completed")
    /\ terminal_write_first Scenario.job (trace w') = false
    /\ persisted_status w' Scenario.job = Some (JStr "running").
Proof.
  assert (match Scenario.run Scenario.final_write_lost with
          | Ret result w' =>
              dict_get "status" result = Some (JStr "completed")
              /\ terminal_write_first Scenario.job (trace w') = false
              /\ persisted_status w' Scenario.job = Some (JStr "running")
          | _ => False
          end) as H.
  { vm_compute. repeat split; reflexivity. }
  destruct (Scenario.run Scenario.final_write_lost) as [result w'| |]; [|done..].
  by exists result, w'.
Qed.

Lemma terminal_status_written_first_witness :
  trace (world_of (Tasks.train_model_task 5 Scenario.self Scenario.env Scenario.path
                     [("epochs", JInt 2)] "label" Scenario.job "classification"
                     Scenario.world))
  = (trace Scenario.world ++ Scenario.before_complete
     ++ Cmd (PUBLISH (channel Scenario.job) Scenario.complete_message) :: [])%list
  /\ is_terminal_event Scenario.complete_message = true
  /\ (@nil Event = []
      /\ exists earlier attempt later,
           Scenario.before_complete = (earlier ++ attempt :: later)%list
           /\ status_attempt Scenario.job Scenario.complete_message attempt
           /\ Forall writes_nothing later).
Proof.
  assert (trace (world_of (Tasks.train_model_task 5 Scenario.self Scenario.env
                             Scenario.path [("epochs", JInt 2)] "label" Scenario.job
                             "classification" Scenario.world))
          = (trace Scenario.world ++ Scenario.before_complete
             ++ Cmd (PUBLISH (channel Scenario.job) Scenario.complete_message) :: [])%list)
    as Htrace by (vm_compute; reflexivity).
  assert (is_terminal_event Scenario.complete_message = true) as Hterminal
    by (vm_compute; reflexivity).
  split; [exact Htrace|]. split; [exact Hterminal|].
  exact (terminal_status_written_first 5 Scenario.self Scenario.env Scenario.path
           [("epochs", JInt 2)] "label" Scenario.job "classification" Scenario.world
           Scenario.before_complete Scenario.complete_message [] Htrace Hterminal).
Defined.

(** * Runs that complete *)

Lemma lift_Ret_inv {A} (r : Exn + A) w a w' : lift r w = Ret a w' -> r = inr a /\ w' = w.
Proof. destruct r; [done|]. by intros [= -> ->]. Qed.

Lemma try_except_Ret_inv {A} (m : M A) h w a w' :
  try_except m h w = Ret a w' ->
  m w = Ret a w' \/ exists e w1, m w = Raise e w1 /\ h e w1 = Ret a w'.
Proof. unfold try_except. destruct (m w) as [| e w1 |]; [by left | right; eauto | done]. Qed.

(** What a step that returned left of the script and of the files. *)
Lemma Ret_script_nil {A} E (m : M A) w a w' :
  emits E m -> m w = Ret a w' -> script w = [] -> script w' = [].
Proof.
  intros Hm Hw Hs. specialize (Hm w). rewrite Hw in Hm.
  destruct Hm as (_ & [k Hk] & _). cbn in Hk. by rewrite Hk, Hs, drop_nil.
Qed.

Lemma Ret_files {A} E (m : M A) w a w' :
  emits E m -> m w = Ret a w' -> files w' = files w.
Proof. intros Hm Hw. specialize (Hm w). rewrite Hw in Hm. by destruct Hm as (Hf & _). Qed.

(** The handler of the run always re-raises. *)
Lemma on_exception_raises {A} job_id e w :
  exists w', @Tasks.on_exception A job_id e w = Raise e w'.
Proof.
  unfold Tasks.on_exception. cbv zeta.
  destruct (returns_log ERROR ("[JOB " +:+ job_id +:+ "] Failed: " +:+ exn_str e) w)
    as ([] & w1 & H1).
  rewrite (bind_Ret _ _ _ _ _ H1).
  match goal with
  | |- context [bind (Tasks.update_job_status ?j ?d) _ w1] =>
      destruct (returns_update_job_status j d w1) as ([] & w2 & H2)
  end.
  rewrite (bind_Ret _ _ _ _ _ H2).
  match goal with
  | |- context [bind (Tasks.publish_update ?j ?d) _ w2] =>
      destruct (returns_publish_update j d w2) as ([] & w3 & H3)
  end.
  rewrite (bind_Ret _ _ _ _ _ H3). by exists w3.
Qed.

(** On a quiet, reliable store an event leaves keys and clock as they are. *)
Lemma publish_update_quiet job_id data w :
  script w = [] ->
  exists w', Tasks.publish_update job_id data w = Ret tt w'
    /\ kv w' = kv w /\ now w' = now w /\ script w' = [].
Proof.
  intros Hscript.
  unfold Tasks.publish_update, Tasks.get_redis_client, Tasks.connect,
    try_except, bind, redis_ping, redis_publish, command, lift, log, emit.
  destruct (worker_client w) eqn:Hc; simpl; rewrite ?Hscript; simpl;
    (destruct (json_dumps (JObj data)) as [e|s]; simpl; rewrite ?Hscript; simpl;
     [destruct (is_conn_or_timeout e), (is_redis_error e)|]);
    eexists; (split; [reflexivity|]); done.
Qed.

(** What the loop returns: the answer to a cancellation, or the history it
    was given with one entry more for each epoch. *)
Lemma epoch_loop_Ret fuel self env job_id task_type total_epochs start_time
    epochs history w looped w' :
  Tasks.epoch_loop fuel self env job_id task_type total_epochs start_time epochs history w
  = Ret looped w' ->
  match looped with
  | inl returned => returned = [("status", JStr "cancelled"); ("job_id", JStr job_id)]
  | inr h =>
      exists new, h = (history ++ new)%list
        /\ epoch_indices new = map (fun i => JInt (Z.of_nat i + 1)) epochs
  end.
Proof.
  revert history w. induction epochs as [|epoch later IH]; intros history w H.
  - injection H as <- <-. exists []. by rewrite app_nil_r.
  - cbn [Tasks.epoch_loop] in H.
    apply bind_Ret_inv in H as ([|] & w1 & _ & H).
    { apply bind_Ret_inv in H as ([] & w2 & _ & H). by injection H as <- <-. }
    apply bind_Ret_inv in H as ([|] & w2 & _ & H); [done|].
    apply bind_Ret_inv in H as (ev & w3 & _ & H).
    apply bind_Ret_inv in H as (elapsed_time & w4 & _ & H). cbv zeta in H.
    apply bind_Ret_inv in H as (usage & w5 & _ & H).
    apply bind_Ret_inv in H as ([] & w6 & _ & H).
    apply bind_Ret_inv in H as ([] & w7 & _ & H).
    apply bind_Ret_inv in H as ([] & w8 & _ & H).
    apply IH in H. destruct looped as [returned|h]; [done|].
    destruct H as (new & -> & Hnew).
    eexists (_ :: new). rewrite <- app_assoc. split; [reflexivity|].
    cbn [epoch_indices map]. by rewrite <- Hnew.
Qed.

Lemma load_dataset_Ret job_id dataset_path target_column w loaded w' :
  Tasks.load_dataset job_id dataset_path target_column w = Ret loaded w' ->
  exists df, files w !! dataset_path = Some (Some df) /\ loaded = (df, n_complete df).
Proof.
  unfold Tasks.load_dataset. intros H.
  apply bind_Ret_inv in H as (exists_ & w1 & Hexists & H). injection Hexists as <- <-.
  destruct (os_path_exists w dataset_path); [|done]. cbn [negb] in H.
  apply bind_Ret_inv in H as (df0 & w2 & Hread & H).
  unfold Tasks.read_csv in Hread.
  destruct (os_stat w dataset_path), (files w !! dataset_path) as [[df|]|] eqn:Hfile;
    try done.
  injection Hread as <- <-.
  destruct (bool_decide (n_rows df = 0 \/ columns df = [])); [done|].
  destruct (negb (bool_decide (target_column ∈ columns df))); [done|].
  cbv zeta in H.
  apply bind_Ret_inv in H as ([] & w2 & _ & H).
  apply bind_Ret_inv in H as ([] & w3 & _ & H).
  injection H as <- <-. by exists df.
Qed.

Lemma split_data_Ret env job_id target_column task_type df rows w n_train w' :
  Tasks.split_data env job_id target_column task_type df rows w = Ret n_train w' ->
  n_train = Tasks.train_size rows.
Proof.
  unfold Tasks.split_data. cbv zeta. intros H.
  destruct (filter _ _); [|done].
  destruct (bool_decide (rows = 0 \/ Tasks.train_size rows = 0)); [done|].
  destruct (if String.eqb task_type "classification" then _ else _); [done|].
  apply bind_Ret_inv in H as ([] & w2 & _ & H). by injection H as <- <-.
Qed.

Lemma init_model_Ret job_id task_type model_config n_train w total_epochs w' :
  Tasks.init_model job_id task_type model_config n_train w = Ret total_epochs w' ->
  Tasks.calculate_epochs (Z.of_nat n_train) (dict_get_or_null "epochs" model_config)
  = inr total_epochs.
Proof.
  unfold Tasks.init_model. intros H.
  destruct (dict_get_default _ _ _); try done.
  apply bind_Ret_inv in H as ([] & w2 & _ & H). by apply lift_Ret_inv in H as [-> _].
Qed.

(** The loop runs at least once. *)
Lemma calculate_epochs_positive dataset_size user_epochs total_epochs n :
  Tasks.calculate_epochs dataset_size user_epochs = inr total_epochs ->
  range_len total_epochs = inr n -> 0 < n.
Proof.
  unfold Tasks.calculate_epochs. intros H Hn.
  assert (forall t, (if (dataset_size <? 1000)%Z then inr (JInt 50)
                     else if (dataset_size <? 10000)%Z then inr (JInt 20)
                     else inr (JInt 10)) = (inr t : Exn + json) ->
                    range_len t = inr n -> 0 < n) as Hdefault.
  { intros t Ht Htn.
    destruct (dataset_size <? 1000)%Z; [|destruct (dataset_size <? 10000)%Z];
      injection Ht as <-; injection Htn as <-; cbn; lia. }
  destruct (truthy user_epochs); [|exact (Hdefault _ H Hn)].
  destruct (greater_than_zero user_epochs) as [|[|]] eqn:Hg;
    [done| |exact (Hdefault _ H Hn)].
  injection H as <-.
  destruct user_epochs as [|b|z|x|s|l|d|t]; try done.
  - injection Hg as ->. injection Hn as <-. lia.
  - injection Hg as Hz. injection Hn as <-. apply Z.ltb_lt in Hz. lia.
Qed.

(** What the last block of the run returns, and what it leaves in the store. *)
Lemma finish_Ret env job_id task_type start_time history w result w' :
  Tasks.finish env job_id task_type start_time history w = Ret result w' ->
  exists fin training_time completed_at shape,
    ((exists precision recall f1,
        shape = Tasks.classification_result fin precision recall f1 training_time history)
     \/ shape = Tasks.regression_result fin training_time history)
    /\ result = Tasks.completed_result shape job_id completed_at
    /\ (script w = [] -> forall text, json_dumps (JObj result) = inr text ->
          live_value (now w') (kv w') (status_key job_id) = Some text).
Proof.
  unfold Tasks.finish. intros H.
  apply bind_Ret_inv in H as (fin & w1 & Hfin & H). apply lift_Ret_inv in Hfin as [_ ->].
  apply bind_Ret_inv in H as (training_time & w2 & Ht & H). injection Ht as <- <-.
  apply bind_Ret_inv in H as (shape & w3 & Hshape & H).
  apply final_result_shape in Hshape as [-> Hshape]. cbv zeta in H.
  destruct (Tasks.dump_error env); [done|].
  apply bind_Ret_inv in H as ([] & w4 & Hsave & H). injection Hsave as <-.
  apply bind_Ret_inv in H as (completed_at & w5 & Hc & H). injection Hc as <- <-.
  apply bind_Ret_inv in H as ([] & w6 & Hwrite & H).
  apply bind_Ret_inv in H as ([] & w7 & Hpub & H). injection H as <- <-.
  eexists fin, _, _, shape. split; [exact Hshape|]. split; [reflexivity|].
  intros Hscript text Htext.
  match type of Hwrite with
  | Tasks.update_job_status _ _ ?w5 = _ =>
      destruct (update_job_status_quiet job_id _ text w5 Hscript Htext)
        as (w6' & Hwrite' & Hkv & Hnow & Hscript6 & _)
  end.
  pose proof (eq_trans (eq_sym Hwrite) Hwrite') as Hsame. injection Hsame as <-.
  destruct (publish_update_quiet job_id
              (Tasks.complete_event
                 (Tasks.completed_result shape job_id (isoformat (now w)))
                 (now w - start_time)) w6 Hscript6)
    as (w7' & Hpub' & Hkv7 & Hnow7 & _).
  pose proof (eq_trans (eq_sym Hpub) Hpub') as Hsame. injection Hsame as <-.
  simpl in Hkv, Hnow.
  unfold live_value. rewrite Hkv7, Hkv, lookup_insert_eq, Hnow7, Hnow.
  by rewrite (proj2 (Z.ltb_lt (now w) (now w + 3600 * 1000))) by lia.
Qed.

(** A run that returns was either cancelled inside the loop or went through
    every epoch and the last block. *)
Lemma train_model_task_Ret fuel self env dataset_path model_config target_column
    job_id task_type w result w' :
  Tasks.train_model_task fuel self env dataset_path model_config target_column
    job_id task_type w = Ret result w' ->
  result = [("status", JStr "cancelled"); ("job_id", JStr job_id)]
  \/ exists df total_epochs n history fin training_time completed_at shape,
       files w !! dataset_path = Some (Some df)
       /\ Tasks.calculate_epochs (Z.of_nat (Tasks.train_size (n_complete df)))
            (dict_get_or_null "epochs" model_config) = inr total_epochs
       /\ range_len total_epochs = inr n
       /\ epoch_indices history = one_to n
       /\ ((exists precision recall f1,
              shape = Tasks.classification_result fin precision recall f1
                        training_time history)
           \/ shape = Tasks.regression_result fin training_time history)
       /\ result = Tasks.completed_result shape job_id completed_at
       /\ (script w = [] -> forall text, json_dumps (JObj result) = inr text ->
             live_value (now w') (kv w') (status_key job_id) = Some text).
Proof.
  unfold Tasks.train_model_task. intros H.
  apply bind_Ret_inv in H as (start_time & w0 & Hstart & H). injection Hstart as <- <-.
  apply try_except_Ret_inv in H as [H|(e & w1 & _ & H)];
    [|by destruct (@on_exception_raises dict job_id e w1) as (w2 & Hraise); rewrite Hraise in H].
  apply bind_Ret_inv in H as ([] & wa & Ha & H).
  apply bind_Ret_inv in H as (loaded & wb & Hb & H).
  apply bind_Ret_inv in H as (n_train & wc & Hc & H).
  apply bind_Ret_inv in H as (total_epochs & wd & Hd & H).
  apply bind_Ret_inv in H as ([] & we & He & H).
  apply bind_Ret_inv in H as (n & wf & Hf & H). apply lift_Ret_inv in Hf as [Hn ->].
  apply bind_Ret_inv in H as (looped & wg & Hg & H).
  pose proof (epoch_loop_Ret _ _ _ _ _ _ _ _ _ _ _ _ Hg) as Hloop.
  destruct looped as [returned|history].
  { injection H as <- <-. by left. }
  right. destruct Hloop as (new & -> & Hnew). rewrite app_nil_l in H.
  apply load_dataset_Ret in Hb as Hdf. destruct Hdf as (df & Hdf & ->). cbn [fst snd] in Hc.
  apply split_data_Ret in Hc as Htrain. subst n_train.
  apply init_model_Ret in Hd as Hepochs.
  destruct (finish_Ret _ _ _ _ _ _ _ _ H)
    as (fin & training_time & completed_at & shape & Hshape & Hresult & Hstore).
  exists df, total_epochs, n, new, fin, training_time, completed_at, shape.
  split. { by rewrite <- (Ret_files _ _ _ _ _ (emits_announce_start job_id any_event
                                               (fun _ _ => I)) Ha). }
  do 5 (split; [done|]).
  intros Hscript. apply Hstore.
  eapply Ret_script_nil; [apply emits_epoch_loop | exact Hg |].
  eapply Ret_script_nil; [by apply (emits_fit_model job_id any_event) | exact He |].
  eapply Ret_script_nil; [by apply (emits_init_model job_id any_event) | exact Hd |].
  eapply Ret_script_nil; [by apply (emits_split_data job_id any_event) | exact Hc |].
  eapply Ret_script_nil; [by apply (emits_load_dataset job_id any_event) | exact Hb |].
  eapply Ret_script_nil; [by apply (emits_announce_start job_id any_event) | exact Ha |].
  exact Hscript.
Qed.

Lemma completed_result_status shape job_id completed_at fin training_time history :
  ((exists precision recall f1,
      shape = Tasks.classification_result fin precision recall f1 training_time history)
   \/ shape = Tasks.regression_result fin training_time history) ->
  dict_get "progress" (Tasks.completed_result shape job_id completed_at) = None
  /\ dict_get "training_history" (Tasks.completed_result shape job_id completed_at)
     = Some (JList history).
Proof. by intros [(p & r & f & ->)| ->]. Qed.

Lemma one_to_length history n : epoch_indices history = one_to n -> length history = n.
Proof.
  intros H. apply (f_equal length) in H.
  unfold epoch_indices, one_to in H. by rewrite !length_map, length_seq in H.
Qed.

(** C3 as amended.  When a run returns a result that says [completed], that
    result has no [progress] entry (the 100 goes out with the [complete] event
    only); its training history holds one entry for each epoch, numbered 1 to
    [n] with [n] at least 1; and, on a quiet and reliable store, the text under
    the job's status key at the end of the run is the text of that result. *)
Theorem completed_record_history fuel self env dataset_path model_config target_column
    job_id task_type (w : World) result w' :
  Tasks.train_model_task fuel self env dataset_path model_config target_column
    job_id task_type w = Ret result w' ->
  dict_get "status" result = Some (JStr "completed") ->
  dict_get "progress" result = None
  /\ (exists history n,
        dict_get "training_history" result = Some (JList history)
        /\ 0 < n /\ length history = n /\ epoch_indices history = one_to n)
  /\ (script w = [] -> forall text, json_dumps (JObj result) = inr text ->
        live_value (now w') (kv w') (status_key job_id) = Some text).
Proof.
  intros Hrun Hstatus.
  apply train_model_task_Ret in Hrun
    as [->|(df & total_epochs & n & history & fin & training_time & completed_at & shape
            & _ & Hepochs & Hn & Hidx & Hshape & -> & Hstore)]; [done|].
  destruct (completed_result_status _ job_id completed_at _ _ _ Hshape) as [Hp Hh].
  split; [done|]. split; [|done].
  exists history, n. split; [done|].
  split; [by eapply calculate_epochs_positive|].
  split; [by apply one_to_length | done].
Qed.

(** C3 as stated fails: the record a completed run leaves in the store has
    no [progress] entry at all. *)
Lemma completed_record_without_progress :
  exists result w',
    Scenario.run Scenario.world = Ret result w'
    /\ dict_get "status" result = Some (JStr "completed")
    /\ persisted_record w' Scenario.job = Some result
    /\ dict_get "progress" result = None
    /\ dict_get "progress" result <> Some (JInt 100).
Proof.
  assert (match Scenario.run Scenario.world with
          | Ret result w' =>
              dict_get "status" result = Some (JStr "completed")
              /\ persisted_record w' Scenario.job = Some result
              /\ dict_get "progress" result = None
          | _ => False
          end) as H.
  { vm_compute. repeat split; reflexivity. }
  destruct (Scenario.run Scenario.world) as [result w'| |]; [|done..].
  destruct H as (H1 & H2 & H3). exists result, w'.
  repeat split; [done..|]. by rewrite H3.
Qed.

Lemma completed_record_history_witness :
  dict_get "progress" Scenario.outcome = None
  /\ (exists history n,
        dict_get "training_history" Scenario.outcome = Some (JList history)
        /\ 0 < n /\ length history = n /\ epoch_indices history = one_to n)
  /\ (script Scenario.world = [] ->
      forall text, json_dumps (JObj Scenario.outcome) = inr text ->
        live_value (now Scenario.after_run) (kv Scenario.after_run)
          (status_key Scenario.job) = Some text).
Proof.
  apply (completed_record_history 5 Scenario.self Scenario.env Scenario.path
           [("epochs", JInt 2)] "label" Scenario.job "classification"
           Scenario.world Scenario.outcome Scenario.after_run).
  - vm_compute. reflexivity.
  - vm_compute. reflexivity.
Defined.

(** C6.  In a run that completes, the training history has one entry for each
    simulated epoch, and the number of epochs is the one [calculate_epochs]
    makes of the size of the training split and of the caller's ["epochs"]:
    with no override and a dataset of at most 1000 complete rows it is 50;
    with a positive integer override it is that integer. *)
Theorem epochs_from_dataset_size fuel self env dataset_path model_config target_column
    job_id task_type (w : World) result w' :
  Tasks.train_model_task fuel self env dataset_path model_config target_column
    job_id task_type w = Ret result w' ->
  dict_get "status" result = Some (JStr "completed") ->
  exists df total_epochs history,
    files w !! dataset_path = Some (Some df)
    /\ Tasks.calculate_epochs (Z.of_nat (Tasks.train_size (n_complete df)))
         (dict_get_or_null "epochs" model_config) = inr total_epochs
    /\ dict_get "training_history" result = Some (JList history)
    /\ range_len total_epochs = inr (length history)
    /\ (dict_get "epochs" model_config = None -> n_complete df <= 1000 ->
        total_epochs = JInt 50 /\ length history = 50)
    /\ (forall k, dict_get "epochs" model_config = Some (JInt k) -> (0 < k)%Z ->
        total_epochs = JInt k /\ length history = Z.to_nat k).
Proof.
  intros Hrun Hstatus.
  apply train_model_task_Ret in Hrun
    as [->|(df & total_epochs & n & history & fin & training_time & completed_at & shape
            & Hdf & Hepochs & Hn & Hidx & Hshape & -> & _)]; [done|].
  destruct (completed_result_status _ job_id completed_at _ _ _ Hshape) as [_ Hh].
  apply one_to_length in Hidx. subst n.
  exists df, total_epochs, history. do 4 (split; [done|]). split.
  - intros Hnone Hrows. unfold dict_get_or_null in Hepochs. rewrite Hnone in Hepochs.
    unfold Tasks.calculate_epochs in Hepochs. cbn [truthy] in Hepochs.
    assert ((Z.of_nat (Tasks.train_size (n_complete df)) <? 1000)%Z = true) as Hsmall.
    { apply Z.ltb_lt. unfold Tasks.train_size, Tasks.test_size.
      assert (1 <= (n_complete df + 4) `div` 5 \/ n_complete df = 0) as [?|?]; [|lia..].
      destruct (n_complete df); [by right | left].
      apply Nat.div_le_lower_bound; lia. }
    rewrite Hsmall in Hepochs. injection Hepochs as <-.
    split; [done|]. by injection Hn as <-.
  - intros k Hsome Hk. unfold dict_get_or_null in Hepochs. rewrite Hsome in Hepochs.
    unfold Tasks.calculate_epochs in Hepochs. cbn [truthy greater_than_zero] in Hepochs.
    rewrite (proj2 (Z.eqb_neq k 0)) in Hepochs by lia.
    rewrite (proj2 (Z.ltb_lt 0 k)) in Hepochs by lia. cbn in Hepochs.
    injection Hepochs as <-. split; [done|]. by injection Hn as <-.
Qed.

Lemma epochs_from_dataset_size_witness :
  exists df total_epochs history,
    files Scenario.world !! Scenario.path = Some (Some df)
    /\ Tasks.calculate_epochs (Z.of_nat (Tasks.train_size (n_complete df)))
         (dict_get_or_null "epochs" []) = inr total_epochs
    /\ dict_get "training_history" Scenario.default_outcome = Some (JList history)
    /\ range_len total_epochs = inr (length history)
    /\ (dict_get "epochs" [] = None -> n_complete df <= 1000 ->
        total_epochs = JInt 50 /\ length history = 50)
    /\ (forall k, dict_get "epochs" [] = Some (JInt k) -> (0 < k)%Z ->
        total_epochs = JInt k /\ length history = Z.to_nat k).
Proof.
  apply (epochs_from_dataset_size 5 Scenario.self Scenario.env Scenario.path
           [] "label" Scenario.job "classification"
           Scenario.world Scenario.default_outcome Scenario.after_default_run).
  - vm_compute. reflexivity.
  - vm_compute. reflexivity.
Defined.

(** * The helpers of the runner *)

(** X1.  Whatever the store does and whatever the record holds,
    [update_job_status] returns to its caller: every exception of the
    connection, of the write and of [json.dumps] is logged and swallowed. *)
Theorem update_job_status_never_raises job_id data (w : World) :
  exists w', Tasks.update_job_status job_id data w = Ret tt w'.
Proof.
  destruct (returns_update_job_status job_id data w) as ([] & w' & Hw). eauto.
Qed.

(** X2.  A record [json.dumps] cannot print is dropped:
    [update_job_status] returns, and nothing but health checks and log
    records comes of the call -- no write reaches the store. *)
Theorem update_job_status_unserialisable job_id data e (w : World) :
  json_dumps (JObj data) = inl e ->
  exists w' evs,
    Tasks.update_job_status job_id data w = Ret tt w'
    /\ trace w' = (trace w ++ evs)%list /\ Forall writes_nothing evs.
Proof.
  intros Hdata.
  destruct (returns_update_job_status job_id data w) as ([] & w' & Hw).
  assert (emits writes_nothing (Tasks.update_job_status job_id data)) as Hemits.
  { apply emits_try_except.
    - apply emits_bind; [apply emits_worker_client_quiet | intros _].
      rewrite Hdata. intros w0. apply extends_refl.
    - intros e'. destruct (is_conn_or_timeout e'); [|destruct (is_redis_error e')];
        apply emits_emit, writes_nothing_log. }
  specialize (Hemits w). rewrite Hw in Hemits. destruct Hemits as (_ & _ & evs & Ht & Hevs).
  by exists w', evs.
Qed.

Lemma update_job_status_unserialisable_witness :
  exists w' evs,
    Tasks.update_job_status Scenario.job [("model", JOpaque "RandomForestClassifier")]
      Scenario.world = Ret tt w'
    /\ trace w' = (trace Scenario.world ++ evs)%list /\ Forall writes_nothing evs.
Proof.
  apply (update_job_status_unserialisable Scenario.job
           [("model", JOpaque "RandomForestClassifier")]
           (TypeError "Object of type RandomForestClassifier is not JSON serializable")
           Scenario.world).
  vm_compute. reflexivity.
Defined.

(** ** [check_cancellation] *)

Lemma halts_read_cancel_flag job_id : halts (read_cancel_flag job_id).
Proof.
  apply halts_bind; [apply halts_get_redis_client | intros _; apply halts_command].
Qed.

(** [check_cancellation], by the outcome of its read. *)
Lemma check_cancellation_unfold self job_id w :
  Tasks.check_cancellation self job_id w =
  match read_cancel_flag job_id w with
  | Ret v w1 =>
      Ret (bool_decide (v = Some "true") || (Tasks.is_aborted self || Tasks.revoked self)) w1
  | Raise e w1 =>
      if is_conn_or_timeout e then Ret (Tasks.is_aborted self || Tasks.revoked self) w1
      else Ret false
             (with_trace (trace w1 ++
                [Log ERROR ("Error checking cancellation for " +:+ job_id +:+ ": "
                            +:+ exn_str e)])%list w1)
  | Hang w1 => Hang w1
  end.
Proof.
  unfold Tasks.check_cancellation, read_cancel_flag, try_except_if, try_except, bind.
  destruct (Tasks.get_redis_client w) as [[] w0|e w0|w0];
    [| by destruct (is_conn_or_timeout e) | done].
  destruct (redis_get (cancel_key job_id) w0) as [v w1|e w1|w1];
    [| by destruct (is_conn_or_timeout e) | done].
  cbn [ret]. by destruct (bool_decide (v = Some "true")).
Qed.

(** X3.  [check_cancellation] always returns a boolean.  When the
    read of the cancel flag goes through, the answer is: the flag reads
    ["true"], or Celery has aborted or revoked the task.  When the read fails
    with a connection error or a timeout, the answer is Celery's alone.  On
    any other exception the answer is [False], also for a revoked task. *)
Theorem check_cancellation_answer self job_id (w : World) :
  exists b w',
    Tasks.check_cancellation self job_id w = Ret b w'
    /\ match read_cancel_flag job_id w with
       | Ret v _ =>
           b = bool_decide (v = Some "true") || (Tasks.is_aborted self || Tasks.revoked self)
       | Raise e _ =>
           b = is_conn_or_timeout e && (Tasks.is_aborted self || Tasks.revoked self)
       | Hang _ => False
       end.
Proof.
  rewrite check_cancellation_unfold. pose proof (halts_read_cancel_flag job_id w) as Hh.
  destruct (read_cancel_flag job_id w) as [v w1|e w1|w1]; [by eexists _, _| |done].
  destruct (is_conn_or_timeout e); by eexists _, _.
Qed.

(** On a quiet, reliable store a read goes through the health check and
    gives the live value of the key; nothing changes but the trace. *)
Lemma read_key_quiet key w :
  script w = [] ->
  exists w1,
    (Tasks.get_redis_client ;; redis_get key) w = Ret (live_value (now w) (kv w) key) w1
    /\ kv w1 = kv w /\ now w1 = now w /\ script w1 = []
    /\ trace w1 = (trace w ++ [Cmd PING; Cmd (GET key)])%list.
Proof.
  intros Hscript.
  unfold Tasks.get_redis_client, Tasks.connect, try_except, bind, redis_ping, redis_get,
    command.
  destruct (worker_client w) eqn:Hc; simpl; rewrite ?Hscript; simpl;
    rewrite ?Hscript; simpl; eexists; (split; [reflexivity|]); simpl;
    rewrite <- ?app_assoc; done.
Qed.

Lemma check_cancellation_quiet self job_id w :
  script w = [] ->
  exists w',
    Tasks.check_cancellation self job_id w
    = Ret (bool_decide (live_value (now w) (kv w) (cancel_key job_id) = Some "true")
           || (Tasks.is_aborted self || Tasks.revoked self)) w'
    /\ kv w' = kv w /\ now w' = now w /\ script w' = []
    /\ trace w' = (trace w ++ [Cmd PING; Cmd (GET (cancel_key job_id))])%list.
Proof.
  intros Hscript. destruct (read_key_quiet (cancel_key job_id) w Hscript) as (w1 & Hread & H).
  rewrite check_cancellation_unfold. unfold read_cancel_flag. rewrite Hread. by exists w1.
Qed.

(** X4.  On a quiet, reliable store [check_cancellation] answers
    by the live value of the job's cancel flag (an expired or missing flag
    counts as not set) or Celery's revocation; it sends one health check and
    one read, and leaves the key space as it was: the flag is not consumed. *)
Theorem check_cancellation_reads_flag self job_id (w : World) :
  script w = [] ->
  exists w',
    Tasks.check_cancellation self job_id w
    = Ret (bool_decide (live_value (now w) (kv w) (cancel_key job_id) = Some "true")
           || (Tasks.is_aborted self || Tasks.revoked self)) w'
    /\ kv w' = kv w
    /\ trace w' = (trace w ++ [Cmd PING; Cmd (GET (cancel_key job_id))])%list.
Proof.
  intros Hscript.
  destruct (check_cancellation_quiet self job_id w Hscript) as (w' & H & Hkv & _ & _ & Ht).
  by exists w'.
Qed.

Lemma check_cancellation_reads_flag_witness :
  exists w',
    Tasks.check_cancellation Scenario.self Scenario.job Scenario.cancelled_world
    = Ret (bool_decide (live_value (now Scenario.cancelled_world)
                          (kv Scenario.cancelled_world) (cancel_key Scenario.job)
                        = Some "true")
           || (Tasks.is_aborted Scenario.self || Tasks.revoked Scenario.self)) w'
    /\ kv w' = kv Scenario.cancelled_world
    /\ trace w' = (trace Scenario.cancelled_world
                   ++ [Cmd PING; Cmd (GET (cancel_key Scenario.job))])%list.
Proof.
  apply (check_cancellation_reads_flag Scenario.self Scenario.job Scenario.cancelled_world).
  reflexivity.
Defined.

(** ** [handle_pause] *)

(** X5.  [handle_pause] never raises.  When the read of the pause
    flag gives anything but ["true"], it returns [False] at once, in the world
    the read left: no status write, no event, no wait. *)
Theorem handle_pause_never_raises (self : Tasks.TaskRequest) (job_id : string) :
  (forall fuel w e w', Tasks.handle_pause fuel self job_id w <> Raise e w')
  /\ (forall fuel w v w1,
        read_pause_flag job_id w = Ret v w1 -> v <> Some "true" ->
        Tasks.handle_pause fuel self job_id w = Ret false w1).
Proof.
  split.
  - intros fuel w e w'. unfold Tasks.handle_pause, try_except.
    match goal with |- match ?body with _ => _ end <> _ => destruct body; done end.
  - intros fuel w v w1 Hread Hv.
    rewrite handle_pause_unfold, Hread. by rewrite bool_decide_eq_false_2.
Qed.

Lemma handle_pause_never_raises_witness :
  exists w1,
    read_pause_flag Scenario.job Scenario.world = Ret None w1
    /\ Tasks.handle_pause 0 Scenario.self Scenario.job Scenario.world = Ret false w1.
Proof.
  set (w1 := world_of (read_pause_flag Scenario.job Scenario.world)).
  assert (read_pause_flag Scenario.job Scenario.world = Ret None w1) as Hread
    by (vm_compute; reflexivity).
  exists w1. split; [exact Hread|].
  apply (proj2 (handle_pause_never_raises Scenario.self Scenario.job)
           0 Scenario.world None w1 Hread).
  discriminate.
Defined.

(** X6.  The wait of a paused job ends in one of two ways.  When,
    after any number of polls, the pause flag no longer reads ["true"], the
    resume is written and announced and [handle_pause] returns [False].  When
    a poll finds the flag still set and [check_cancellation] answers [True],
    [handle_pause] returns [True] at once, without the resume notice. *)
Theorem handle_pause_wait_ends (self : Tasks.TaskRequest) (job_id : string) :
  (forall fuel n w w1 w2 wk v wk' w',
     read_pause_flag job_id w = Ret (Some "true") w1 ->
     Tasks.notify_paused job_id w1 = Ret tt w2 ->
     polls self job_id n w2 wk ->
     read_pause_flag job_id wk = Ret v wk' -> v <> Some "true" ->
     Tasks.notify_resumed job_id wk' = Ret tt w' ->
     Tasks.handle_pause (n + S fuel) self job_id w = Ret false w')
  /\
  (forall fuel n w w1 w2 wk wk' w',
     read_pause_flag job_id w = Ret (Some "true") w1 ->
     Tasks.notify_paused job_id w1 = Ret tt w2 ->
     polls self job_id n w2 wk ->
     read_pause_flag job_id wk = Ret (Some "true") wk' ->
     Tasks.check_cancellation self job_id wk' = Ret true w' ->
     Tasks.handle_pause (n + S fuel) self job_id w = Ret true w').
Proof.
  split.
  - intros fuel n w w1 w2 wk v wk' w' Hread Hnote Hpolls Hflag Hv Hres.
    rewrite handle_pause_unfold, Hread, bool_decide_eq_true_2 by done.
    unfold try_except. rewrite (bind_Ret _ _ _ _ _ Hnote).
    unfold bind at 1.
    rewrite (pause_wait_polls _ _ _ _ _ _ Hpolls), pause_wait_unfold, Hflag.
    rewrite bool_decide_eq_false_2 by done.
    by rewrite (bind_Ret _ _ _ _ _ Hres).
  - intros fuel n w w1 w2 wk wk' w' Hread Hnote Hpolls Hflag Hcancel.
    rewrite handle_pause_unfold, Hread, bool_decide_eq_true_2 by done.
    unfold try_except. rewrite (bind_Ret _ _ _ _ _ Hnote).
    unfold bind at 1.
    rewrite (pause_wait_polls _ _ _ _ _ _ Hpolls), pause_wait_unfold, Hflag.
    by rewrite bool_decide_eq_true_2, Hcancel by done.
Qed.

Lemma handle_pause_wait_ends_witness :
  (exists wk wk' w',
     polls Scenario.self Scenario.job 1
       (world_of (Tasks.notify_paused Scenario.job
                    (world_of (read_pause_flag Scenario.job
                                 Scenario.resumed_while_paused)))) wk
     /\ read_pause_flag Scenario.job wk = Ret None wk'
     /\ Tasks.handle_pause (1 + S 3) Scenario.self Scenario.job
          Scenario.resumed_while_paused = Ret false w')
  /\ (exists wk wk' w',
        polls Scenario.self Scenario.job 2
          (world_of (Tasks.notify_paused Scenario.job
                       (world_of (read_pause_flag Scenario.job Scenario.paused_world)))) wk
        /\ read_pause_flag Scenario.job wk = Ret (Some "true") wk'
        /\ Tasks.handle_pause (2 + S 3) Scenario.self Scenario.job Scenario.paused_world
           = Ret true w').
Proof.
  split.
  - set (w := Scenario.resumed_while_paused).
    set (w1 := world_of (read_pause_flag Scenario.job w)).
    set (w2 := world_of (Tasks.notify_paused Scenario.job w1)).
    set (wa := world_of (read_pause_flag Scenario.job w2)).
    set (wb := world_of (Tasks.check_cancellation Scenario.self Scenario.job wa)).
    set (wk := world_of (sleep 300 wb)).
    set (wk' := world_of (read_pause_flag Scenario.job wk)).
    set (w' := world_of (Tasks.notify_resumed Scenario.job wk')).
    assert (polls Scenario.self Scenario.job 1 w2 wk) as Hpolls.
    { apply (polls_S _ _ 0 w2 wk wk); [|apply polls_O].
      exists wa, wb. split; [|split]; vm_compute; reflexivity. }
    assert (read_pause_flag Scenario.job wk = Ret None wk') as Hflag
      by (vm_compute; reflexivity).
    assert (Tasks.handle_pause (1 + S 3) Scenario.self Scenario.job w = Ret false w') as Hrun.
    { apply (proj1 (handle_pause_wait_ends Scenario.self Scenario.job)
               3 1 w w1 w2 wk None wk' w');
        [vm_compute; reflexivity | vm_compute; reflexivity | exact Hpolls | exact Hflag
        | discriminate | vm_compute; reflexivity]. }
    exists wk, wk', w'. exact (conj Hpolls (conj Hflag Hrun)).
  - set (w := Scenario.paused_world).
    set (w1 := world_of (read_pause_flag Scenario.job w)).
    set (w2 := world_of (Tasks.notify_paused Scenario.job w1)).
    set (wa := world_of (read_pause_flag Scenario.job w2)).
    set (wb := world_of (Tasks.check_cancellation Scenario.self Scenario.job wa)).
    set (wc := world_of (sleep 300 wb)).
    set (wd := world_of (read_pause_flag Scenario.job wc)).
    set (we := world_of (Tasks.check_cancellation Scenario.self Scenario.job wd)).
    set (wk := world_of (sleep 300 we)).
    set (wk' := world_of (read_pause_flag Scenario.job wk)).
    set (w' := world_of (Tasks.check_cancellation Scenario.self Scenario.job wk')).
    assert (polls Scenario.self Scenario.job 2 w2 wk) as Hpolls.
    { apply (polls_S _ _ 1 w2 wc wk).
      - exists wa, wb. split; [|split]; vm_compute; reflexivity.
      - apply (polls_S _ _ 0 wc wk wk); [|apply polls_O].
        exists wd, we. split; [|split]; vm_compute; reflexivity. }
    assert (read_pause_flag Scenario.job wk = Ret (Some "true") wk') as Hflag
      by (vm_compute; reflexivity).
    assert (Tasks.handle_pause (2 + S 3) Scenario.self Scenario.job w = Ret true w') as Hrun.
    { apply (proj2 (handle_pause_wait_ends Scenario.self Scenario.job)
               3 2 w w1 w2 wk wk' w');
        [vm_compute; reflexivity | vm_compute; reflexivity | exact Hpolls | exact Hflag
        | vm_compute; reflexivity]. }
    exists wk, wk', w'. exact (conj Hpolls (conj Hflag Hrun)).
Defined.

(** ** The connection of the worker *)

(** X7.  A stale connection does not lose a status write: when the
    health check of the cached client fails (with any exception) and the store
    answers afterwards, [get_redis_client] reconnects and the record is stored
    with its one-hour expiry; the trace shows the warning, the second health
    check and the write. *)
Theorem update_job_status_reconnects job_id data s upd e (w : World) :
  worker_client w = true ->
  script w = [{| ext := upd; fault := Some e |}] ->
  json_dumps (JObj data) = inr s ->
  exists w',
    Tasks.update_job_status job_id data w = Ret tt w'
    /\ kv w' = <[status_key job_id := (s, Some (now w + 3600 * 1000)%Z)]>
                 (apply_ext upd (kv w))
    /\ worker_client w' = true
    /\ trace w' = (trace w ++
                   [Log WARNING ("Redis connection lost, reconnecting: " +:+ exn_str e);
                    Cmd PING; Cmd (SETEX (status_key job_id) 3600 s)])%list.
Proof.
  intros Hc Hscript Hs.
  unfold Tasks.update_job_status, Tasks.get_redis_client, Tasks.connect,
    try_except, bind, redis_ping, redis_setex, command, lift, log, emit.
  rewrite Hc, Hscript. simpl. rewrite Hs. simpl.
  eexists. split; [reflexivity|]. simpl. rewrite <- ?app_assoc. done.
Qed.

Lemma update_job_status_reconnects_witness :
  exists w',
    Tasks.update_job_status Scenario.job Scenario.record
      (with_script [Scenario.timed_out] Scenario.world) = Ret tt w'
    /\ kv w' = <[status_key Scenario.job :=
                   (Scenario.record_text,
                    Some (now (with_script [Scenario.timed_out] Scenario.world)
                          + 3600 * 1000)%Z)]>
                 (apply_ext [] (kv (with_script [Scenario.timed_out] Scenario.world)))
    /\ worker_client w' = true
    /\ trace w' = (trace (with_script [Scenario.timed_out] Scenario.world) ++
                   [Log WARNING ("Redis connection lost, reconnecting: "
                                 +:+ exn_str (RedisTimeoutError "Timeout reading from socket"));
                    Cmd PING; Cmd (SETEX (status_key Scenario.job) 3600
                                     Scenario.record_text)])%list.
Proof.
  apply (update_job_status_reconnects Scenario.job Scenario.record Scenario.record_text
           [] (RedisTimeoutError "Timeout reading from socket")
           (with_script [Scenario.timed_out] Scenario.world)).
  - reflexivity.
  - reflexivity.
  - vm_compute. reflexivity.
Defined.

(** * What a run leaves outside the store *)

Section Keeps.

Context {X : Type} (f : World -> X).
Hypothesis f_blind : store_blind f.

Lemma keeps_ret {A} (a : A) : keeps f (ret a).
Proof. done. Qed.

Lemma keeps_raise {A} e : keeps f (@raise A e).
Proof. done. Qed.

Lemma keeps_lift {A} (r : Exn + A) : keeps f (lift r).
Proof. by destruct r. Qed.

Lemma keeps_bind {A B} (m : M A) (k : A -> M B) :
  keeps f m -> (forall a, keeps f (k a)) -> keeps f (bind m k).
Proof.
  intros Hm Hk w. unfold bind. specialize (Hm w).
  destruct (m w) as [a w1| |]; [|done..]. cbn in Hm. by rewrite Hk.
Qed.

Lemma keeps_try_except {A} (m : M A) h :
  keeps f m -> (forall e, keeps f (h e)) -> keeps f (try_except m h).
Proof.
  intros Hm Hh w. unfold try_except. specialize (Hm w).
  destruct (m w) as [|e w1|]; [done| |done]. cbn in Hm. by rewrite Hh.
Qed.

Lemma keeps_try_except_if {A} p (m : M A) h :
  keeps f m -> (forall e, keeps f (h e)) -> keeps f (try_except_if p m h).
Proof.
  intros Hm Hh. apply keeps_try_except; [done|].
  intros e. destruct (p e); [apply Hh | apply keeps_raise].
Qed.

Lemma keeps_emit ev : keeps f (emit ev).
Proof. intros w. apply f_blind. Qed.

Lemma keeps_log lvl msg : keeps f (log lvl msg).
Proof. apply keeps_emit. Qed.

Lemma keeps_sleep ms : keeps f (sleep ms).
Proof. intros w. apply f_blind. Qed.

Lemma keeps_read {A} (g : World -> A) : keeps f (fun w => Ret (g w) w).
Proof. done. Qed.

Lemma keeps_command {A} c (exec : World -> A * World) :
  (forall w, f (exec w).2 = f w) -> keeps f (command c exec).
Proof.
  destruct f_blind as (_ & Hkv & Hscript & Htrace & _).
  intros Hexec w. unfold command.
  destruct (script w) as [|[upd [e|]] rest].
  - specialize (Hexec w). destruct (exec w) as [a w2]. cbn in *. by rewrite Htrace.
  - cbn. by rewrite Hscript, Hkv.
  - match goal with |- context [exec ?w1] => specialize (Hexec w1) end.
    destruct (exec _) as [a w2]. cbn in *. by rewrite Htrace, Hexec, Hscript, Hkv.
Qed.

Lemma keeps_redis_ping : keeps f redis_ping.
Proof. by apply keeps_command. Qed.

Lemma keeps_redis_get key : keeps f (redis_get key).
Proof. by apply keeps_command. Qed.

Lemma keeps_redis_setex key secs text : keeps f (redis_setex key secs text).
Proof. apply keeps_command. intros w. apply f_blind. Qed.

Lemma keeps_redis_publish ch msg : keeps f (redis_publish ch msg).
Proof. by apply keeps_command. Qed.

Lemma keeps_worker_client b : keeps f (fun w => Ret tt (with_worker_client b w)).
Proof. intros w. apply f_blind. Qed.

Lemma keeps_connect : keeps f Tasks.connect.
Proof.
  apply keeps_try_except.
  - apply keeps_bind; [apply keeps_worker_client | intros _; apply keeps_redis_ping].
  - intros e. apply keeps_bind; [|intros _; apply keeps_raise].
    destruct (is_conn_or_timeout e); [apply keeps_bind; [|intros _]|]; apply keeps_log.
Qed.

Lemma keeps_get_redis_client : keeps f Tasks.get_redis_client.
Proof.
  intros w. unfold Tasks.get_redis_client. destruct (worker_client w); [|apply keeps_connect].
  revert w. apply keeps_try_except; [apply keeps_redis_ping|].
  intros e. apply keeps_bind; [apply keeps_log | intros _].
  apply keeps_bind; [apply keeps_worker_client | intros _; apply keeps_connect].
Qed.

Lemma keeps_update_job_status job_id data : keeps f (Tasks.update_job_status job_id data).
Proof.
  apply keeps_try_except.
  - apply keeps_bind; [apply keeps_get_redis_client | intros _].
    apply keeps_bind; [apply keeps_lift | intros s; apply keeps_redis_setex].
  - intros e. destruct (is_conn_or_timeout e); [|destruct (is_redis_error e)];
      apply keeps_log.
Qed.

Lemma keeps_publish_update job_id data : keeps f (Tasks.publish_update job_id data).
Proof.
  apply keeps_try_except.
  - apply keeps_bind; [apply keeps_get_redis_client | intros _].
    apply keeps_bind; [apply keeps_lift | intros s; apply keeps_redis_publish].
  - intros e. destruct (is_conn_or_timeout e); [|destruct (is_redis_error e)];
      apply keeps_log.
Qed.

Ltac keeps_step :=
  first [ apply keeps_ret | apply keeps_raise | apply keeps_lift | apply keeps_sleep
        | apply keeps_log | apply keeps_get_redis_client | apply keeps_redis_get
        | apply keeps_update_job_status | apply keeps_publish_update | apply keeps_read
        | apply keeps_bind; [| intros ?]
        | apply keeps_try_except_if; [| intros ?]
        | apply keeps_try_except; [| intros ?]
        | match goal with
          | |- keeps _ (if ?b then _ else _) => destruct b
          | |- keeps _ (match ?x with _ => _ end) => destruct x
          end ].




Lemma keeps_announce_start job_id : keeps f (Tasks.announce_start job_id).
Proof. unfold Tasks.announce_start. repeat keeps_step. Qed.











End Keeps.




(** * Runs that fail *)

Lemma outcome_script_nil {A} E (m : M A) w :
  emits E m -> script w = [] -> script (world_of (m w)) = [].
Proof. intros Hm Hs. destruct (Hm w) as (_ & [k Hk] & _). by rewrite Hk, Hs, drop_nil. Qed.

(** On a quiet, reliable store a serialisable event goes out on the job's
    channel. *)
Lemma publish_update_sends job_id data s w :
  script w = [] -> json_dumps (JObj data) = inr s ->
  exists w', Tasks.publish_update job_id data w = Ret tt w'
    /\ kv w' = kv w /\ now w' = now w /\ script w' = []
    /\ trace w' = (trace w ++ [Cmd PING; Cmd (PUBLISH (channel job_id) s)])%list.
Proof.
  intros Hscript Hs.
  unfold Tasks.publish_update, Tasks.get_redis_client, Tasks.connect,
    try_except, bind, redis_ping, redis_publish, command, lift.
  destruct (worker_client w) eqn:Hc; simpl; rewrite ?Hscript, Hs; simpl;
    rewrite ?Hscript; simpl; eexists; (split; [reflexivity|]); simpl;
    rewrite <- ?app_assoc; done.
Qed.

(** What a client reads after a write it can decode. *)
Lemma persisted_record_insert (d : dict) text w job_id (deadline : Z) :
  json_dumps (JObj d) = inr text -> unique_keys (JObj d) = true ->
  kv w !! status_key job_id = Some (text, Some deadline) -> (now w < deadline)%Z ->
  persisted_record w job_id = Some d.
Proof.
  intros Htext Hu Hkv Hnow. unfold persisted_record, live_value.
  rewrite Hkv, (proj2 (Z.ltb_lt _ _) Hnow). by rewrite (json_loads_dumps _ _ Htext Hu).
Qed.

(** The handler of the run on a quiet, reliable store. *)
Lemma on_exception_quiet {A} job_id e w :
  script w = [] ->
  exists w' msg,
    @Tasks.on_exception A job_id e w = Raise e w'
    /\ persisted_record w' job_id
       = Some [("job_id", JStr job_id); ("status", JStr "failed");
               ("error", JStr (exn_str e))]
    /\ last (trace w') = Some (Cmd (PUBLISH (channel job_id) msg))
    /\ json_loads msg
       = inr (JObj [("type", JStr "error"); ("error", JStr (exn_str e));
                    ("message", JStr ("Training failed: " +:+ exn_str e))]).
Proof.
  intros Hscript. unfold Tasks.on_exception. cbv zeta.
  unfold bind at 1. cbn [log emit].
  set (w0 := with_trace _ w).
  set (record := [("job_id", JStr job_id); ("status", JStr "failed");
                  ("error", JStr (exn_str e))]).
  set (event := [("type", JStr "error"); ("error", JStr (exn_str e));
                 ("message", JStr ("Training failed: " +:+ exn_str e))]).
  assert (exists text, json_dumps (JObj record) = inr text) as [text Htext]
    by (eexists; reflexivity).
  assert (exists msg, json_dumps (JObj event) = inr msg) as [msg Hmsg]
    by (eexists; reflexivity).
  destruct (update_job_status_quiet job_id record text w0 Hscript Htext)
    as (w1 & H1 & Hkv1 & Hnow1 & Hscript1 & _).
  rewrite (bind_Ret _ _ _ _ _ H1).
  destruct (publish_update_sends job_id event msg w1 Hscript1 Hmsg)
    as (w2 & H2 & Hkv2 & Hnow2 & _ & Htrace2).
  rewrite (bind_Ret _ _ _ _ _ H2).
  exists w2, msg. split; [done|]. split; [|split].
  - apply (persisted_record_insert record text w2 job_id (now w0 + 3600 * 1000)%Z);
      [done | done | by rewrite Hkv2, Hkv1, lookup_insert_eq | lia].
  - rewrite Htrace2. change [Cmd PING; ?c] with ([Cmd PING] ++ [c])%list.
    by rewrite !app_assoc, last_snoc.
  - by apply json_loads_dumps.
Qed.

(** A run raises what its body raised, after the handler has run. *)
Lemma train_model_task_Raise fuel self env dataset_path model_config target_column
    job_id task_type w e w' :
  Tasks.train_model_task fuel self env dataset_path model_config target_column
    job_id task_type w = Raise e w' ->
  exists w1, @Tasks.on_exception dict job_id e w1 = Raise e w'
             /\ (script w = [] -> script w1 = []).
Proof.
  unfold Tasks.train_model_task. unfold bind at 1. unfold try_except.
  match goal with
  | |- match ?body w with _ => _ end = _ -> _ =>
      assert (emits any_event body) as Hemits; [|destruct (body w) as [|e0 w1|] eqn:Hbody]
  end; [|done| |done].
  - apply emits_bind; [by apply (emits_announce_start job_id) | intros _].
    apply emits_bind; [by apply (emits_load_dataset job_id) | intros loaded].
    apply emits_bind; [by apply (emits_split_data job_id) | intros n_train].
    apply emits_bind; [by apply (emits_init_model job_id) | intros total_epochs].
    apply emits_bind; [by apply (emits_fit_model job_id) | intros _].
    apply emits_bind; [apply emits_lift | intros n].
    apply emits_bind; [apply emits_epoch_loop | intros [returned|history]].
    + apply emits_ret.
    + apply emits_finish.
  - intros Hraise. destruct (@on_exception_raises dict job_id e0 w1) as (w2 & Hsame).
    pose proof (eq_trans (eq_sym Hsame) Hraise) as Heq. injection Heq as -> ->.
    exists w1. split; [done|]. intros Hscript.
    pose proof (outcome_script_nil _ _ w Hemits Hscript) as Hnil. by rewrite Hbody in Hnil.
Qed.

(** X9.  On a quiet, reliable store a run that raises [e] leaves the
    record [{job_id, status: failed, error: str(e)}] under the job's status
    key, and the last thing it sends is the [error] event with the same
    text. *)
Theorem failed_run_is_recorded fuel self env dataset_path model_config target_column
    job_id task_type (w : World) e w' :
  script w = [] ->
  Tasks.train_model_task fuel self env dataset_path model_config target_column
    job_id task_type w = Raise e w' ->
  persisted_record w' job_id
  = Some [("job_id", JStr job_id); ("status", JStr "failed"); ("error", JStr (exn_str e))]
  /\ exists msg,
       last (trace w') = Some (Cmd (PUBLISH (channel job_id) msg))
       /\ json_loads msg
          = inr (JObj [("type", JStr "error"); ("error", JStr (exn_str e));
                       ("message", JStr ("Training failed: " +:+ exn_str e))]).
Proof.
  intros Hscript Hrun.
  apply train_model_task_Raise in Hrun as (w1 & Hraise & Hnil).
  destruct (@on_exception_quiet dict job_id e w1 (Hnil Hscript))
    as (w2 & msg & Hsame & Hrecord & Hlast & Hmsg).
  pose proof (eq_trans (eq_sym Hsame) Hraise) as Heq. injection Heq as ->.
  split; [done|]. by exists msg.
Qed.

Lemma failed_run_is_recorded_witness :
  persisted_record (world_of (Scenario.run Scenario.cancelled_world)) Scenario.job
  = Some [("job_id", JStr Scenario.job); ("status", JStr "failed");
          ("error", JStr (exn_str (PyException "Training cancelled by user")))]
  /\ exists msg,
       last (trace (world_of (Scenario.run Scenario.cancelled_world)))
       = Some (Cmd (PUBLISH (channel Scenario.job) msg))
       /\ json_loads msg
          = inr (JObj [("type", JStr "error");
                       ("error", JStr (exn_str (PyException "Training cancelled by user")));
                       ("message",
                        JStr ("Training failed: "
                              +:+ exn_str (PyException "Training cancelled by user")))]).
Proof.
  apply (failed_run_is_recorded 5 Scenario.self Scenario.env Scenario.path
           [("epochs", JInt 2)] "label" Scenario.job "classification"
           Scenario.cancelled_world (PyException "Training cancelled by user")
           (world_of (Scenario.run Scenario.cancelled_world))).
  - reflexivity.
  - vm_compute. reflexivity.
Defined.

(** ** A dataset the run refuses *)

Lemma returns_announce_start job_id : returns (Tasks.announce_start job_id).
Proof.
  apply returns_bind; [apply returns_update_job_status | intros _].
  apply returns_publish_update.
Qed.

Lemma special_blind : store_blind special.
Proof. by repeat split. Qed.

(** What the dataset checks raise comes out of the run. *)
Lemma run_raises_at_load fuel self env dataset_path model_config target_column
    job_id task_type w e :
  (forall w1, files w1 = files w -> special w1 = special w ->
     Tasks.load_dataset job_id dataset_path target_column w1 = Raise e w1) ->
  exists w', Tasks.train_model_task fuel self env dataset_path model_config target_column
               job_id task_type w = Raise e w'.
Proof.
  intros Hload. unfold Tasks.train_model_task. unfold bind at 1. unfold try_except.
  destruct (returns_announce_start job_id w) as ([] & w1 & Hstart).
  rewrite (bind_Ret _ _ _ _ _ Hstart).
  assert (files w1 = files w) as Hfiles.
  { exact (Ret_files _ _ _ _ _ (emits_announce_start job_id any_event (fun _ _ => I))
             Hstart). }
  assert (special w1 = special w) as Hspecial.
  { pose proof (keeps_announce_start special special_blind job_id w) as K.
    by rewrite Hstart in K. }
  rewrite (bind_Raise _ _ _ _ _ (Hload w1 Hfiles Hspecial)).
  apply on_exception_raises.
Qed.

(** X10.  The dataset checks of a run, in their order: a path that
    [os.path.exists] does not find raises [FileNotFoundError]; a directory
    passes that check and fails in [read_csv] with the [OSError] of [open]; a
    table without rows or without columns raises
    [ValueError("Dataset is empty")]; a table without the target column raises
    a [ValueError] that lists the columns.  The exception leaves the run as
    it is. *)
Theorem run_rejects_dataset fuel self env dataset_path model_config target_column
    job_id task_type (w : World) :
  (os_path_exists w dataset_path = false ->
   exists w', Tasks.train_model_task fuel self env dataset_path model_config
                target_column job_id task_type w
              = Raise (FileNotFoundError ("Dataset not found: " +:+ dataset_path)) w')
  /\ (os_stat w dataset_path = IsDir ->
      exists w', Tasks.train_model_task fuel self env dataset_path model_config
                   target_column job_id task_type w
                 = Raise (OSError ("[Errno 21] Is a directory: '" +:+ dataset_path
                                   +:+ "'")) w')
  /\ (forall df, os_stat w dataset_path = IsFile ->
        files w !! dataset_path = Some (Some df) ->
        n_rows df = 0 \/ columns df = [] ->
        exists w', Tasks.train_model_task fuel self env dataset_path model_config
                     target_column job_id task_type w
                   = Raise (ValueError "Dataset is empty") w')
  /\ (forall df, os_stat w dataset_path = IsFile ->
        files w !! dataset_path = Some (Some df) ->
        n_rows df <> 0 -> columns df <> [] -> target_column ∉ columns df ->
        exists w', Tasks.train_model_task fuel self env dataset_path model_config
                     target_column job_id task_type w
                   = Raise (ValueError ("Target column '" +:+ target_column
                                        +:+ "' not found. " +:+ "Available: "
                                        +:+ py_list_repr (columns df))) w').
Proof.
  split; [|split; [|split]].
  - intros Hexists. apply run_raises_at_load. intros w1 Hfiles Hspecial.
    unfold Tasks.load_dataset. unfold bind at 1. unfold os_path_exists in *.
    by rewrite (os_stat_ext w w1 _ Hfiles Hspecial), Hexists.
  - intros Hstat. apply run_raises_at_load. intros w1 Hfiles Hspecial.
    unfold Tasks.load_dataset. unfold bind at 1. unfold os_path_exists.
    rewrite (os_stat_ext w w1 _ Hfiles Hspecial), Hstat. cbn [negb].
    unfold bind at 1. unfold Tasks.read_csv.
    by rewrite (os_stat_ext w w1 _ Hfiles Hspecial), Hstat.
  - intros df Hstat Hfile Hempty. apply run_raises_at_load. intros w1 Hfiles Hspecial.
    rewrite <- (os_stat_ext w w1 _ Hfiles Hspecial) in Hstat. rewrite <- Hfiles in Hfile.
    unfold Tasks.load_dataset. unfold bind at 1. unfold os_path_exists.
    rewrite Hstat. cbn [negb]. unfold bind at 1. unfold Tasks.read_csv.
    rewrite Hstat, Hfile.
    by rewrite bool_decide_eq_true_2.
  - intros df Hstat Hfile Hrows Hcols Htarget. apply run_raises_at_load.
    intros w1 Hfiles Hspecial.
    rewrite <- (os_stat_ext w w1 _ Hfiles Hspecial) in Hstat. rewrite <- Hfiles in Hfile.
    unfold Tasks.load_dataset. unfold bind at 1. unfold os_path_exists.
    rewrite Hstat. cbn [negb]. unfold bind at 1. unfold Tasks.read_csv.
    rewrite Hstat, Hfile.
    rewrite bool_decide_eq_false_2 by (by intros [?|?]).
    by rewrite bool_decide_eq_false_2.
Qed.

Lemma run_rejects_dataset_witness :
  (exists w', Tasks.train_model_task 5 Scenario.self Scenario.env "uploads/missing.csv"
                [] "label" Scenario.job "classification" Scenario.world
              = Raise (FileNotFoundError ("Dataset not found: " +:+ "uploads/missing.csv")) w')
  /\ (exists w', Tasks.train_model_task 5 Scenario.self Scenario.env "uploads"
                   [] "label" Scenario.job "classification" Scenario.world
                 = Raise (OSError ("[Errno 21] Is a directory: '" +:+ "uploads"
                                   +:+ "'")) w')
  /\ (exists w', Tasks.train_model_task 5 Scenario.self Scenario.env Scenario.path
                   [] "label" Scenario.job "classification" Scenario.empty_dataset_world
                 = Raise (ValueError "Dataset is empty") w')
  /\ (exists w', Tasks.train_model_task 5 Scenario.self Scenario.env Scenario.path
                   [] "species" Scenario.job "classification" Scenario.world
                 = Raise (ValueError ("Target column '" +:+ "species"
                                      +:+ "' not found. " +:+ "Available: "
                                      +:+ py_list_repr (columns Scenario.table))) w').
Proof.
  split; [|split; [|split]].
  - apply (proj1 (run_rejects_dataset 5 Scenario.self Scenario.env "uploads/missing.csv"
                    [] "label" Scenario.job "classification" Scenario.world)).
    vm_compute. reflexivity.
  - apply (proj1 (proj2 (run_rejects_dataset 5 Scenario.self Scenario.env "uploads"
                           [] "label" Scenario.job "classification" Scenario.world))).
    vm_compute. reflexivity.
  - apply (proj1 (proj2 (proj2 (run_rejects_dataset 5 Scenario.self Scenario.env
                                  Scenario.path [] "label" Scenario.job "classification"
                                  Scenario.empty_dataset_world))) Scenario.empty_table).
    + vm_compute. reflexivity.
    + vm_compute. reflexivity.
    + left. reflexivity.
  - apply (proj2 (proj2 (proj2 (run_rejects_dataset 5 Scenario.self Scenario.env
                                  Scenario.path [] "species" Scenario.job "classification"
                                  Scenario.world))) Scenario.table).
    + vm_compute. reflexivity.
    + vm_compute. reflexivity.
    + discriminate.
    + discriminate.
    + apply (proj1 (bool_decide_eq_false _)). vm_compute. reflexivity.
Defined.

(** * Runs that are cancelled inside the loop *)

Lemma Ret_faultless {A} E (m : M A) w a w' :
  emits E m -> m w = Ret a w' -> faultless (script w) -> faultless (script w').
Proof.
  intros Hm Hw Hs. specialize (Hm w). rewrite Hw in Hm. exact (extends_faultless _ _ _ Hm Hs).
Qed.

(** The loop returns from the task only after it has stored and announced
    the cancellation. *)
Lemma epoch_loop_cancelled fuel self env job_id task_type total_epochs start_time
    epochs history w returned w' :
  Tasks.epoch_loop fuel self env job_id task_type total_epochs start_time epochs history w
  = Ret (inl returned) w' ->
  faultless (script w) ->
  exists evs text msg,
    trace w' = (evs ++ [Cmd PING; Cmd (SETEX (status_key job_id) 3600 text);
                        Cmd PING; Cmd (PUBLISH (channel job_id) msg)])%list
    /\ json_loads text
       = inr (JObj [("job_id", JStr job_id); ("status", JStr "cancelled");
                    ("message", JStr "Training cancelled")])
    /\ json_loads msg
       = inr (JObj [("type", JStr "error"); ("error", JStr "Cancelled");
                    ("message", JStr "Training cancelled by user")]).
Proof.
  revert history w. induction epochs as [|epoch later IH]; intros history w H Hscript;
    [done|].
  cbn [Tasks.epoch_loop] in H.
  apply bind_Ret_inv in H as (cancelled & w1 & H1 & H).
  pose proof (Ret_faultless _ _ _ _ _
                (emits_check_cancellation job_id any_event (fun _ _ => I) self)
                H1 Hscript) as Hs1.
  destruct cancelled.
  - apply bind_Ret_inv in H as ([] & w2 & H2 & H). injection H as _ <-.
    unfold Tasks.cancel_in_loop in H2.
    set (record := [("job_id", JStr job_id); ("status", JStr "cancelled");
                    ("message", JStr "Training cancelled")]) in *.
    set (event := [("type", JStr "error"); ("error", JStr "Cancelled");
                   ("message", JStr "Training cancelled by user")]) in *.
    assert (exists text, json_dumps (JObj record) = inr text) as [text Htext]
      by (eexists; reflexivity).
    assert (exists msg, json_dumps (JObj event) = inr msg) as [msg Hmsg]
      by (eexists; reflexivity).
    destruct (update_job_status_faultless job_id record text w1 Hs1 Htext)
      as (wa & Ha & Htracea & Hscripta).
    rewrite (bind_Ret _ _ _ _ _ Ha) in H2.
    destruct (publish_update_faultless job_id event msg wa Hscripta Hmsg)
      as (wb & Hb & Htraceb & _).
    pose proof (eq_trans (eq_sym H2) Hb) as Heq. injection Heq as ->.
    exists (trace w1), text, msg. split; [|split].
    + rewrite Htraceb, Htracea, <- app_assoc. reflexivity.
    + by apply json_loads_dumps.
    + by apply json_loads_dumps.
  - apply bind_Ret_inv in H as ([|] & w2 & H2 & H); [done|].
    pose proof (Ret_faultless _ _ _ _ _
                  (emits_handle_pause job_id any_event (fun _ _ => I) fuel self)
                  H2 Hs1) as Hs2.
    apply bind_Ret_inv in H as (ev & w3 & H3 & H).
    apply lift_Ret_inv in H3 as [_ ->].
    apply bind_Ret_inv in H as (elapsed_time & w4 & H4 & H). injection H4 as <- <-.
    cbv zeta in H.
    apply bind_Ret_inv in H as (usage & w5 & H5 & H).
    pose proof (Ret_faultless _ _ _ _ _
                  (emits_get_resource_usage job_id any_event (fun _ _ => I) _)
                  H5 Hs2) as Hs5.
    apply bind_Ret_inv in H as ([] & w6 & H6 & H).
    pose proof (Ret_faultless _ _ _ _ _ (emits_publish_any job_id _) H6 Hs5) as Hs6.
    apply bind_Ret_inv in H as ([] & w7 & H7 & H).
    pose proof (Ret_faultless _ _ _ _ _
                  (emits_update_job_status job_id any_event (fun _ _ => I) job_id _)
                  H7 Hs6) as Hs7.
    apply bind_Ret_inv in H as ([] & w8 & H8 & H). injection H8 as <-.
    apply IH in H; done.
Qed.

(** A run that returns went through the loop; what it returns is what the
    loop returned from the task, or what the last block returns. *)
Lemma train_model_task_Ret_loop fuel self env dataset_path model_config target_column
    job_id task_type w result w' :
  Tasks.train_model_task fuel self env dataset_path model_config target_column
    job_id task_type w = Ret result w' ->
  exists n_train total_epochs n w1 looped w2,
    Tasks.calculate_epochs (Z.of_nat n_train) (dict_get_or_null "epochs" model_config)
    = inr total_epochs
    /\ range_len total_epochs = inr n
    /\ (faultless (script w) -> faultless (script w1))
    /\ Tasks.epoch_loop fuel self env job_id task_type total_epochs (now w) (seq 0 n) [] w1
       = Ret looped w2
    /\ match looped with
       | inl returned => result = returned /\ w' = w2
       | inr history =>
           Tasks.finish env job_id task_type (now w) history w2 = Ret result w'
       end.
Proof.
  unfold Tasks.train_model_task. intros H.
  apply bind_Ret_inv in H as (start_time & w0 & Hstart & H). injection Hstart as <- <-.
  apply try_except_Ret_inv in H as [H|(e & w1 & _ & H)];
    [|by destruct (@on_exception_raises dict job_id e w1) as (w2 & Hraise); rewrite Hraise in H].
  apply bind_Ret_inv in H as ([] & wa & Ha & H).
  apply bind_Ret_inv in H as (loaded & wb & Hb & H).
  apply bind_Ret_inv in H as (n_train & wc & Hc & H).
  apply bind_Ret_inv in H as (total_epochs & wd & Hd & H).
  apply bind_Ret_inv in H as ([] & we & He & H).
  apply bind_Ret_inv in H as (n & wf & Hf & H). apply lift_Ret_inv in Hf as [Hn ->].
  apply bind_Ret_inv in H as (looped & wg & Hg & H).
  exists n_train, total_epochs, n, we, looped, wg.
  split; [by eapply init_model_Ret|]. split; [done|]. split; [|split; [done|]].
  - intros Hscript.
    eapply Ret_faultless; [by apply (emits_fit_model job_id any_event) | exact He |].
    eapply Ret_faultless; [by apply (emits_init_model job_id any_event) | exact Hd |].
    eapply Ret_faultless; [by apply (emits_split_data job_id any_event) | exact Hc |].
    eapply Ret_faultless; [by apply (emits_load_dataset job_id any_event) | exact Hb |].
    eapply Ret_faultless; [by apply (emits_announce_start job_id any_event) | exact Ha |].
    exact Hscript.
  - destruct looped; [|done]. by injection H as <- <-.
Qed.

Lemma completed_result_says_completed shape job_id completed_at fin training_time history :
  ((exists precision recall f1,
      shape = Tasks.classification_result fin precision recall f1 training_time history)
   \/ shape = Tasks.regression_result fin training_time history) ->
  dict_get "status" (Tasks.completed_result shape job_id completed_at)
  = Some (JStr "completed").
Proof. by intros [(p & r & f & ->)| ->]. Qed.

(** X11.  When no store command fails, a run that returns a result
    with status ["cancelled"] returns exactly [{status, job_id}], and the last
    four commands it sent are a health check, the write of the record
    [{job_id, status: cancelled, message}], a health check and the [error]
    event ["Cancelled"]. *)
Theorem cancelled_run_is_recorded fuel self env dataset_path model_config target_column
    job_id task_type (w : World) result w' :
  faultless (script w) ->
  Tasks.train_model_task fuel self env dataset_path model_config target_column
    job_id task_type w = Ret result w' ->
  dict_get "status" result = Some (JStr "cancelled") ->
  result = [("status", JStr "cancelled"); ("job_id", JStr job_id)]
  /\ exists evs text msg,
       trace w' = (evs ++ [Cmd PING; Cmd (SETEX (status_key job_id) 3600 text);
                           Cmd PING; Cmd (PUBLISH (channel job_id) msg)])%list
       /\ json_loads text
          = inr (JObj [("job_id", JStr job_id); ("status", JStr "cancelled");
                       ("message", JStr "Training cancelled")])
       /\ json_loads msg
          = inr (JObj [("type", JStr "error"); ("error", JStr "Cancelled");
                       ("message", JStr "Training cancelled by user")]).
Proof.
  intros Hscript Hrun Hstatus.
  apply train_model_task_Ret_loop in Hrun
    as (n_train & total_epochs & n & w1 & looped & w2 & _ & _ & Hs1 & Hloop & Hres).
  destruct looped as [returned|history].
  - destruct Hres as [-> ->].
    pose proof (epoch_loop_Ret _ _ _ _ _ _ _ _ _ _ _ _ Hloop) as Hshape. cbn in Hshape.
    split; [done|]. by eapply epoch_loop_cancelled; [exact Hloop | apply Hs1].
  - apply finish_Ret in Hres
      as (fin & training_time & completed_at & shape & Hshape & -> & _).
    by rewrite (completed_result_says_completed _ _ _ _ _ _ Hshape) in Hstatus.
Qed.

Lemma cancelled_run_is_recorded_witness :
  Scenario.cancelled_outcome = [("status", JStr "cancelled"); ("job_id", JStr Scenario.job)]
  /\ exists evs text msg,
       trace (world_of (Scenario.run Scenario.cancelled_in_loop))
       = (evs ++ [Cmd PING; Cmd (SETEX (status_key Scenario.job) 3600 text);
                  Cmd PING; Cmd (PUBLISH (channel Scenario.job) msg)])%list
       /\ json_loads text
          = inr (JObj [("job_id", JStr Scenario.job); ("status", JStr "cancelled");
                       ("message", JStr "Training cancelled")])
       /\ json_loads msg
          = inr (JObj [("type", JStr "error"); ("error", JStr "Cancelled");
                       ("message", JStr "Training cancelled by user")]).
Proof.
  apply (cancelled_run_is_recorded 5 Scenario.self Scenario.env Scenario.path
           [("epochs", JInt 2)] "label" Scenario.job "classification"
           Scenario.cancelled_in_loop Scenario.cancelled_outcome
           (world_of (Scenario.run Scenario.cancelled_in_loop))).
  - repeat (apply Forall_cons_2; [reflexivity|]). apply Forall_nil_2.
  - vm_compute. reflexivity.
  - vm_compute. reflexivity.
Defined.

(** * An override of the epoch count that is not an integer *)

(** X12.  An ["epochs"] override that is a non-empty string, list or
    dictionary, or a positive float, is fatal: [calculate_epochs] or [range]
    raises, so the run never returns a result. *)
Theorem epochs_override_must_be_integer fuel self env dataset_path model_config
    target_column job_id task_type (w : World) v :
  dict_get "epochs" model_config = Some v ->
  match v with
  | JStr s => s <> EmptyString
  | JList l => l <> []
  | JObj d => d <> []
  | JFloat x => float_is_positive x = true
  | _ => False
  end ->
  no_result (Tasks.train_model_task fuel self env dataset_path model_config
               target_column job_id task_type w).
Proof.
  intros Hv Hkind.
  destruct (Tasks.train_model_task fuel self env dataset_path model_config
              target_column job_id task_type w) as [result w'| |] eqn:Hrun; [|done..].
  exfalso.
  apply train_model_task_Ret_loop in Hrun
    as (n_train & total_epochs & n & _ & _ & _ & Hepochs & Hn & _).
  unfold dict_get_or_null in Hepochs. rewrite Hv in Hepochs.
  unfold Tasks.calculate_epochs in Hepochs.
  destruct v as [|b|z|x|s|l|d|t]; try done; cbn [truthy greater_than_zero] in Hepochs.
  - assert (negb (float_is_zero x) = true) as Hnz.
    { destruct x as [m e| |[]]; try done. cbn in *.
      apply Z.ltb_lt in Hkind. by rewrite (proj2 (Z.eqb_neq m 0)) by lia. }
    rewrite Hnz, Hkind in Hepochs. by injection Hepochs as <-.
  - destruct s; [done|]. done.
  - destruct l; [done|]. done.
  - destruct d; [done|]. done.
Qed.

Lemma epochs_override_must_be_integer_witness :
  no_result (Tasks.train_model_task 5 Scenario.self Scenario.env Scenario.path
               [("epochs", JStr "10")] "label" Scenario.job "classification"
               Scenario.world).
Proof.
  apply (epochs_override_must_be_integer 5 Scenario.self Scenario.env Scenario.path
           [("epochs", JStr "10")] "label" Scenario.job "classification" Scenario.world
           (JStr "10")).
  - reflexivity.
  - discriminate.
Defined.

(** * What the runner sends to the store *)

Section WorkerCommands.

Context (job_id : string).
Let E := fun ev => worker_command job_id ev = true.

Lemma sends_log lvl msg : emits E (log lvl msg).
Proof. by apply emits_emit. Qed.

Lemma sends_ping : emits E redis_ping.
Proof. by apply emits_command. Qed.

Lemma sends_get_cancel : emits E (redis_get (cancel_key job_id)).
Proof. apply emits_command; [|done]. unfold E, worker_command. by rewrite String.eqb_refl. Qed.

Lemma sends_get_pause : emits E (redis_get (pause_key job_id)).
Proof.
  apply emits_command; [|done]. unfold E, worker_command.
  by rewrite String.eqb_refl, orb_true_r.
Qed.

Lemma sends_setex text : emits E (redis_setex (status_key job_id) 3600 text).
Proof. apply emits_command; [|done]. unfold E, worker_command. by rewrite String.eqb_refl. Qed.

Lemma sends_publish msg : emits E (redis_publish (channel job_id) msg).
Proof. apply emits_command; [|done]. unfold E, worker_command. by rewrite String.eqb_refl. Qed.

Lemma sends_connect : emits E Tasks.connect.
Proof.
  apply emits_try_except.
  - apply emits_bind; [by apply (emits_quiet E (fun _ => tt)) | intros _; apply sends_ping].
  - intros e. apply emits_bind; [|intros _; apply emits_raise].
    destruct (is_conn_or_timeout e); [apply emits_bind; [|intros _]|]; apply sends_log.
Qed.

Lemma sends_get_redis_client : emits E Tasks.get_redis_client.
Proof.
  intros w. unfold Tasks.get_redis_client. destruct (worker_client w); [|apply sends_connect].
  revert w. apply emits_try_except; [apply sends_ping|].
  intros e. apply emits_bind; [apply sends_log | intros _].
  apply emits_bind; [by apply (emits_quiet E (fun _ => tt)) | intros _; apply sends_connect].
Qed.

Lemma sends_update_job_status data : emits E (Tasks.update_job_status job_id data).
Proof.
  apply emits_try_except.
  - apply emits_bind; [apply sends_get_redis_client | intros _].
    apply emits_bind; [apply emits_lift | intros s; apply sends_setex].
  - intros e. destruct (is_conn_or_timeout e); [|destruct (is_redis_error e)];
      apply sends_log.
Qed.

Lemma sends_publish_update data : emits E (Tasks.publish_update job_id data).
Proof.
  apply emits_try_except.
  - apply emits_bind; [apply sends_get_redis_client | intros _].
    apply emits_bind; [apply emits_lift | intros s; apply sends_publish].
  - intros e. destruct (is_conn_or_timeout e); [|destruct (is_redis_error e)];
      apply sends_log.
Qed.

Ltac sends_step :=
  first [ apply emits_ret | apply emits_raise | apply emits_lift | apply emits_sleep
        | apply sends_log | apply sends_get_redis_client | apply sends_get_cancel
        | apply sends_get_pause | apply sends_update_job_status
        | apply sends_publish_update
        | apply emits_bind; [| intros ?]
        | apply emits_try_except_if; [| intros ?]
        | apply emits_try_except; [| intros ?]
        | match goal with
          | |- emits _ (if ?b then _ else _) => destruct b
          | |- emits _ (match ?x with _ => _ end) => destruct x
          end ].

Lemma sends_check_cancellation self : emits E (Tasks.check_cancellation self job_id).
Proof. unfold Tasks.check_cancellation. repeat sends_step. Qed.

Lemma sends_pause_wait fuel self : emits E (Tasks.pause_wait fuel self job_id).
Proof.
  induction fuel as [|fuel IH]; [intros w; apply extends_refl|].
  cbn [Tasks.pause_wait]. repeat sends_step; try apply sends_check_cancellation. exact IH.
Qed.

Lemma sends_handle_pause fuel self : emits E (Tasks.handle_pause fuel self job_id).
Proof.
  unfold Tasks.handle_pause, Tasks.notify_paused, Tasks.notify_resumed.
  repeat first [ apply sends_pause_wait | sends_step ].
Qed.

Lemma sends_load_dataset dataset_path target_column :
  emits E (Tasks.load_dataset job_id dataset_path target_column).
Proof.
  unfold Tasks.load_dataset.
  apply emits_bind; [by apply (emits_quiet E (fun w => os_path_exists w dataset_path) id)|].
  intros [|]; cbn [negb]; [|apply emits_raise].
  apply emits_bind; [|intros df; repeat sends_step].
  intros w. unfold Tasks.read_csv.
  destruct (os_stat w dataset_path), (files w !! dataset_path) as [[df|]|];
    apply extends_refl.
Qed.

Lemma sends_fit_model fuel self env : emits E (Tasks.fit_model fuel self env job_id).
Proof.
  unfold Tasks.fit_model.
  repeat first [ apply sends_check_cancellation | apply sends_handle_pause | sends_step ].
Qed.

Lemma sends_get_resource_usage probe : emits E (Tasks.get_resource_usage probe).
Proof.
  intros w. unfold Tasks.get_resource_usage. destruct probe as [p|]; revert w.
  - apply emits_bind; [apply emits_sleep | intros _]. by apply (emits_quiet E _ id).
  - repeat sends_step.
Qed.

Lemma sends_epoch_loop fuel self env task_type total_epochs start_time epochs history :
  emits E
    (Tasks.epoch_loop fuel self env job_id task_type total_epochs start_time epochs history).
Proof.
  revert history. induction epochs as [|epoch later IH]; intros history.
  - apply emits_ret.
  - cbn [Tasks.epoch_loop].
    apply emits_bind; [apply sends_check_cancellation | intros [|]].
    { unfold Tasks.cancel_in_loop. repeat sends_step. }
    apply emits_bind; [apply sends_handle_pause | intros [|]]; [apply emits_raise|].
    apply emits_bind; [apply emits_lift | intros ev].
    apply emits_bind; [by apply (emits_quiet E _ id) | intros elapsed_time].
    cbv zeta.
    apply emits_bind; [apply sends_get_resource_usage | intros usage].
    apply emits_bind; [apply sends_publish_update | intros _].
    apply emits_bind; [apply sends_update_job_status | intros _].
    apply emits_bind; [apply emits_sleep | intros _]. apply IH.
Qed.

Lemma sends_finish env task_type start_time history :
  emits E (Tasks.finish env job_id task_type start_time history).
Proof.
  unfold Tasks.finish.
  apply emits_bind; [apply emits_lift | intros fin].
  apply emits_bind; [by apply (emits_quiet E _ id) | intros training_time].
  apply emits_bind; [apply emits_final_result | intros result].
  cbv zeta. destruct (Tasks.dump_error env); [apply emits_raise|].
  apply emits_bind; [by apply (emits_quiet E (fun _ => tt)) | intros _].
  apply emits_bind; [by apply (emits_quiet E _ id) | intros completed_at].
  repeat sends_step.
Qed.

Lemma sends_train_model_task fuel self env dataset_path model_config target_column
    task_type :
  emits E
    (Tasks.train_model_task fuel self env dataset_path model_config target_column
       job_id task_type).
Proof.
  unfold Tasks.train_model_task.
  apply emits_bind; [by apply (emits_quiet E _ id) | intros start_time].
  apply emits_try_except.
  - apply emits_bind; [unfold Tasks.announce_start; repeat sends_step | intros _].
    apply emits_bind; [apply sends_load_dataset | intros loaded].
    apply emits_bind; [unfold Tasks.split_data; repeat sends_step | intros n_train].
    apply emits_bind; [unfold Tasks.init_model; repeat sends_step | intros total_epochs].
    apply emits_bind; [apply sends_fit_model | intros _].
    apply emits_bind; [apply emits_lift | intros n].
    apply emits_bind; [apply sends_epoch_loop | intros [returned|history]].
    + apply emits_ret.
    + apply sends_finish.
  - intros e. unfold Tasks.on_exception. cbv zeta. repeat sends_step.
Qed.

End WorkerCommands.

(** X13.  Whatever happens, a run sends the store nothing but health
    checks, reads of its own cancel and pause flags, writes of its own status
    record with the 3600-second expiry, and events on its own channel.  It
    never deletes a key, never writes without expiry, and never touches
    another job's keys. *)
Theorem worker_commands_only fuel self env dataset_path model_config target_column
    job_id task_type (w : World) :
  exists evs,
    trace (world_of (Tasks.train_model_task fuel self env dataset_path model_config
                       target_column job_id task_type w))
    = (trace w ++ evs)%list
    /\ Forall (fun ev => worker_command job_id ev = true) evs.
Proof.
  destruct (sends_train_model_task job_id fuel self env dataset_path model_config
              target_column task_type w) as (_ & _ & evs & Ht & Hevs).
  by exists evs.
Qed.

(** * The Job Control API on a quiet, reliable store *)

Lemma with_api_client_same w : api_client w = true -> with_api_client true w = w.
Proof. destruct w. cbn. by intros ->. Qed.

(** The health check goes through and the client is there. *)
Lemma api_client_quiet w :
  script w = [] ->
  Routes.get_redis_client w
  = Ret true (with_trace (trace w ++ [Cmd PING])%list (with_api_client true w)).
Proof.
  intros Hscript.
  unfold Routes.get_redis_client, try_except, bind, redis_ping, command.
  destruct (api_client w) eqn:Hc; cbn; rewrite Hscript; cbn; [|done].
  by rewrite (with_api_client_same w Hc).
Qed.

(** A command on a quiet, reliable store takes effect and enters the trace. *)
Lemma command_quiet {A} c (exec : World -> A * World) w :
  script w = [] ->
  command c exec w = Ret (exec w).1 (with_trace (trace (exec w).2 ++ [Cmd c])%list (exec w).2).
Proof. intros Hscript. unfold command. rewrite Hscript. by destruct (exec w). Qed.

Lemma fetch_status_quiet job_id w :
  script w = [] ->
  Routes.fetch_status job_id w
  = match live_value (now w) (kv w) (status_key job_id) with
    | Some (String c s) => Ret (String c s) (after_fetch job_id w)
    | _ => Raise (HTTPException 404 ("Job not found: " +:+ job_id)) (after_fetch job_id w)
    end.
Proof.
  intros Hscript. unfold Routes.fetch_status.
  rewrite (bind_Ret _ _ _ _ _ (api_client_quiet w Hscript)). cbn [negb].
  unfold bind, redis_get. rewrite command_quiet by done.
  cbn [fst snd now kv trace with_trace with_api_client].
  unfold after_fetch. rewrite <- app_assoc.
  destruct (live_value (now w) (kv w) (status_key job_id)) as [[|c s]|]; reflexivity.
Qed.

(** X14.  On a quiet, reliable store [GET /jobs/{job_id}] answers 404
    when there is no live record under the job's status key -- the key is
    missing or expired, or holds the empty text -- and changes nothing in the
    key space. *)
Theorem job_status_not_found job_id (w : World) :
  script w = [] ->
  live_value (now w) (kv w) (status_key job_id) = None
  \/ live_value (now w) (kv w) (status_key job_id) = Some EmptyString ->
  exists w',
    Routes.job_status job_id w
    = Raise (HTTPException 404 ("Job not found: " +:+ job_id)) w'
    /\ kv w' = kv w.
Proof.
  intros Hscript Hnone. unfold Routes.job_status, Routes.endpoint, try_except.
  unfold bind at 1. rewrite fetch_status_quiet by done.
  destruct Hnone as [-> | ->]; by eexists.
Qed.

Lemma job_status_not_found_witness :
  exists w',
    Routes.job_status "job_7" Scenario.world
    = Raise (HTTPException 404 ("Job not found: " +:+ "job_7")) w'
    /\ kv w' = kv Scenario.world.
Proof.
  apply (job_status_not_found "job_7" Scenario.world).
  - reflexivity.
  - left. vm_compute. reflexivity.
Defined.

(** X15.  The record the worker writes is gone an hour later: after
    [update_job_status], a [GET /jobs/{job_id}] 3600 seconds or more after the
    write answers 404. *)
Theorem status_expires_after_an_hour job_id (data : dict) s (dt : Z) (w : World) :
  script w = [] ->
  json_dumps (JObj data) = inr s ->
  (3600 * 1000 <= dt)%Z ->
  exists w1 w2,
    Tasks.update_job_status job_id data w = Ret tt w1
    /\ kv w1 !! status_key job_id = Some (s, Some (now w + 3600 * 1000)%Z)
    /\ Routes.job_status job_id (with_now (now w1 + dt) w1)
       = Raise (HTTPException 404 ("Job not found: " +:+ job_id)) w2.
Proof.
  intros Hscript Hs Hdt.
  destruct (update_job_status_quiet job_id data s w Hscript Hs)
    as (w1 & Hrun & Hkv & Hnow & Hscript1 & _).
  assert (kv w1 !! status_key job_id = Some (s, Some (now w + 3600 * 1000)%Z)) as Hentry
    by (by rewrite Hkv, lookup_insert_eq).
  exists w1. eexists. split; [exact Hrun|]. split; [exact Hentry|].
  unfold Routes.job_status, Routes.endpoint, try_except.
  unfold bind at 1. rewrite fetch_status_quiet by done.
  unfold live_value. cbn [now kv with_now]. rewrite Hentry.
  rewrite (proj2 (Z.ltb_ge _ _)) by lia. reflexivity.
Qed.

Lemma status_expires_after_an_hour_witness :
  exists w1 w2,
    Tasks.update_job_status Scenario.job Scenario.record Scenario.world = Ret tt w1
    /\ kv w1 !! status_key Scenario.job
       = Some (Scenario.record_text, Some (now Scenario.world + 3600 * 1000)%Z)
    /\ Routes.job_status Scenario.job (with_now (now w1 + 3600 * 1000) w1)
       = Raise (HTTPException 404 ("Job not found: " +:+ Scenario.job)) w2.
Proof.
  apply (status_expires_after_an_hour Scenario.job Scenario.record Scenario.record_text
           (3600 * 1000) Scenario.world).
  - reflexivity.
  - vm_compute. reflexivity.
  - lia.
Defined.

(** ** Records that were read from the store *)

Lemma dict_set_keys k0 k v (d : dict) :
  k0 ∈ map fst (dict_set k v d) <-> k0 = k \/ k0 ∈ map fst d.
Proof.
  induction d as [|[k' v'] d IH]; simpl.
  - rewrite list_elem_of_singleton. split; [by left | by intros [?|?%elem_of_nil]].
  - destruct (String.eqb_spec k k') as [->|Hne]; simpl.
    + rewrite elem_of_cons. tauto.
    + rewrite !elem_of_cons, IH. tauto.
Qed.

Lemma dict_set_unique k v (d : dict) :
  unique_keys (JObj d) = true -> unique_keys v = true ->
  unique_keys (JObj (dict_set k v d)) = true.
Proof.
  intros Hd Hv. induction d as [|[k' v'] d IH].
  - simpl. by rewrite Hv.
  - cbn [unique_keys] in Hd. apply andb_prop in Hd as [Hnd Hvals].
    apply bool_decide_eq_true in Hnd. cbn [map fst] in Hnd.
    apply NoDup_cons in Hnd as [Hk' Hnd].
    cbn [forallb snd] in Hvals. apply andb_prop in Hvals as [Hv' Hvals].
    assert (unique_keys (JObj d) = true) as Hd'.
    { cbn [unique_keys]. by rewrite (bool_decide_eq_true_2 _ Hnd), Hvals. }
    specialize (IH Hd'). cbn [unique_keys] in IH. apply andb_prop in IH as [IHnd IHvals].
    apply bool_decide_eq_true in IHnd.
    cbn [dict_set]. destruct (String.eqb_spec k k') as [->|Hne]; cbn [unique_keys].
    + cbn [map fst forallb snd]. rewrite Hv, Hvals.
      rewrite bool_decide_eq_true_2; [done|]. by apply NoDup_cons.
    + cbn [map fst forallb snd]. rewrite Hv', IHvals.
      rewrite bool_decide_eq_true_2; [done|]. apply NoDup_cons. split; [|done].
      rewrite dict_set_keys. by intros [?|?].
Qed.

Lemma dedup_keys_unique n : forall v, json_size v <= n -> unique_keys (dedup_keys v) = true.
Proof.
  induction n as [|n IH]; intros v Hn.
  { pose proof (json_size_pos v). lia. }
  destruct v as [| | | | |l|kvs|]; try done.
  - cbn [dedup_keys unique_keys]. cbn [json_size] in Hn.
    induction l as [|x l IHl]; [done|]. cbn [map forallb].
    simpl in Hn. rewrite IH by lia. apply IHl. lia.
  - cbn [dedup_keys]. cbn [json_size] in Hn.
    assert (unique_keys (JObj []) = true) as Hacc by done.
    revert Hacc. generalize ([] : dict) as acc.
    induction kvs as [|[k x] kvs IHl]; intros acc Hacc; [done|].
    cbn [fold_left fst snd]. simpl in Hn.
    apply IHl; [lia|]. apply dict_set_unique; [done|]. apply IH. lia.
Qed.

Lemma json_loads_unique s v : json_loads s = inr v -> unique_keys v = true.
Proof.
  unfold json_loads. destruct (parse_value _ s) as [[v0 rest]|]; [|done].
  destruct (skip_ws rest); [|done]. intros [= <-]. by eapply dedup_keys_unique.
Qed.

Lemma json_loads_nonempty s v : json_loads s = inr v -> exists c r, s = String c r.
Proof. destruct s as [|c r]; [done|]. by exists c, r. Qed.

(** What [json.loads] returns can be printed again. *)
Lemma parse_number_serialisable s v r : parse_number s = Some (v, r) -> serialisable v = true.
Proof.
  unfold parse_number. destruct (parse_sign s) as [neg s1].
  destruct (take_digits s1) as [ip s2]. destruct ip as [|d ds]; [done|].
  destruct (_ && _); [done|]. destruct (parse_frac s2) as [fd s3].
  destruct (parse_exp s3) as [ex s4]. destruct fd, ex; by intros [= <- _].
Qed.

Lemma parse_literal_serialisable s v r :
  parse_literal s = Some (v, r) -> serialisable v = true.
Proof.
  unfold parse_literal.
  repeat match goal with
         | |- match prefix_rest ?p s with _ => _ end = _ -> _ =>
             destruct (prefix_rest p s); [by intros [= <- _]|]
         end.
  apply parse_number_serialisable.
Qed.

Ltac ascii_cases c := destruct c as [[] [] [] [] [] [] [] []].

Lemma parse_items_serialisable (parse : string -> option (json * string)) :
  (forall s v r, parse s = Some (v, r) -> serialisable v = true) ->
  forall k s vs r, parse_items parse k s = Some (vs, r) -> forallb serialisable vs = true.
Proof.
  intros Hparse. induction k as [|k IH]; intros s vs r; [done|]. simpl.
  destruct (parse s) as [[v r0]|] eqn:Hv; [|done]. apply Hparse in Hv.
  destruct (skip_ws r0) as [|c r1]; [done|].
  ascii_cases c; try done.
  - intros [= <- _]. simpl. by rewrite Hv.
  - destruct (parse_items parse k r1) as [[vs' r']|] eqn:Hvs; [|done].
    intros [= <- _]. simpl. by rewrite Hv, (IH _ _ _ Hvs).
Qed.

Lemma parse_members_serialisable (parse : string -> option (json * string)) :
  (forall s v r, parse s = Some (v, r) -> serialisable v = true) ->
  forall k s kvs r, parse_members parse k s = Some (kvs, r) ->
    forallb (fun kv => serialisable (snd kv)) kvs = true.
Proof.
  intros Hparse. induction k as [|k IH]; intros s kvs r; [done|]. simpl.
  destruct (skip_ws s) as [|q s1]; [done|]. destruct (_ =? 34)%N; [|done].
  destruct (parse_chars s1) as [[key s2]|]; [|done].
  destruct (skip_ws s2) as [|c0 s3]; [done|].
  ascii_cases c0; try done.
  destruct (parse s3) as [[v r0]|] eqn:Hv; [|done]. apply Hparse in Hv.
  destruct (skip_ws r0) as [|c r1]; [done|].
  ascii_cases c; try done.
  - intros [= <- _]. simpl. by rewrite Hv.
  - destruct (parse_members parse k r1) as [[kvs' r']|] eqn:Hkvs; [|done].
    intros [= <- _]. simpl. by rewrite Hv, (IH _ _ _ Hkvs).
Qed.

Lemma parse_value_serialisable fuel :
  forall s v r, parse_value fuel s = Some (v, r) -> serialisable v = true.
Proof.
  induction fuel as [|f IH]; intros s v r; [done|]. cbn [parse_value].
  destruct (skip_ws s) as [|c rest]; [done|]. cbv zeta.
  destruct (_ =? 34)%N.
  { destruct (parse_chars rest) as [[t r0]|]; [|done]. by intros [= <- _]. }
  destruct (_ =? 91)%N.
  { assert (match parse_items (parse_value f) (S f) rest with
            | Some (vs, r0) => Some (JList vs, r0)
            | None => None
            end = Some (v, r) -> serialisable v = true) as Hitems.
    { destruct (parse_items _ _ rest) as [[vs r0]|] eqn:Hvs; [|done].
      intros [= <- _]. exact (parse_items_serialisable _ IH _ _ _ _ Hvs). }
    destruct (skip_ws rest) as [|c1 r1]; [exact Hitems|].
    ascii_cases c1; try exact Hitems. by intros [= <- _]. }
  destruct (_ =? 123)%N.
  { assert (match parse_members (parse_value f) (S f) rest with
            | Some (kvs, r0) => Some (JObj kvs, r0)
            | None => None
            end = Some (v, r) -> serialisable v = true) as Hmembers.
    { destruct (parse_members _ _ rest) as [[kvs r0]|] eqn:Hkvs; [|done].
      intros [= <- _]. exact (parse_members_serialisable _ IH _ _ _ _ Hkvs). }
    destruct (skip_ws rest) as [|c1 r1]; [exact Hmembers|].
    ascii_cases c1; try exact Hmembers. by intros [= <- _]. }
  apply parse_literal_serialisable.
Qed.

Lemma dict_set_serialisable k v (d : dict) :
  serialisable (JObj d) = true -> serialisable v = true ->
  serialisable (JObj (dict_set k v d)) = true.
Proof.
  intros Hd Hv. induction d as [|[k' v'] d IH]; simpl in *; [by rewrite Hv|].
  apply andb_prop in Hd as [Hv' Hd].
  destruct (String.eqb k k'); simpl; [by rewrite Hv, Hd | by rewrite Hv', IH].
Qed.

Lemma dedup_keys_serialisable n :
  forall v, json_size v <= n -> serialisable v = true -> serialisable (dedup_keys v) = true.
Proof.
  induction n as [|n IH]; intros v Hn Hv.
  { pose proof (json_size_pos v). lia. }
  destruct v as [| | | | |l|kvs|]; try done.
  - cbn [dedup_keys serialisable] in *. cbn [json_size] in Hn.
    induction l as [|x l IHl]; [done|]. simpl in Hn, Hv |- *.
    apply andb_prop in Hv as [Hx Hl]. rewrite IH by (done || lia). apply IHl; [lia|done].
  - cbn [dedup_keys]. cbn [json_size] in Hn. cbn [serialisable] in Hv.
    assert (serialisable (JObj []) = true) as Hacc by done.
    revert Hacc. generalize ([] : dict) as acc.
    induction kvs as [|[k x] kvs IHl]; intros acc Hacc; [done|].
    simpl in Hn, Hv. apply andb_prop in Hv as [Hx Hl]. cbn [fold_left fst snd].
    apply IHl; [lia | done |]. apply dict_set_serialisable; [done|]. apply IH; [lia|done].
Qed.

Lemma json_loads_serialisable s v : json_loads s = inr v -> serialisable v = true.
Proof.
  unfold json_loads. destruct (parse_value _ s) as [[v0 rest]|] eqn:Hv; [|done].
  destruct (skip_ws rest); [|done]. intros [= <-].
  eapply dedup_keys_serialisable; [done|]. by eapply parse_value_serialisable.
Qed.

Lemma dumps_serialisable n :
  forall v, json_size v <= n -> serialisable v = true -> exists s, json_dumps v = inr s.
Proof.
  induction n as [|n IH]; intros v Hn Hv.
  { pose proof (json_size_pos v). lia. }
  destruct v as [|[]|z|x|t|l|kvs|t]; try done; try (by eexists).
  - cbn [json_size] in Hn. cbn [serialisable] in Hv.
    assert (exists s, dump_items json_dumps l = inr s) as [s Hs].
    { induction l as [|x l IHl]; [by eexists|]. simpl in Hn, Hv.
      apply andb_prop in Hv as [Hx Hl].
      destruct (IH x ltac:(lia) Hx) as [sx Hsx]. destruct IHl as [sl Hsl]; [lia|done|].
      simpl. rewrite Hsx. destruct l; [by eexists|]. rewrite Hsl. by eexists. }
    change (json_dumps (JList l))
      with (match dump_items json_dumps l with
            | inl e => inl e
            | inr s => inr ("[" +:+ s +:+ "]")
            end).
    rewrite Hs. by eexists.
  - cbn [json_size] in Hn. cbn [serialisable] in Hv.
    assert (exists s, dump_members json_dumps kvs = inr s) as [s Hs].
    { induction kvs as [|[k x] kvs IHl]; [by eexists|]. simpl in Hn, Hv.
      apply andb_prop in Hv as [Hx Hl].
      destruct (IH x ltac:(lia) Hx) as [sx Hsx]. destruct IHl as [sl Hsl]; [lia|done|].
      simpl. rewrite Hsx. destruct kvs; [by eexists|]. rewrite Hsl. by eexists. }
    change (json_dumps (JObj kvs))
      with (match dump_members json_dumps kvs with
            | inl e => inl e
            | inr s => inr ("{" +:+ s +:+ "}")
            end).
    rewrite Hs. by eexists.
Qed.

(** ** Pausing, resuming and stopping *)

Lemma status_key_not_pause_key j j' : status_key j <> pause_key j'.
Proof. unfold status_key, pause_key. simpl. congruence. Qed.

Lemma cancel_key_not_status_key j j' : cancel_key j <> status_key j'.
Proof. unfold status_key, cancel_key. simpl. congruence. Qed.

Lemma cancel_key_not_pause_key j j' : cancel_key j <> pause_key j'.
Proof. unfold pause_key, cancel_key. simpl. congruence. Qed.

Lemma bind_command_quiet {A B} c (exec : World -> A * World) (k : A -> M B) w :
  script w = [] ->
  bind (command c exec) k w
  = k (exec w).1 (with_trace (trace (exec w).2 ++ [Cmd c])%list (exec w).2).
Proof. intros Hscript. unfold bind. by rewrite command_quiet. Qed.

Lemma bind_ret_l {A B} (a : A) (k : A -> M B) w : bind (ret a) k w = k a w.
Proof. done. Qed.

(** The record an endpoint finds, changes in two places and stores again
    can be printed, and reads back as it is. *)
Lemma updated_record_text (d : dict) s k1 a k2 b :
  json_loads s = inr (JObj d) ->
  exists s',
    json_dumps (JObj (dict_set k2 (JStr b) (dict_set k1 (JStr a) d))) = inr s'
    /\ json_loads s' = inr (JObj (dict_set k2 (JStr b) (dict_set k1 (JStr a) d))).
Proof.
  intros Hs. pose proof (json_loads_unique _ _ Hs) as Hu.
  pose proof (json_loads_serialisable _ _ Hs) as Hser.
  set (d' := dict_set k2 (JStr b) (dict_set k1 (JStr a) d)).
  assert (unique_keys (JObj d') = true) as Hu'
    by (apply dict_set_unique; [apply dict_set_unique|]; done).
  assert (serialisable (JObj d') = true) as Hser'
    by (apply dict_set_serialisable; [apply dict_set_serialisable|]; done).
  destruct (dumps_serialisable _ (JObj d') (le_n _) Hser') as [s' Hs'].
  exists s'. split; [done|]. by apply json_loads_dumps.
Qed.

Lemma persisted_record_inv w job_id d :
  persisted_record w job_id = Some d ->
  exists c r, live_value (now w) (kv w) (status_key job_id) = Some (String c r)
              /\ json_loads (String c r) = inr (JObj d).
Proof.
  unfold persisted_record.
  destruct (live_value _ _ _) as [s|]; [|done].
  destruct (json_loads s) as [|[| | | | | |d'|]] eqn:Hs; try done. intros [= ->].
  destruct (json_loads_nonempty _ _ Hs) as (c & r & ->). by exists c, r.
Qed.

Lemma pause_job_quiet job_id d w :
  script w = [] ->
  persisted_record w job_id = Some d ->
  is_one_of (dict_get_or_null "status" d) ["running"; "paused"] = true ->
  exists w' s' msg,
    Routes.pause_job job_id w
    = Ret [("job_id", JStr job_id); ("status", JStr "paused");
           ("message", JStr "Job paused successfully")] w'
    /\ json_loads s'
       = inr (JObj (dict_set "message" (JStr "Training paused by user")
                      (dict_set "status" (JStr "paused") d)))
    /\ kv w' = <[status_key job_id := (s', None)]>
                 (<[pause_key job_id := ("true", None)]> (kv w))
    /\ now w' = now w /\ script w' = []
    /\ trace w' = (trace w ++ [Cmd PING; Cmd (GET (status_key job_id));
                               Cmd (SET (pause_key job_id) "true");
                               Cmd (SET (status_key job_id) s');
                               Cmd (PUBLISH (channel job_id) msg)])%list.
Proof.
  intros Hscript Hd Hguard.
  destruct (persisted_record_inv _ _ _ Hd) as (c & r & Hlive & Hloads).
  destruct (updated_record_text d _ "status" "paused" "message" "Training paused by user"
              Hloads) as (s' & Hs' & Hback).
  assert (exists msg, json_dumps (JObj [("type", JStr "status"); ("status", JStr "paused");
            ("message", JStr "Training paused. Click Resume to continue.")]) = inr msg)
    as [msg Hmsg] by (eexists; reflexivity).
  exists
    (with_trace (trace w ++ [Cmd PING; Cmd (GET (status_key job_id));
                             Cmd (SET (pause_key job_id) "true");
                             Cmd (SET (status_key job_id) s');
                             Cmd (PUBLISH (channel job_id) msg)])%list
       (with_kv (<[status_key job_id := (s', None)]>
                   (<[pause_key job_id := ("true", None)]> (kv w)))
          (with_api_client true w))), s', msg.
  split; [|done].
  unfold Routes.pause_job, Routes.endpoint, try_except.
  unfold bind at 1. rewrite fetch_status_quiet, Hlive by done.
  rewrite Hloads. cbn [lift]. rewrite bind_ret_l. cbn [Routes.as_dict]. rewrite bind_ret_l.
  cbv zeta. rewrite Hguard. cbn [negb].
  unfold redis_set. rewrite bind_command_quiet by exact Hscript.
  rewrite Hs'. cbn [lift]. rewrite bind_ret_l.
  rewrite bind_command_quiet by exact Hscript.
  unfold Routes.publish_quietly, try_except. unfold bind at 1.
  rewrite Hmsg. cbn [lift]. rewrite bind_ret_l.
  unfold redis_publish. rewrite command_quiet by exact Hscript.
  unfold after_fetch. cbn. rewrite <- !app_assoc. reflexivity.
Qed.

Lemma resume_job_quiet job_id d w :
  script w = [] ->
  persisted_record w job_id = Some d ->
  is_one_of (dict_get_or_null "status" d) ["paused"; "running"] = true ->
  exists w' s' msg,
    Routes.resume_job job_id w
    = Ret [("job_id", JStr job_id); ("status", JStr "running");
           ("message", JStr "Job resumed successfully")] w'
    /\ json_loads s'
       = inr (JObj (dict_set "message" (JStr "Training resumed")
                      (dict_set "status" (JStr "running") d)))
    /\ kv w' = <[status_key job_id := (s', None)]> (delete (pause_key job_id) (kv w))
    /\ now w' = now w /\ script w' = []
    /\ trace w' = (trace w ++ [Cmd PING; Cmd (GET (status_key job_id));
                               Cmd (DEL (pause_key job_id));
                               Cmd (SET (status_key job_id) s');
                               Cmd (PUBLISH (channel job_id) msg)])%list.
Proof.
  intros Hscript Hd Hguard.
  destruct (persisted_record_inv _ _ _ Hd) as (c & r & Hlive & Hloads).
  destruct (updated_record_text d _ "status" "running" "message" "Training resumed"
              Hloads) as (s' & Hs' & Hback).
  assert (exists msg, json_dumps (JObj [("type", JStr "status"); ("status", JStr "running");
            ("message", JStr "Training resumed")]) = inr msg)
    as [msg Hmsg] by (eexists; reflexivity).
  exists
    (with_trace (trace w ++ [Cmd PING; Cmd (GET (status_key job_id));
                             Cmd (DEL (pause_key job_id));
                             Cmd (SET (status_key job_id) s');
                             Cmd (PUBLISH (channel job_id) msg)])%list
       (with_kv (<[status_key job_id := (s', None)]> (delete (pause_key job_id) (kv w)))
          (with_api_client true w))), s', msg.
  split; [|done].
  unfold Routes.resume_job, Routes.endpoint, try_except.
  unfold bind at 1. rewrite fetch_status_quiet, Hlive by done.
  rewrite Hloads. cbn [lift]. rewrite bind_ret_l. cbn [Routes.as_dict]. rewrite bind_ret_l.
  cbv zeta. rewrite Hguard. cbn [negb].
  unfold redis_delete. rewrite bind_command_quiet by exact Hscript.
  rewrite Hs'. cbn [lift]. rewrite bind_ret_l.
  unfold redis_set. rewrite bind_command_quiet by exact Hscript.
  unfold Routes.publish_quietly, try_except. unfold bind at 1.
  rewrite Hmsg. cbn [lift]. rewrite bind_ret_l.
  unfold redis_publish. rewrite command_quiet by exact Hscript.
  unfold after_fetch. cbn. rewrite <- !app_assoc. reflexivity.
Qed.

Lemma stop_job_quiet job_id d w :
  script w = [] -> broker w = [] ->
  persisted_record w job_id = Some d ->
  exists w' s',
    Routes.stop_job job_id w
    = Ret [("job_id", JStr job_id); ("status", JStr "cancelled");
           ("message", JStr "Job stopped successfully")] w'
    /\ json_loads s'
       = inr (JObj (dict_set "message" (JStr "Training cancelled by user")
                      (dict_set "status" (JStr "cancelled") d)))
    /\ kv w' = delete (pause_key job_id) (<[status_key job_id := (s', None)]> (kv w))
    /\ now w' = now w /\ script w' = []
    /\ revoked_tasks w'
       = (if truthy (dict_get_or_null "task_id" d)
          then revoked_tasks w ++ [dict_get_or_null "task_id" d]
          else revoked_tasks w)%list
    /\ trace w' = (trace w ++ [Cmd PING; Cmd (GET (status_key job_id));
                               Cmd (SET (status_key job_id) s');
                               Cmd (DEL (pause_key job_id))])%list.
Proof.
  intros Hscript Hbroker Hd.
  destruct (persisted_record_inv _ _ _ Hd) as (c & r & Hlive & Hloads).
  destruct (updated_record_text d _ "status" "cancelled" "message"
              "Training cancelled by user" Hloads) as (s' & Hs' & Hback).
  exists
    (with_trace (trace w ++ [Cmd PING; Cmd (GET (status_key job_id));
                             Cmd (SET (status_key job_id) s');
                             Cmd (DEL (pause_key job_id))])%list
       (with_kv (delete (pause_key job_id) (<[status_key job_id := (s', None)]> (kv w)))
          (with_revoked
             (if truthy (dict_get_or_null "task_id" d)
              then revoked_tasks w ++ [dict_get_or_null "task_id" d]
              else revoked_tasks w)%list
             (with_api_client true w)))), s'.
  split; [|done].
  unfold Routes.stop_job, Routes.endpoint, try_except.
  unfold bind at 1. rewrite fetch_status_quiet, Hlive by done.
  rewrite Hloads. cbn [lift]. rewrite bind_ret_l. cbn [Routes.as_dict]. rewrite bind_ret_l.
  cbv zeta. unfold bind at 1.
  destruct (truthy (dict_get_or_null "task_id" d)).
  - unfold Routes.revoke. cbn [broker after_fetch with_trace with_api_client].
    rewrite Hbroker. rewrite Hs'. cbn [lift]. rewrite bind_ret_l.
    unfold redis_set. rewrite bind_command_quiet by exact Hscript.
    unfold redis_delete. rewrite bind_command_quiet by exact Hscript.
    unfold after_fetch. cbn. rewrite <- !app_assoc. reflexivity.
  - cbn [ret]. rewrite Hs'. cbn [lift]. rewrite bind_ret_l.
    unfold redis_set. rewrite bind_command_quiet by exact Hscript.
    unfold redis_delete. rewrite bind_command_quiet by exact Hscript.
    unfold after_fetch. cbn. rewrite <- !app_assoc.
    by destruct w.
Qed.

(** What a client and the worker find after a write of the endpoints. *)
Lemma persisted_record_no_expiry (d : dict) text w job_id :
  kv w !! status_key job_id = Some (text, None) -> json_loads text = inr (JObj d) ->
  persisted_record w job_id = Some d.
Proof. intros Hkv Htext. unfold persisted_record, live_value. by rewrite Hkv, Htext. Qed.

(** X16.  On a quiet, reliable store, [POST /jobs/{job_id}/pause] on a
    record whose status is ["running"] or ["paused"] answers 200; the record
    is stored again with status ["paused"] and the message changed, every
    other entry kept; and the worker's next read of the pause flag finds
    ["true"]. *)
Theorem pause_job_sets_flag job_id d (w : World) :
  script w = [] ->
  persisted_record w job_id = Some d ->
  is_one_of (dict_get_or_null "status" d) ["running"; "paused"] = true ->
  exists w' w1,
    Routes.pause_job job_id w
    = Ret [("job_id", JStr job_id); ("status", JStr "paused");
           ("message", JStr "Job paused successfully")] w'
    /\ persisted_record w' job_id
       = Some (dict_set "message" (JStr "Training paused by user")
                 (dict_set "status" (JStr "paused") d))
    /\ read_pause_flag job_id w' = Ret (Some "true") w1.
Proof.
  intros Hscript Hd Hguard.
  destruct (pause_job_quiet job_id d w Hscript Hd Hguard)
    as (w' & s' & msg & Hrun & Hs' & Hkv & Hnow & Hscript' & _).
  destruct (read_key_quiet (pause_key job_id) w' Hscript') as (w1 & Hread & _).
  exists w', w1. split; [done|]. split.
  - apply (persisted_record_no_expiry _ s'); [|done]. by rewrite Hkv, lookup_insert_eq.
  - unfold read_pause_flag. rewrite Hread. f_equal. unfold live_value.
    rewrite Hkv, lookup_insert_ne by apply status_key_not_pause_key.
    by rewrite lookup_insert_eq.
Qed.

Lemma pause_job_sets_flag_witness :
  exists w' w1,
    Routes.pause_job Scenario.job Scenario.started_world
    = Ret [("job_id", JStr Scenario.job); ("status", JStr "paused");
           ("message", JStr "Job paused successfully")] w'
    /\ persisted_record w' Scenario.job
       = Some (dict_set "message" (JStr "Training paused by user")
                 (dict_set "status" (JStr "paused") Scenario.started_record))
    /\ read_pause_flag Scenario.job w' = Ret (Some "true") w1.
Proof.
  apply (pause_job_sets_flag Scenario.job Scenario.started_record Scenario.started_world).
  - vm_compute. reflexivity.
  - vm_compute. reflexivity.
  - vm_compute. reflexivity.
Defined.

(** X17.  On a quiet, reliable store, [POST /jobs/{job_id}/resume] on
    a record whose status is ["paused"] or ["running"] answers 200; the record
    is stored again with status ["running"] and the message changed, every
    other entry kept; and the worker's next read of the pause flag finds no
    flag. *)
Theorem resume_job_clears_flag job_id d (w : World) :
  script w = [] ->
  persisted_record w job_id = Some d ->
  is_one_of (dict_get_or_null "status" d) ["paused"; "running"] = true ->
  exists w' w1,
    Routes.resume_job job_id w
    = Ret [("job_id", JStr job_id); ("status", JStr "running");
           ("message", JStr "Job resumed successfully")] w'
    /\ persisted_record w' job_id
       = Some (dict_set "message" (JStr "Training resumed")
                 (dict_set "status" (JStr "running") d))
    /\ read_pause_flag job_id w' = Ret None w1.
Proof.
  intros Hscript Hd Hguard.
  destruct (resume_job_quiet job_id d w Hscript Hd Hguard)
    as (w' & s' & msg & Hrun & Hs' & Hkv & Hnow & Hscript' & _).
  destruct (read_key_quiet (pause_key job_id) w' Hscript') as (w1 & Hread & _).
  exists w', w1. split; [done|]. split.
  - apply (persisted_record_no_expiry _ s'); [|done]. by rewrite Hkv, lookup_insert_eq.
  - unfold read_pause_flag. rewrite Hread. f_equal. unfold live_value.
    rewrite Hkv, lookup_insert_ne by apply status_key_not_pause_key.
    by rewrite lookup_delete_eq.
Qed.

Lemma resume_job_clears_flag_witness :
  exists w' w1,
    Routes.resume_job Scenario.job Scenario.started_world
    = Ret [("job_id", JStr Scenario.job); ("status", JStr "running");
           ("message", JStr "Job resumed successfully")] w'
    /\ persisted_record w' Scenario.job
       = Some (dict_set "message" (JStr "Training resumed")
                 (dict_set "status" (JStr "running") Scenario.started_record))
    /\ read_pause_flag Scenario.job w' = Ret None w1.
Proof.
  apply (resume_job_clears_flag Scenario.job Scenario.started_record
           Scenario.started_world).
  - vm_compute. reflexivity.
  - vm_compute. reflexivity.
  - vm_compute. reflexivity.
Defined.

Lemma is_one_of_swap v a b : is_one_of v [a; b] = is_one_of v [b; a].
Proof.
  destruct v; try done. cbn. apply bool_decide_ext.
  rewrite !elem_of_cons, !elem_of_nil. tauto.
Qed.

(** X18.  A pause followed by a resume leaves no pause flag; the record
    is the original one with status ["running"] and the message of the
    resume. *)
Theorem pause_then_resume job_id d (w : World) :
  script w = [] ->
  persisted_record w job_id = Some d ->
  is_one_of (dict_get_or_null "status" d) ["running"; "paused"] = true ->
  exists paused w1 resumed w2,
    Routes.pause_job job_id w = Ret paused w1
    /\ Routes.resume_job job_id w1 = Ret resumed w2
    /\ kv w2 !! pause_key job_id = None
    /\ persisted_record w2 job_id
       = Some (dict_set "message" (JStr "Training resumed")
                 (dict_set "status" (JStr "running")
                    (dict_set "message" (JStr "Training paused by user")
                       (dict_set "status" (JStr "paused") d)))).
Proof.
  intros Hscript Hd Hguard.
  destruct (pause_job_quiet job_id d w Hscript Hd Hguard)
    as (w1 & s1 & msg1 & Hpause & Hs1 & Hkv1 & Hnow1 & Hscript1 & _).
  set (d1 := dict_set "message" (JStr "Training paused by user")
               (dict_set "status" (JStr "paused") d)) in *.
  assert (persisted_record w1 job_id = Some d1) as Hd1.
  { apply (persisted_record_no_expiry _ s1); [|done]. by rewrite Hkv1, lookup_insert_eq. }
  assert (is_one_of (dict_get_or_null "status" d1) ["paused"; "running"] = true) as Hguard1.
  { unfold d1, dict_get_or_null. by rewrite !dict_get_set. }
  destruct (resume_job_quiet job_id d1 w1 Hscript1 Hd1 Hguard1)
    as (w2 & s2 & msg2 & Hresume & Hs2 & Hkv2 & _).
  eexists _, w1, _, w2. split; [exact Hpause|]. split; [exact Hresume|]. split.
  - rewrite Hkv2, lookup_insert_ne by apply status_key_not_pause_key.
    by rewrite lookup_delete_eq.
  - apply (persisted_record_no_expiry _ s2); [|done]. by rewrite Hkv2, lookup_insert_eq.
Qed.

Lemma pause_then_resume_witness :
  exists paused w1 resumed w2,
    Routes.pause_job Scenario.job Scenario.started_world = Ret paused w1
    /\ Routes.resume_job Scenario.job w1 = Ret resumed w2
    /\ kv w2 !! pause_key Scenario.job = None
    /\ persisted_record w2 Scenario.job
       = Some (dict_set "message" (JStr "Training resumed")
                 (dict_set "status" (JStr "running")
                    (dict_set "message" (JStr "Training paused by user")
                       (dict_set "status" (JStr "paused") Scenario.started_record)))).
Proof.
  apply (pause_then_resume Scenario.job Scenario.started_record Scenario.started_world).
  - vm_compute. reflexivity.
  - vm_compute. reflexivity.
  - vm_compute. reflexivity.
Defined.

(** X19.  For a record whose status is neither ["running"] nor
    ["paused"] -- a job just accepted, or one that has ended -- both the pause
    and the resume endpoint answer 400 naming the status, after one health
    check and one read; the key space is unchanged. *)
Theorem pause_resume_refused job_id d (w : World) :
  script w = [] ->
  persisted_record w job_id = Some d ->
  is_one_of (dict_get_or_null "status" d) ["running"; "paused"] = false ->
  exists w',
    Routes.pause_job job_id w
    = Raise (HTTPException 400 ("Cannot pause job. Current status: "
                                +:+ py_str (dict_get_or_null "status" d))) w'
    /\ Routes.resume_job job_id w
       = Raise (HTTPException 400 ("Cannot resume job. Current status: "
                                   +:+ py_str (dict_get_or_null "status" d))) w'
    /\ kv w' = kv w
    /\ trace w' = (trace w ++ [Cmd PING; Cmd (GET (status_key job_id))])%list.
Proof.
  intros Hscript Hd Hguard.
  destruct (persisted_record_inv _ _ _ Hd) as (c & r & Hlive & Hloads).
  exists (after_fetch job_id w). split; [|split; [|done]].
  - unfold Routes.pause_job, Routes.endpoint, try_except.
    unfold bind at 1. rewrite fetch_status_quiet, Hlive by done.
    rewrite Hloads. cbn [lift]. rewrite bind_ret_l. cbn [Routes.as_dict].
    rewrite bind_ret_l. cbv zeta. by rewrite Hguard.
  - unfold Routes.resume_job, Routes.endpoint, try_except.
    unfold bind at 1. rewrite fetch_status_quiet, Hlive by done.
    rewrite Hloads. cbn [lift]. rewrite bind_ret_l. cbn [Routes.as_dict].
    rewrite bind_ret_l. cbv zeta. by rewrite is_one_of_swap, Hguard.
Qed.

Lemma pause_resume_refused_witness :
  exists w',
    Routes.pause_job Scenario.job Scenario.accepted_world
    = Raise (HTTPException 400
               ("Cannot pause job. Current status: "
                +:+ py_str (dict_get_or_null "status" Scenario.accepted_record))) w'
    /\ Routes.resume_job Scenario.job Scenario.accepted_world
       = Raise (HTTPException 400
                  ("Cannot resume job. Current status: "
                   +:+ py_str (dict_get_or_null "status" Scenario.accepted_record))) w'
    /\ kv w' = kv Scenario.accepted_world
    /\ trace w' = (trace Scenario.accepted_world
                   ++ [Cmd PING; Cmd (GET (status_key Scenario.job))])%list.
Proof.
  apply (pause_resume_refused Scenario.job Scenario.accepted_record
           Scenario.accepted_world).
  - vm_compute. reflexivity.
  - vm_compute. reflexivity.
  - vm_compute. reflexivity.
Defined.

(** X20.  On a quiet, reliable store with a broker that answers,
    [POST /jobs/{job_id}/stop] answers 200 for any record; the record is
    stored again with status ["cancelled"], the pause flag is deleted, the
    cancel flag is left as it was, and the Celery task is revoked exactly when
    the record has a non-empty [task_id]. *)
Theorem stop_job_stops job_id d (w : World) :
  script w = [] -> broker w = [] ->
  persisted_record w job_id = Some d ->
  exists w',
    Routes.stop_job job_id w
    = Ret [("job_id", JStr job_id); ("status", JStr "cancelled");
           ("message", JStr "Job stopped successfully")] w'
    /\ persisted_record w' job_id
       = Some (dict_set "message" (JStr "Training cancelled by user")
                 (dict_set "status" (JStr "cancelled") d))
    /\ kv w' !! pause_key job_id = None
    /\ kv w' !! cancel_key job_id = kv w !! cancel_key job_id
    /\ revoked_tasks w'
       = (if truthy (dict_get_or_null "task_id" d)
          then revoked_tasks w ++ [dict_get_or_null "task_id" d]
          else revoked_tasks w)%list.
Proof.
  intros Hscript Hbroker Hd.
  destruct (stop_job_quiet job_id d w Hscript Hbroker Hd)
    as (w' & s' & Hrun & Hs' & Hkv & Hnow & Hscript' & Hrevoked & _).
  exists w'. split; [done|]. split; [|split; [|split; [|done]]].
  - apply (persisted_record_no_expiry _ s'); [|done].
    rewrite Hkv, lookup_delete_ne by (apply not_eq_sym, status_key_not_pause_key).
    by rewrite lookup_insert_eq.
  - by rewrite Hkv, lookup_delete_eq.
  - rewrite Hkv, lookup_delete_ne by (apply not_eq_sym, cancel_key_not_pause_key).
    by rewrite lookup_insert_ne by (apply not_eq_sym, cancel_key_not_status_key).
Qed.

Lemma stop_job_stops_witness :
  exists w',
    Routes.stop_job Scenario.job Scenario.accepted_world
    = Ret [("job_id", JStr Scenario.job); ("status", JStr "cancelled");
           ("message", JStr "Job stopped successfully")] w'
    /\ persisted_record w' Scenario.job
       = Some (dict_set "message" (JStr "Training cancelled by user")
                 (dict_set "status" (JStr "cancelled") Scenario.accepted_record))
    /\ kv w' !! pause_key Scenario.job = None
    /\ kv w' !! cancel_key Scenario.job = kv Scenario.accepted_world !! cancel_key Scenario.job
    /\ revoked_tasks w'
       = (if truthy (dict_get_or_null "task_id" Scenario.accepted_record)
          then revoked_tasks Scenario.accepted_world
               ++ [dict_get_or_null "task_id" Scenario.accepted_record]
          else revoked_tasks Scenario.accepted_world)%list.
Proof.
  apply (stop_job_stops Scenario.job Scenario.accepted_record Scenario.accepted_world).
  - vm_compute. reflexivity.
  - vm_compute. reflexivity.
  - vm_compute. reflexivity.
Defined.

(** X21.  Once the worker has replaced the accepted record by one of
    its own (none of which has a [task_id]), the stop endpoint marks the job
    cancelled but revokes nothing and sets no cancel flag: the worker's next
    [check_cancellation] still answers [False]. *)
Theorem stop_job_does_not_reach_worker job_id d self (w : World) :
  script w = [] -> broker w = [] ->
  persisted_record w job_id = Some d ->
  dict_get "task_id" d = None ->
  live_value (now w) (kv w) (cancel_key job_id) = None ->
  Tasks.is_aborted self = false -> Tasks.revoked self = false ->
  exists answer w1 w2,
    Routes.stop_job job_id w = Ret answer w1
    /\ persisted_status w1 job_id = Some (JStr "cancelled")
    /\ revoked_tasks w1 = revoked_tasks w
    /\ Tasks.check_cancellation self job_id w1 = Ret false w2.
Proof.
  intros Hscript Hbroker Hd Htask Hflag Haborted Hrevoked.
  destruct (stop_job_quiet job_id d w Hscript Hbroker Hd)
    as (w1 & s' & Hrun & Hs' & Hkv & Hnow & Hscript1 & Hrev & _).
  destruct (check_cancellation_quiet self job_id w1 Hscript1) as (w2 & Hcheck & _).
  eexists _, w1, w2. split; [exact Hrun|]. split; [|split].
  - unfold persisted_status.
    rewrite (persisted_record_no_expiry
               (dict_set "message" (JStr "Training cancelled by user")
                  (dict_set "status" (JStr "cancelled") d)) s' w1 job_id); [|  |done].
    + by rewrite !dict_get_set.
    + rewrite Hkv, lookup_delete_ne by (apply not_eq_sym, status_key_not_pause_key).
      by rewrite lookup_insert_eq.
  - rewrite Hrev. unfold dict_get_or_null. by rewrite Htask.
  - rewrite Hcheck. f_equal. rewrite Haborted, Hrevoked.
    assert (live_value (now w1) (kv w1) (cancel_key job_id) = None) as ->; [|done].
    rewrite <- Hflag, Hnow. unfold live_value.
    rewrite Hkv, lookup_delete_ne by (apply not_eq_sym, cancel_key_not_pause_key).
    by rewrite lookup_insert_ne by (apply not_eq_sym, cancel_key_not_status_key).
Qed.

Lemma stop_job_does_not_reach_worker_witness :
  exists answer w1 w2,
    Routes.stop_job Scenario.job Scenario.started_world = Ret answer w1
    /\ persisted_status w1 Scenario.job = Some (JStr "cancelled")
    /\ revoked_tasks w1 = revoked_tasks Scenario.started_world
    /\ Tasks.check_cancellation Scenario.self Scenario.job w1 = Ret false w2.
Proof.
  apply (stop_job_does_not_reach_worker Scenario.job Scenario.started_record
           Scenario.self Scenario.started_world).
  - vm_compute. reflexivity.
  - vm_compute. reflexivity.
  - vm_compute. reflexivity.
  - reflexivity.
  - vm_compute. reflexivity.
  - reflexivity.
  - reflexivity.
Defined.

(** ** Creating a job *)

(** [Path(path).exists()] on a path that [stat] finds. *)
Lemma path_exists_found w w1 path :
  files w1 = files w -> special w1 = special w ->
  os_path_exists w (pathlib_str path) = true -> path_exists path w1 = Ret true w1.
Proof.
  intros Hfiles Hspecial. unfold os_path_exists, path_exists.
  rewrite (os_stat_ext w w1 _ Hfiles Hspecial).
  by destruct (os_stat w (pathlib_str path)).
Qed.

(** X22.  On a quiet, reliable store with a broker that answers, a
    request whose dataset path exists (a file or a directory: the endpoint
    does not tell them apart) and whose [model_config] is JSON data is
    accepted: the job id is [job_<clock in ms>], the call is appended to the
    queue with that id, and the accepted record, with the task id and the
    request, is what a client reads under the job's status key. *)
Theorem train_model_accepts (req : Routes.TrainRequest) (w : World) :
  script w = [] -> broker w = [] ->
  os_path_exists w (pathlib_str (Routes.dataset_path req)) = true ->
  serialisable (JObj (Routes.model_config req)) = true ->
  unique_keys (JObj (Routes.model_config req)) = true ->
  exists w',
    Routes.train_model req w
    = Ret [("job_id", JStr ("job_" +:+ pretty (now w))); ("status", JStr "accepted");
           ("task_id", JStr ("task_" +:+ pretty (length (queue w))));
           ("message", JStr "Training job created successfully")] w'
    /\ queue w'
       = (queue w ++ [{| call_dataset_path := Routes.dataset_path req;
                         call_model_config := Routes.model_config req;
                         call_target_column := Routes.target_column req;
                         call_job_id := "job_" +:+ pretty (now w);
                         call_task_type := Routes.task_type req |}])%list
    /\ persisted_record w' ("job_" +:+ pretty (now w))
       = Some [("job_id", JStr ("job_" +:+ pretty (now w))); ("status", JStr "accepted");
               ("task_id", JStr ("task_" +:+ pretty (length (queue w))));
               ("created_at", JStr (isoformat (now w)));
               ("dataset_path", JStr (Routes.dataset_path req));
               ("model_config", JObj (Routes.model_config req));
               ("target_column", JStr (Routes.target_column req));
               ("task_type", JStr (Routes.task_type req))].
Proof.
  intros Hscript Hbroker Hfile Hser Hu.
  set (job_id := "job_" +:+ pretty (now w)).
  set (task_id := "task_" +:+ pretty (length (queue w))).
  set (record := [("job_id", JStr job_id); ("status", JStr "accepted");
                  ("task_id", JStr task_id); ("created_at", JStr (isoformat (now w)));
                  ("dataset_path", JStr (Routes.dataset_path req));
                  ("model_config", JObj (Routes.model_config req));
                  ("target_column", JStr (Routes.target_column req));
                  ("task_type", JStr (Routes.task_type req))]).
  assert (serialisable (JObj record) = true) as Hser'.
  { cbn [record serialisable forallb snd] in *. by rewrite Hser. }
  assert (unique_keys (JObj record) = true) as Hu'.
  { cbn [unique_keys] in Hu |- *. cbn [record forallb snd unique_keys]. rewrite Hu.
    rewrite bool_decide_eq_true_2; [done|]. cbn [map fst record].
    apply (bool_decide_unpack _). by vm_compute. }
  destruct (dumps_serialisable _ (JObj record) (le_n _) Hser') as [s Hs].
  set (call := {| call_dataset_path := Routes.dataset_path req;
                  call_model_config := Routes.model_config req;
                  call_target_column := Routes.target_column req;
                  call_job_id := job_id;
                  call_task_type := Routes.task_type req |}).
  exists (with_trace (trace w ++ [Cmd PING; Cmd (SET (status_key job_id) s)])%list
            (with_kv (<[status_key job_id := (s, None)]> (kv w))
               (with_queue (queue w ++ [call])%list (with_api_client true w)))).
  split; [|split; [done|]].
  - unfold Routes.train_model, Routes.endpoint, try_except.
    rewrite (bind_Ret _ _ _ _ _ (api_client_quiet w Hscript)). cbn [negb].
    match goal with
    | |- context [bind (path_exists ?p) _ ?w1] =>
        rewrite (bind_Ret _ _ _ _ _ (path_exists_found w w1 p eq_refl eq_refl Hfile))
    end.
    cbn [negb].
    unfold bind at 1. cbn [now with_trace with_api_client]. fold job_id.
    unfold bind at 1. cbv beta. unfold Routes.delay.
    cbn [broker queue with_trace with_api_client]. rewrite Hbroker. fold task_id. fold call.
    unfold bind at 1. cbv beta. unfold bind at 1. cbv beta.
    cbn [now with_queue with_trace with_api_client]. fold record. rewrite Hs.
    cbn [lift]. rewrite bind_ret_l.
    unfold redis_set. rewrite command_quiet by exact Hscript.
    cbn. rewrite <- !app_assoc. reflexivity.
  - apply (persisted_record_no_expiry _ s); [|by apply json_loads_dumps].
    cbn [kv with_trace with_kv]. by rewrite lookup_insert_eq.
Qed.

Lemma train_model_accepts_witness :
  exists w',
    Routes.train_model Scenario.request Scenario.world
    = Ret [("job_id", JStr ("job_" +:+ pretty (now Scenario.world)));
           ("status", JStr "accepted");
           ("task_id", JStr ("task_" +:+ pretty (length (queue Scenario.world))));
           ("message", JStr "Training job created successfully")] w'
    /\ queue w'
       = (queue Scenario.world
          ++ [{| call_dataset_path := Routes.dataset_path Scenario.request;
                 call_model_config := Routes.model_config Scenario.request;
                 call_target_column := Routes.target_column Scenario.request;
                 call_job_id := "job_" +:+ pretty (now Scenario.world);
                 call_task_type := Routes.task_type Scenario.request |}])%list
    /\ persisted_record w' ("job_" +:+ pretty (now Scenario.world))
       = Some [("job_id", JStr ("job_" +:+ pretty (now Scenario.world)));
               ("status", JStr "accepted");
               ("task_id", JStr ("task_" +:+ pretty (length (queue Scenario.world))));
               ("created_at", JStr (isoformat (now Scenario.world)));
               ("dataset_path", JStr (Routes.dataset_path Scenario.request));
               ("model_config", JObj (Routes.model_config Scenario.request));
               ("target_column", JStr (Routes.target_column Scenario.request));
               ("task_type", JStr (Routes.task_type Scenario.request))].
Proof.
  apply (train_model_accepts Scenario.request Scenario.world).
  - reflexivity.
  - reflexivity.
  - vm_compute. reflexivity.
  - vm_compute. reflexivity.
  - vm_compute. reflexivity.
Defined.

(** X23.  When the broker refuses the task, [POST /train] answers 503
    with the broker's error in the detail; nothing is queued and nothing is
    written to the store. *)
Theorem train_model_broker_failure (req : Routes.TrainRequest) e rest (w : World) :
  script w = [] ->
  os_path_exists w (pathlib_str (Routes.dataset_path req)) = true ->
  broker w = Some e :: rest ->
  exists w',
    Routes.train_model req w
    = Raise (HTTPException 503 ("Failed to create Celery task: " +:+ exn_str e
                                +:+ ". Ensure Celery worker is running.")) w'
    /\ queue w' = queue w /\ kv w' = kv w
    /\ trace w' = (trace w ++ [Cmd PING])%list.
Proof.
  intros Hscript Hfile Hbroker.
  exists (with_broker rest (with_trace (trace w ++ [Cmd PING])%list
                              (with_api_client true w))).
  split; [|done].
  unfold Routes.train_model, Routes.endpoint, try_except.
  rewrite (bind_Ret _ _ _ _ _ (api_client_quiet w Hscript)). cbn [negb].
  match goal with
    | |- context [bind (path_exists ?p) _ ?w1] =>
        rewrite (bind_Ret _ _ _ _ _ (path_exists_found w w1 p eq_refl eq_refl Hfile))
    end.
  cbn [negb].
  unfold bind at 1. cbn [now with_trace with_api_client].
  unfold bind at 1. cbv beta. unfold Routes.delay.
  cbn [broker queue with_trace with_api_client]. rewrite Hbroker. reflexivity.
Qed.

Lemma train_model_broker_failure_witness :
  exists w',
    Routes.train_model Scenario.request
      (with_broker [Some (PyException "Error 111 connecting to localhost:6379")]
         Scenario.world)
    = Raise (HTTPException 503
               ("Failed to create Celery task: "
                +:+ exn_str (PyException "Error 111 connecting to localhost:6379")
                +:+ ". Ensure Celery worker is running.")) w'
    /\ queue w'
       = queue (with_broker [Some (PyException "Error 111 connecting to localhost:6379")]
                  Scenario.world)
    /\ kv w'
       = kv (with_broker [Some (PyException "Error 111 connecting to localhost:6379")]
               Scenario.world)
    /\ trace w'
       = (trace (with_broker [Some (PyException "Error 111 connecting to localhost:6379")]
                   Scenario.world) ++ [Cmd PING])%list.
Proof.
  apply (train_model_broker_failure Scenario.request
           (PyException "Error 111 connecting to localhost:6379") []
           (with_broker [Some (PyException "Error 111 connecting to localhost:6379")]
              Scenario.world)).
  - reflexivity.
  - vm_compute. reflexivity.
  - reflexivity.
Defined.

(** ** What the endpoints answer, and what they send *)

Lemma halts_api_client : halts Routes.get_redis_client.
Proof.
  intros w. destruct (api_get_redis_client_spec w) as (b & w1 & evs & -> & _). done.
Qed.

Lemma halts_fetch_status job_id : halts (Routes.fetch_status job_id).
Proof.
  unfold Routes.fetch_status.
  apply halts_bind; [apply halts_api_client | intros [|]]; cbn [negb];
    [|apply halts_raise].
  apply halts_bind; [apply halts_command | intros [[|c s]|]];
    first [apply halts_ret | apply halts_raise].
Qed.

Lemma halts_revoke task_id : halts (Routes.revoke task_id).
Proof. intros w. unfold Routes.revoke. by destruct (broker w) as [|[e|] rest]. Qed.

Lemma halts_delay call : halts (Routes.delay call).
Proof. intros w. unfold Routes.delay. by destruct (broker w) as [|[e|] rest]. Qed.

Lemma halts_publish_quietly what job_id event :
  halts (Routes.publish_quietly what job_id event).
Proof. unfold Routes.publish_quietly, log. repeat halts_step. Qed.

Lemma halts_path_exists path : halts (path_exists path).
Proof. intros w. unfold path_exists. by destruct (os_stat w (pathlib_str path)). Qed.

Lemma halts_as_dict v : halts (Routes.as_dict v).
Proof. destruct v; first [apply halts_ret | apply halts_raise]. Qed.

Lemma endpoint_answers {A} what (body : M A) w :
  halts body -> answers (Routes.endpoint what body w).
Proof.
  intros Hbody. unfold Routes.endpoint, try_except. specialize (Hbody w).
  destruct (body w) as [a w1|e w1|w1]; [done| |done].
  by destruct (is_http_exception e) eqn:He.
Qed.

(** X24.  From any world, each of the five endpoints answers: it
    returns a value or raises an [HTTPException]; no other exception leaves
    an endpoint. *)
Theorem endpoints_answer (req : Routes.TrainRequest) (job_id : string) (w : World) :
  answers (Routes.train_model req w)
  /\ answers (Routes.job_status job_id w)
  /\ answers (Routes.pause_job job_id w)
  /\ answers (Routes.resume_job job_id w)
  /\ answers (Routes.stop_job job_id w).
Proof.
  repeat split; apply endpoint_answers.
  - apply halts_bind; [apply halts_api_client | intros [|]]; cbn [negb];
      [|apply halts_raise].
    apply halts_bind; [apply halts_path_exists | intros [|]]; cbn [negb];
      [|apply halts_raise].
    apply halts_bind; [by intros ? | intros job].
    apply halts_bind.
    { apply halts_try_except; [apply halts_delay | intros e; apply halts_raise]. }
    intros task. apply halts_bind; [|intros _; apply halts_ret].
    apply halts_try_except; [|intros e; apply halts_emit].
    apply halts_bind; [by intros ? | intros created_at].
    apply halts_bind; [apply halts_lift | intros s; apply halts_command].
  - apply halts_bind; [apply halts_fetch_status | intros data; apply halts_lift].
  - apply halts_bind; [apply halts_fetch_status | intros data].
    apply halts_bind; [apply halts_lift | intros loaded].
    apply halts_bind; [apply halts_as_dict | intros job_data]. cbv zeta.
    destruct (negb _); [apply halts_raise|].
    apply halts_bind; [apply halts_command | intros _].
    apply halts_bind; [apply halts_lift | intros s].
    apply halts_bind; [apply halts_command | intros _].
    apply halts_bind; [apply halts_publish_quietly | intros _; apply halts_ret].
  - apply halts_bind; [apply halts_fetch_status | intros data].
    apply halts_bind; [apply halts_lift | intros loaded].
    apply halts_bind; [apply halts_as_dict | intros job_data]. cbv zeta.
    destruct (negb _); [apply halts_raise|].
    apply halts_bind; [apply halts_command | intros _].
    apply halts_bind; [apply halts_lift | intros s].
    apply halts_bind; [apply halts_command | intros _].
    apply halts_bind; [apply halts_publish_quietly | intros _; apply halts_ret].
  - apply halts_bind; [apply halts_fetch_status | intros data].
    apply halts_bind; [apply halts_lift | intros loaded].
    apply halts_bind; [apply halts_as_dict | intros job_data]. cbv zeta.
    apply halts_bind; [destruct (truthy _); [apply halts_revoke | apply halts_ret]|].
    intros _. apply halts_bind; [apply halts_lift | intros s].
    apply halts_bind; [apply halts_command | intros _].
    apply halts_bind; [apply halts_command | intros _; apply halts_ret].
Qed.

Section ApiCommands.

Context (job_id : string).
Let E := fun ev => api_command job_id ev = true.

Lemma api_sends_log lvl msg : emits E (log lvl msg).
Proof. by apply emits_emit. Qed.

Lemma api_sends_client : emits E Routes.get_redis_client.
Proof.
  assert (emits E (redis_ping ;; ret true)) as Hping.
  { apply emits_bind; [by apply emits_command | intros _; apply emits_ret]. }
  assert (emits E (fun w => Ret tt (with_api_client false w))) as Hdrop
    by (by apply (emits_quiet E (fun _ => tt))).
  assert (forall connect : M bool, emits E connect ->
            emits E (fun w => if api_client w
                              then try_except (redis_ping ;; ret true)
                                     (fun e =>
                                        log STDOUT
                                          ("Warning: Redis connection lost, reconnecting: "
                                           +:+ exn_str e) ;;
                                        (fun w => Ret tt (with_api_client false w)) ;;
                                        connect) w
                              else connect w)) as Hclient.
  { intros connect Hconnect w. destruct (api_client w); [|apply Hconnect].
    revert w. apply emits_try_except; [exact Hping|].
    intros e. apply emits_bind; [apply api_sends_log | intros _].
    apply emits_bind; [exact Hdrop | intros _; exact Hconnect]. }
  apply Hclient. apply emits_try_except.
  - apply emits_bind; [by apply (emits_quiet E (fun _ => tt)) | intros _; exact Hping].
  - intros e. apply emits_bind.
    { destruct e; repeat first [apply api_sends_log | apply emits_bind; [|intros _]]. }
    intros _. apply emits_bind; [exact Hdrop | intros _; apply emits_ret].
Qed.

Lemma api_sends_fetch_status : emits E (Routes.fetch_status job_id).
Proof.
  unfold Routes.fetch_status.
  apply emits_bind; [apply api_sends_client | intros [|]]; cbn [negb];
    [|apply emits_raise].
  apply emits_bind.
  { apply emits_command; [|done]. unfold E, api_command. by rewrite String.eqb_refl. }
  intros [[|c s]|]; first [apply emits_ret | apply emits_raise].
Qed.

Lemma api_sends_set_status s : emits E (redis_set (status_key job_id) s).
Proof. apply emits_command; [|done]. unfold E, api_command. by rewrite String.eqb_refl. Qed.

Lemma api_sends_set_pause : emits E (redis_set (pause_key job_id) "true").
Proof.
  apply emits_command; [|done]. unfold E, api_command.
  by rewrite String.eqb_refl, orb_true_r.
Qed.

Lemma api_sends_delete_pause : emits E (redis_delete (pause_key job_id)).
Proof. apply emits_command; [|done]. unfold E, api_command. by rewrite String.eqb_refl. Qed.

Lemma api_sends_publish what event : emits E (Routes.publish_quietly what job_id event).
Proof.
  apply emits_try_except; [|intros e; apply api_sends_log].
  apply emits_bind; [apply emits_lift | intros s].
  apply emits_command; [|done]. unfold E, api_command. by rewrite String.eqb_refl.
Qed.

Lemma api_sends_as_dict v : emits E (Routes.as_dict v).
Proof. destruct v; first [apply emits_ret | apply emits_raise]. Qed.

Lemma api_sends_revoke task_id : emits E (Routes.revoke task_id).
Proof.
  intros w. unfold Routes.revoke.
  destruct (broker w) as [|[e|] rest]; cbn;
    (split; [done|]); (split; [by exists 0|]); exists []; by rewrite app_nil_r.
Qed.

Lemma api_sends_endpoint {A} what (body : M A) : emits E body -> emits E (Routes.endpoint what body).
Proof.
  intros Hbody. apply emits_try_except; [done|].
  intros e. destruct (is_http_exception e); apply emits_raise.
Qed.

Lemma api_sends_job_status : emits E (Routes.job_status job_id).
Proof.
  apply api_sends_endpoint.
  apply emits_bind; [apply api_sends_fetch_status | intros data; apply emits_lift].
Qed.

Lemma api_sends_pause_job : emits E (Routes.pause_job job_id).
Proof.
  apply api_sends_endpoint.
  apply emits_bind; [apply api_sends_fetch_status | intros data].
  apply emits_bind; [apply emits_lift | intros loaded].
  apply emits_bind; [apply api_sends_as_dict | intros job_data]. cbv zeta.
  destruct (negb _); [apply emits_raise|].
  apply emits_bind; [apply api_sends_set_pause | intros _].
  apply emits_bind; [apply emits_lift | intros s].
  apply emits_bind; [apply api_sends_set_status | intros _].
  apply emits_bind; [apply api_sends_publish | intros _; apply emits_ret].
Qed.

Lemma api_sends_resume_job : emits E (Routes.resume_job job_id).
Proof.
  apply api_sends_endpoint.
  apply emits_bind; [apply api_sends_fetch_status | intros data].
  apply emits_bind; [apply emits_lift | intros loaded].
  apply emits_bind; [apply api_sends_as_dict | intros job_data]. cbv zeta.
  destruct (negb _); [apply emits_raise|].
  apply emits_bind; [apply api_sends_delete_pause | intros _].
  apply emits_bind; [apply emits_lift | intros s].
  apply emits_bind; [apply api_sends_set_status | intros _].
  apply emits_bind; [apply api_sends_publish | intros _; apply emits_ret].
Qed.

Lemma api_sends_stop_job : emits E (Routes.stop_job job_id).
Proof.
  apply api_sends_endpoint.
  apply emits_bind; [apply api_sends_fetch_status | intros data].
  apply emits_bind; [apply emits_lift | intros loaded].
  apply emits_bind; [apply api_sends_as_dict | intros job_data]. cbv zeta.
  apply emits_bind; [destruct (truthy _); [apply api_sends_revoke | apply emits_ret]|].
  intros _. apply emits_bind; [apply emits_lift | intros s].
  apply emits_bind; [apply api_sends_set_status | intros _].
  apply emits_bind; [apply api_sends_delete_pause | intros _; apply emits_ret].
Qed.

End ApiCommands.

(** X25.  Whatever happens, the four job endpoints send the store
    nothing but health checks, reads of the job's status record, writes of
    that record and of the pause flag ["true"] (without expiry), the deletion
    of the pause flag, and events on the job's channel.  In particular no
    endpoint ever writes a cancel flag. *)
Theorem api_commands_only (job_id : string) :
  emits (fun ev => api_command job_id ev = true) (Routes.job_status job_id)
  /\ emits (fun ev => api_command job_id ev = true) (Routes.pause_job job_id)
  /\ emits (fun ev => api_command job_id ev = true) (Routes.resume_job job_id)
  /\ emits (fun ev => api_command job_id ev = true) (Routes.stop_job job_id).
Proof.
  split; [apply api_sends_job_status|]. split; [apply api_sends_pause_job|].
  split; [apply api_sends_resume_job | apply api_sends_stop_job].
Qed.

(** X26.  The API's [get_redis_client] never raises: it returns a
    client or [None] ([true] or [false] here), the cached client is afterwards
    what it returned, and it returns [None] only when a command failed. *)
Theorem api_client_never_raises (w : World) :
  exists b w1,
    Routes.get_redis_client w = Ret b w1
    /\ api_client w1 = b
    /\ (b = true \/ ~ faultless (script w)).
Proof.
  assert (forall t l, fault t <> None -> ~ faultless (t :: l)) as Hbad.
  { intros t l Ht Hf. by apply Forall_cons in Hf as [? _]. }
  unfold Routes.get_redis_client, try_except, bind, redis_ping, command, log, emit.
  destruct (api_client w) eqn:Hc; simpl;
    destruct (script w) as [|[upd [e|]] [|[upd' [e'|]] rest]]; simpl;
    try destruct e; try destruct e'; simpl;
    eexists _, _; (split; [reflexivity|]); simpl;
    (split; [done|]);
    first [ by left | right; by apply Hbad ].
Qed.

(** * The model factory *)

Lemma model_type_text model_config name :
  dict_get "model_type" model_config = Some (JStr name) ->
  dict_get_default "model_type" (JStr "random_forest") model_config = JStr name.
Proof. unfold dict_get_default. by intros ->. Qed.

(** X27.  A [model_type] that is none of the seven known names (in any
    letter case) is not refused: [create_model] builds a random forest, while
    [get_model_display_name] hands back the unknown name unchanged for the
    progress message. *)
Theorem unknown_model_type_builds_random_forest task_type model_config name :
  dict_get "model_type" model_config = Some (JStr name) ->
  lower name ∉ ["knn"; "k_nearest_neighbors"; "random_forest"; "svm";
                "support_vector_machine"; "decision_tree"; "dt"] ->
  exists est,
    Tasks.create_model task_type model_config = inr est
    /\ Tasks.class_name est
       = (if String.eqb task_type "classification"
          then "RandomForestClassifier" else "RandomForestRegressor")
    /\ Tasks.get_model_display_name name = name.
Proof.
  intros Hname Hunknown.
  rewrite !not_elem_of_cons in Hunknown.
  destruct Hunknown as (H1 & H2 & H3 & H4 & H5 & H6 & H7 & _).
  unfold Tasks.create_model. rewrite (model_type_text _ _ Hname). cbv zeta.
  rewrite !(bool_decide_eq_false_2 (lower name ∈ _))
    by (rewrite !elem_of_cons, elem_of_nil; tauto).
  unfold Tasks.get_model_display_name. cbv zeta.
  rewrite (proj2 (String.eqb_neq _ _) H1), (proj2 (String.eqb_neq _ _) H2),
    (proj2 (String.eqb_neq _ _) H3), (proj2 (String.eqb_neq _ _) H4),
    (proj2 (String.eqb_neq _ _) H5), (proj2 (String.eqb_neq _ _) H6),
    (proj2 (String.eqb_neq _ _) H7).
  destruct (String.eqb task_type "classification"); by eexists.
Qed.

Lemma unknown_model_type_builds_random_forest_witness :
  exists est,
    Tasks.create_model "classification" [("model_type", JStr "XGBoost")] = inr est
    /\ Tasks.class_name est
       = (if String.eqb "classification" "classification"
          then "RandomForestClassifier" else "RandomForestRegressor")
    /\ Tasks.get_model_display_name "XGBoost" = "XGBoost".
Proof.
  apply (unknown_model_type_builds_random_forest "classification"
           [("model_type", JStr "XGBoost")] "XGBoost").
  - reflexivity.
  - apply (proj1 (bool_decide_eq_false _)). vm_compute. reflexivity.
Defined.

(** X28.  [create_model] builds a classifier exactly for the task type
    ["classification"] and a regressor for any other text; and whenever it
    builds a nearest-neighbour model, a decision tree or a support-vector
    machine, [get_model_display_name] gives that family's name.  (For a random
    forest the display name is ["Random Forest"] or the text the caller
    gave.) *)
Theorem model_built_and_display_name task_type model_config name est :
  dict_get_default "model_type" (JStr "random_forest") model_config = JStr name ->
  Tasks.create_model task_type model_config = inr est ->
  ((task_type = "classification"
    /\ Tasks.class_name est ∈ ["KNeighborsClassifier"; "DecisionTreeClassifier"; "SVC";
                               "RandomForestClassifier"])
   \/ (task_type <> "classification"
       /\ Tasks.class_name est ∈ ["KNeighborsRegressor"; "DecisionTreeRegressor"; "SVR";
                                  "RandomForestRegressor"]))
  /\ ((Tasks.class_name est ∈ ["KNeighborsClassifier"; "KNeighborsRegressor"]
       /\ Tasks.get_model_display_name name = "K-Nearest Neighbors (KNN)")
      \/ (Tasks.class_name est ∈ ["DecisionTreeClassifier"; "DecisionTreeRegressor"]
          /\ Tasks.get_model_display_name name = "Decision Tree")
      \/ (Tasks.class_name est ∈ ["SVC"; "SVR"]
          /\ Tasks.get_model_display_name name = "Support Vector Machine (SVM)")
      \/ (Tasks.class_name est ∈ ["RandomForestClassifier"; "RandomForestRegressor"]
          /\ (Tasks.get_model_display_name name = "Random Forest"
              \/ Tasks.get_model_display_name name = name))).
Proof.
  intros Hname. unfold Tasks.create_model. rewrite Hname. cbv zeta.
  unfold Tasks.get_model_display_name. cbv zeta.
  assert (forall a l, a ∈ (a :: l : list string)) as Hhere by (intros; apply list_elem_of_here).
  assert (forall a b l, a ∈ (b :: a :: l : list string)) as Hnext
    by (intros; apply list_elem_of_further, list_elem_of_here).
  assert (forall a b c l, a ∈ (c :: b :: a :: l : list string)) as Hthird
    by (intros; do 2 apply list_elem_of_further; apply list_elem_of_here).
  assert (forall a b c d l, a ∈ (d :: c :: b :: a :: l : list string)) as Hfourth
    by (intros; do 3 apply list_elem_of_further; apply list_elem_of_here).
  destruct (String.eqb_spec task_type "classification") as [->|Htask];
    repeat case_bool_decide;
    repeat match goal with
           | H : lower name ∈ _ |- _ =>
               rewrite !elem_of_cons, elem_of_nil in H
           | H : ~ lower name ∈ _ |- _ =>
               rewrite !elem_of_cons, elem_of_nil in H
           end;
    intros [= <-]; cbn [Tasks.class_name];
    (split; [first [left; split; [done|]; auto | right; split; [done|]; auto]|]);
    repeat match goal with
           | H : _ \/ _ |- _ => destruct H as [H|H]
           | H : False |- _ => destruct H
           | H : lower name = _ |- _ => rewrite H; clear H
           end;
    cbn [String.eqb Ascii.eqb Bool.eqb];
    try (left; split; [by auto | reflexivity]);
    try (right; left; split; [by auto | reflexivity]);
    try (right; right; left; split; [by auto | reflexivity]);
    right; right; right; (split; [by auto|]);
    repeat match goal with
           | |- context [String.eqb (lower name) ?s] =>
               destruct (String.eqb_spec (lower name) s); [tauto|]
           end;
    repeat match goal with
           | |- context [if String.eqb (lower name) ?s then _ else _] =>
               destruct (String.eqb (lower name) s); [by left|]
           end; by right.
Qed.

Lemma model_built_and_display_name_witness :
  (("classification" = "classification"
    /\ Tasks.class_name Scenario.knn_classifier
       ∈ ["KNeighborsClassifier"; "DecisionTreeClassifier"; "SVC";
          "RandomForestClassifier"])
   \/ ("classification" <> "classification"
       /\ Tasks.class_name Scenario.knn_classifier
          ∈ ["KNeighborsRegressor"; "DecisionTreeRegressor"; "SVR";
             "RandomForestRegressor"]))
  /\ ((Tasks.class_name Scenario.knn_classifier
       ∈ ["KNeighborsClassifier"; "KNeighborsRegressor"]
       /\ Tasks.get_model_display_name "KNN" = "K-Nearest Neighbors (KNN)")
      \/ (Tasks.class_name Scenario.knn_classifier
          ∈ ["DecisionTreeClassifier"; "DecisionTreeRegressor"]
          /\ Tasks.get_model_display_name "KNN" = "Decision Tree")
      \/ (Tasks.class_name Scenario.knn_classifier ∈ ["SVC"; "SVR"]
          /\ Tasks.get_model_display_name "KNN" = "Support Vector Machine (SVM)")
      \/ (Tasks.class_name Scenario.knn_classifier
          ∈ ["RandomForestClassifier"; "RandomForestRegressor"]
          /\ (Tasks.get_model_display_name "KNN" = "Random Forest"
              \/ Tasks.get_model_display_name "KNN" = "KNN"))).
Proof.
  apply (model_built_and_display_name "classification" Scenario.knn_config "KNN"
           Scenario.knn_classifier).
  - reflexivity.
  - vm_compute. reflexivity.
Defined.

(** X29.  A [model_type] that is present but not a string ([null], a
    number, ...) makes [create_model] raise at [.lower()], and no run with
    such a configuration returns a result. *)
Theorem model_type_must_be_text task_type model_config v :
  dict_get "model_type" model_config = Some v ->
  match v with JStr _ => False | _ => True end ->
  Tasks.create_model task_type model_config
  = inl (PyException "object has no attribute 'lower'")
  /\ forall fuel self env dataset_path target_column job_id result (w w' : World),
       Tasks.train_model_task fuel self env dataset_path model_config target_column
         job_id task_type w <> Ret result w'.
Proof.
  intros Hv Hkind.
  assert (dict_get_default "model_type" (JStr "random_forest") model_config = v) as Hd
    by (unfold dict_get_default; by rewrite Hv).
  split.
  - unfold Tasks.create_model. rewrite Hd. by destruct v.
  - intros fuel self env dataset_path target_column job_id result w w' Hrun.
    unfold Tasks.train_model_task in Hrun.
    apply bind_Ret_inv in Hrun as (start_time & w0 & _ & H).
    apply try_except_Ret_inv in H as [H|(e & w1 & _ & H)];
      [|by destruct (@on_exception_raises dict job_id e w1) as (w2 & Hraise);
          rewrite Hraise in H].
    apply bind_Ret_inv in H as ([] & wa & _ & H).
    apply bind_Ret_inv in H as (loaded & wb & _ & H).
    apply bind_Ret_inv in H as (n_train & wc & _ & H).
    apply bind_Ret_inv in H as (total_epochs & wd & Hinit & _).
    unfold Tasks.init_model in Hinit. rewrite Hd in Hinit. by destruct v.
Qed.

Lemma model_type_must_be_text_witness :
  Tasks.create_model "classification" [("model_type", JNull)]
  = inl (PyException "object has no attribute 'lower'")
  /\ forall fuel self env dataset_path target_column job_id result (w w' : World),
       Tasks.train_model_task fuel self env dataset_path [("model_type", JNull)]
         target_column job_id "classification" w <> Ret result w'.
Proof.
  apply (model_type_must_be_text "classification" [("model_type", JNull)] JNull).
  - reflexivity.
  - exact I.
Defined.
